(** * Inventory / permissions ledger (script.js): balance engine and backup

    A shallow embedding of the data store and of the two ledger functions of
    [script.js], [computeBalances] and [getItemCard], together with the
    entity operations and the backup export / restore pair they are used
    with; then the store loader, the entry, edit and item forms, the
    permission search, the items import and the CSV exports.

    Conventions of the embedding.
    - A JavaScript object used as a dictionary ([balances], [out]) is a
      [gmap string Z].  Its keys are item ids, which [uid] generates; keys
      that name a member of [Object.prototype] are not modelled.
    - Quantities and balances are integers ([Z]): the entry and edit forms
      take them from inputs with [step = 1], and on integers of magnitude up
      to 2^53 the arithmetic of JavaScript numbers (binary64) is exact, so
      that the order of the additions does not matter there.  [exactRange]
      states that bound where a property compares sums that the code takes
      in two different orders.  A [qty] that is missing or not numeric is
      [None]: [Number(qty)] is then [NaN].  The items import and a restored
      backup can bring in fractions: module [Doubles] runs the two ledger
      functions on binary64 numbers ([PrimFloat]) for that case.  The
      properties of the entity operations and of the entry form follow the
      additions in the order of the code.
    - A string field that may be absent or empty ([date], [desc], the
      filters) is falsy exactly when it is empty or undefined.
    - [new Date(s)] is a parameter [Date_parse] of the development (the time
      value in milliseconds, [None] for an invalid date); a concrete parser
      for the ISO formats the application writes is given in [IsoDate].
    - [Array.prototype.sort] is a stable insertion sort; [JSON.stringify]
      and [JSON.parse] are a printer and a parser on byte strings (UTF-8),
      given in [JSON].  The parser reads the JSON texts whose numbers are
      integers, which holds every text the printer writes, and gives [None]
      on any other text.  A value in memory that may hold [NaN] or an
      infinity is a [jsvalue], and [serialize] is what [JSON.stringify]
      makes of it.
    - CSV lines are byte strings too: the comma, the quote and the line
      breaks that the CSV code tests are ASCII, and no byte of a longer
      UTF-8 sequence is, so the loops see them where the UTF-16 loops of
      JavaScript do.
    - The handlers of the forms read the page through records of field
      values and lists of rows, and return the store together with what
      they alert.  [trim], [toLowerCase], [includes], [localeCompare] and
      [Number] on the value of an input are parameters; the random part of
      the ids that [uid] makes and the readings of the clock come with the
      environment ([Env]).  Rendering is taken to return normally on a
      store the application has written; after a restore, [refreshAllViews]
      sorts the items of such a store in place, and what it does to any
      other restored value is a parameter ([renderOther]). *)

From stdpp Require Import gmap strings list fin_maps sorting.
From Stdlib Require Import ZArith Lia Permutation Ascii.
From Stdlib Require DecimalZ DecimalPos DecimalFacts PrimFloat.

Open Scope Z_scope.

(** ** Data model *)

Record Item := mkItem {
  it_id : string;
  it_name : string;
  it_unit : string;
  it_type : string;
  it_group : string
}.

Record Warehouse := mkWarehouse {
  wh_id : string;
  wh_name : string;
  wh_desc : string
}.

Record Line := mkLine {
  l_itemId : string;
  l_unit : string;
  l_qty : option Z;
  l_desc : string
}.

Record Permission := mkPermission {
  p_id : string;
  p_number : string;
  p_type : string;
  p_store : string;
  p_from : string;
  p_to : string;
  p_date : string;
  p_subNumber : string;
  p_posted : bool;
  p_postedAt : string;
  p_lines : list Line;
  p_createdAt : string
}.

Record Store := mkStore {
  items : list Item;
  warehouses : list Warehouse;
  permissions : list Permission
}.

(** The five document kinds, as the [switch] of [computeBalances] spells
    them. *)
Definition T_ADD : string := "إذن إضافة".
Definition T_TRANSFER : string := "إذن تحويل".
Definition T_DEDUCT : string := "إذن خصم معدة".
Definition T_DISBURSE : string := "إذن صرف".
Definition T_RETURN : string := "إذن ارتجاع".

Definition knownType (t : string) : bool :=
  String.eqb t T_ADD || String.eqb t T_TRANSFER || String.eqb t T_DEDUCT
  || String.eqb t T_DISBURSE || String.eqb t T_RETURN.

(** ** The JavaScript operators the ledger relies on *)

(** Truthiness of an optional string argument. *)
Definition truthy (s : option string) : bool :=
  match s with
  | Some s => negb (String.eqb s "")
  | None => false
  end.

(** [a || b] on strings. *)
Definition str_or (a b : string) : string :=
  if String.eqb a "" then b else a.

(** [Number(x) || 0]: [NaN] and [0] both give [0]. *)
Definition num_or0 (n : option Z) : Z :=
  match n with
  | Some z => if z =? 0 then 0 else z
  | None => 0
  end.

(** [a < b] and [a > b] on time values: false as soon as one side is
    [NaN]. *)
Definition date_lt (a b : option Z) : bool :=
  match a, b with
  | Some x, Some y => x <? y
  | _, _ => false
  end.

Definition date_gt (a b : option Z) : bool :=
  match a, b with
  | Some x, Some y => x >? y
  | _, _ => false
  end.

(** [a - b] on time values: [NaN] as soon as one side is. *)
Definition date_sub (a b : option Z) : option Z :=
  match a, b with
  | Some x, Some y => Some (x - y)
  | _, _ => None
  end.

(** [Array.prototype.sort] with a comparator: the sort is stable, and a
    comparator result that is [NaN] counts as [0].  Each element is put in
    front of the sorted rest unless the comparator orders it strictly after
    the head. *)
Section ArraySort.
Context {A : Type} (cmp : A -> A -> option Z).

Definition sorts_after (x y : A) : bool :=
  match cmp x y with
  | Some v => 0 <? v
  | None => false
  end.

Fixpoint sort_insert (x : A) (l : list A) : list A :=
  match l with
  | [] => [x]
  | y :: l' => if sorts_after x y then y :: sort_insert x l' else x :: l
  end.

Fixpoint array_sort (l : list A) : list A :=
  match l with
  | [] => []
  | x :: l' => sort_insert x (array_sort l')
  end.
End ArraySort.

(** ** Entity operations *)

Definition removeItem (itemId : string) (st : Store) : Store :=
  {| items := List.filter (fun i => negb (String.eqb (it_id i) itemId)) (items st);
     warehouses := warehouses st;
     permissions := permissions st |}.

(** [addPermission]: [store.permissions.push(p)], where [p] is the
    permission with its fresh id and creation time already merged in. *)
Definition addPermission (p : Permission) (st : Store) : Store :=
  {| items := items st;
     warehouses := warehouses st;
     permissions := permissions st ++ [p] |}.

Definition deletePermission (id : string) (st : Store) : Store :=
  {| items := items st;
     warehouses := warehouses st;
     permissions :=
       List.filter (fun p => negb (String.eqb (p_id p) id)) (permissions st) |}.

(** ** Filters of [computeBalances] *)

Record Filters := mkFilters {
  fromDate : option string;
  toDate : option string;
  filterPermType : option string;
  filterItemId : option string;
  filterGroup : option string
}.

Definition noFilters : Filters := mkFilters None None None None None.

Definition opt_str (s : option string) : string := default "" s.

Section Ledger.
(** The time value of [new Date(s)] for a non-empty [s]. *)
Variable Date_parse : string -> option Z.

(** [new Date(s)]: the empty string (and [undefined]) is an invalid
    date. *)
Definition newDate (s : string) : option Z :=
  if String.eqb s "" then None else Date_parse s.

(** *** computeBalances *)

(** The second [filter] callback. *)
Definition keepPermission (f : Filters) (p : Permission) : bool :=
  if truthy (filterPermType f)
     && negb (String.eqb (p_type p) (opt_str (filterPermType f)))
  then false
  else if truthy (fromDate f)
          && date_lt (newDate (p_date p)) (newDate (opt_str (fromDate f)))
  then false
  else if truthy (toDate f)
          && date_gt (newDate (p_date p)) (newDate (opt_str (toDate f)))
  then false
  else true.

(** The permissions that reach the [forEach]. *)
Definition selected (f : Filters) (st : Store) : list Permission :=
  List.filter (keepPermission f) (List.filter p_posted (permissions st)).

(** The body of the inner [forEach], for one line of a permission of
    type [ty]. *)
Definition postLine (ty : string) (balances : gmap string Z) (line : Line)
  : gmap string Z :=
  let balances :=
    match balances !! l_itemId line with
    | Some _ => balances
    | None => <[l_itemId line := 0]> balances
    end in
  let qty := num_or0 (l_qty line) in
  if String.eqb ty T_ADD then alter (fun b => b + qty) (l_itemId line) balances
  else if String.eqb ty T_TRANSFER then alter (fun b => b - qty) (l_itemId line) balances
  else if String.eqb ty T_DEDUCT then alter (fun b => b - qty) (l_itemId line) balances
  else if String.eqb ty T_DISBURSE then alter (fun b => b - qty) (l_itemId line) balances
  else if String.eqb ty T_RETURN then alter (fun b => b + qty) (l_itemId line) balances
  else balances.

Definition postPermission (balances : gmap string Z) (p : Permission)
  : gmap string Z :=
  fold_left (postLine (p_type p)) (p_lines p) balances.

(** [balances[k] || 0]. *)
Definition bal_or0 (balances : gmap string Z) (k : string) : Z :=
  num_or0 (balances !! k).

Definition initBalances (its : list Item) : gmap string Z :=
  fold_left (fun b it => <[it_id it := 0]> b) its ∅.

Definition scanBalances (f : Filters) (st : Store) : gmap string Z :=
  fold_left postPermission (selected f st) (initBalances (items st)).

Definition computeBalances (f : Filters) (st : Store) : gmap string Z :=
  let balances := scanBalances f st in
  if truthy (filterItemId f) then
    {[ opt_str (filterItemId f) := bal_or0 balances (opt_str (filterItemId f)) ]}
  else if truthy (filterGroup f) then
    fold_left (fun out it => <[it_id it := bal_or0 balances (it_id it)]> out)
      (List.filter (fun it => String.eqb (it_group it) (opt_str (filterGroup f)))
         (items st))
      ∅
  else balances.

(** *** getItemCard *)

Record Tx := mkTx {
  tx_header : string;
  tx_in : Z;
  tx_out : Z;
  tx_desc : string;
  tx_permNumber : string;
  tx_date : string
}.

Record Row := mkRow {
  row_tx : Tx;
  row_balance : Z
}.

Record Card := mkCard {
  rows : list Row;
  balance : Z
}.

Definition effDate (p : Permission) : string := str_or (p_date p) (p_createdAt p).

(** The comparator handed to [sort]. *)
Definition byDate (a b : Permission) : option Z :=
  date_sub (newDate (effDate a)) (newDate (effDate b)).

Definition hasItem (itemId : string) (p : Permission) : bool :=
  existsb (fun l => String.eqb (l_itemId l) itemId) (p_lines p).

Definition isIn (ty : string) : bool :=
  String.eqb ty T_ADD || String.eqb ty T_RETURN.

Definition lineTx (p : Permission) (line : Line) : Tx :=
  let qty := num_or0 (l_qty line) in
  {| tx_header := p_type p;
     tx_in := if isIn (p_type p) then qty else 0;
     tx_out := if isIn (p_type p) then 0 else qty;
     tx_desc := str_or (l_desc line) "";
     tx_permNumber := p_number p;
     tx_date := effDate p |}.

(** The inner [forEach] over the lines of one permission. *)
Definition pushLines (itemId : string) (txs : list Tx) (p : Permission)
  : list Tx :=
  fold_left
    (fun txs line =>
       if negb (String.eqb (l_itemId line) itemId) then txs
       else txs ++ [lineTx p line])
    (p_lines p) txs.

Definition cardPermissions (itemId : string) (st : Store) : list Permission :=
  array_sort byDate
    (List.filter (hasItem itemId) (List.filter p_posted (permissions st))).

Definition cardTxs (itemId : string) (st : Store) : list Tx :=
  fold_left (pushLines itemId) (cardPermissions itemId st) [].

(** The running-balance loop: the state is [(rows, bal)]. *)
Definition runStep (acc : list Row * Z) (t : Tx) : list Row * Z :=
  let bal := snd acc + (tx_in t - tx_out t) in
  (fst acc ++ [mkRow t bal], bal).

Definition getItemCard (itemId : string) (st : Store) : Card :=
  let r := fold_left runStep (cardTxs itemId st) ([], 0) in
  {| rows := fst r; balance := snd r |}.

End Ledger.

(** ** A concrete [Date_parse]: the ISO formats the application writes

  [<input type="date">] and [toISOString().slice(0,10)] give
  [YYYY-MM-DD] (midnight UTC); [toISOString()] gives
  [YYYY-MM-DDTHH:mm:ss.sssZ].  Any other string is an invalid date
  here. *)
Module IsoDate.

Definition digit (c : ascii) : option Z :=
  let n := Z.of_nat (nat_of_ascii c) in
  if (48 <=? n) && (n <=? 57) then Some (n - 48) else None.

Fixpoint number (acc : Z) (cs : list ascii) : option Z :=
  match cs with
  | [] => Some acc
  | c :: cs' =>
      match digit c with
      | Some d => number (10 * acc + d) cs'
      | None => None
      end
  end.

Definition isLeap (y : Z) : bool :=
  ((y mod 4 =? 0) && negb (y mod 100 =? 0)) || (y mod 400 =? 0).

Definition daysInMonth (y m : Z) : Z :=
  if m =? 2 then (if isLeap y then 29 else 28)
  else if (m =? 4) || (m =? 6) || (m =? 9) || (m =? 11) then 30
  else 31.

(** Days between 1970-01-01 and the civil date [y-m-d]. *)
Definition daysFromCivil (y m d : Z) : Z :=
  let y' := if m <=? 2 then y - 1 else y in
  let era := y' / 400 in
  let yoe := y' - era * 400 in
  let mp := if 2 <? m then m - 3 else m + 9 in
  let doy := (153 * mp + 2) / 5 + d - 1 in
  let doe := yoe * 365 + yoe / 4 - yoe / 100 + doy in
  era * 146097 + doe - 719468.

Definition msPerDay : Z := 86400000.

Definition civil (y m d : list ascii) : option Z :=
  match number 0 y, number 0 m, number 0 d with
  | Some y, Some m, Some d =>
      if (1 <=? m) && (m <=? 12) && (1 <=? d) && (d <=? daysInMonth y m)
      then Some (daysFromCivil y m d * msPerDay)
      else None
  | _, _, _ => None
  end.

Definition clock (h mi s ms : list ascii) : option Z :=
  match number 0 h, number 0 mi, number 0 s, number 0 ms with
  | Some h, Some mi, Some s, Some ms =>
      if (h <=? 23) && (mi <=? 59) && (s <=? 59)
      then Some (((h * 60 + mi) * 60 + s) * 1000 + ms)
      else None
  | _, _, _, _ => None
  end.

Definition parse (s : string) : option Z :=
  match String.list_ascii_of_string s with
  | [y1; y2; y3; y4; "-"; m1; m2; "-"; d1; d2]%char =>
      civil [y1; y2; y3; y4] [m1; m2] [d1; d2]
  | [y1; y2; y3; y4; "-"; m1; m2; "-"; d1; d2; "T"; h1; h2; ":"; i1; i2;
     ":"; s1; s2; "."; f1; f2; f3; "Z"]%char =>
      match civil [y1; y2; y3; y4] [m1; m2] [d1; d2],
            clock [h1; h2] [i1; i2] [s1; s2] [f1; f2; f3] with
      | Some day, Some t => Some (day + t)
      | _, _ => None
      end
  | _ => None
  end.

End IsoDate.

(** ** The sign rule and the signed sums, as the specification words them *)

(** Addition and return count positively, transfer, equipment deduction and
    disbursement negatively, any other type not at all. *)
Definition signOf (ty : string) : Z :=
  if String.eqb ty T_ADD || String.eqb ty T_RETURN then 1
  else if String.eqb ty T_TRANSFER || String.eqb ty T_DEDUCT
          || String.eqb ty T_DISBURSE then -1
  else 0.

Definition signedQty (ty : string) (line : Line) : Z :=
  signOf ty * num_or0 (l_qty line).

(** Signed sum of the lines of [ls] that name item [k]. *)
Definition lineSum (k ty : string) (ls : list Line) : Z :=
  foldr (fun l acc =>
           (if String.eqb (l_itemId l) k then signedQty ty l else 0) + acc)
        0 ls.

(** Signed sum over the lines of the permissions [ps] that name item [k]. *)
Definition permSum (k : string) (ps : list Permission) : Z :=
  foldr (fun p acc => lineSum k (p_type p) (p_lines p) + acc) 0 ps.

(** Some line of some permission of [ps] names item [k]. *)
Definition mentions (k : string) (ps : list Permission) : bool :=
  existsb (hasItem k) ps.

Definition isItemId (k : string) (its : list Item) : bool :=
  existsb (fun it => String.eqb (it_id it) k) its.

(** ** The item card, as the specification words it *)

(** Inbound lines count [+qty], all others [-qty]. *)
Definition cardSigned (ty : string) (line : Line) : Z :=
  if isIn ty then num_or0 (l_qty line) else - num_or0 (l_qty line).

Definition cardLineSum (k : string) (p : Permission) : Z :=
  foldr (fun l acc =>
           (if String.eqb (l_itemId l) k then cardSigned (p_type p) l else 0) + acc)
        0 (p_lines p).

Definition cardSum (k : string) (ps : list Permission) : Z :=
  foldr (fun p acc => cardLineSum k p + acc) 0 ps.

(** The rows one permission contributes to the card of [itemId]. *)
Definition linesTx (itemId : string) (p : Permission) : list Tx :=
  map (lineTx p)
      (List.filter (fun l => String.eqb (l_itemId l) itemId) (p_lines p)).

Definition net (t : Tx) : Z := tx_in t - tx_out t.

Definition netSum (txs : list Tx) : Z := foldr (fun t acc => net t + acc) 0 txs.

(** Rows with their running totals, starting from [bal]. *)
Fixpoint running (bal : Z) (txs : list Tx) : list Row :=
  match txs with
  | [] => []
  | t :: txs' => mkRow t (bal + net t) :: running (bal + net t) txs'
  end.

(** Order on time values; an invalid date is not comparable. *)
Definition date_le (a b : option Z) : Prop :=
  match a, b with
  | Some x, Some y => x <= y
  | _, _ => False
  end.

Definition onlyItem (id : string) : Filters :=
  mkFilters None None None (Some id) None.

Definition qtySum (k : string) (p : Permission) : Z :=
  foldr (fun l acc =>
           (if String.eqb (l_itemId l) k then num_or0 (l_qty l) else 0) + acc)
        0 (p_lines p).

(** A permission whose only line is for item [id], with quantity [q]. *)
Definition singleLine (p : Permission) (ty id : string) (q : Z) : Prop :=
  p_posted p = true /\ p_type p = ty
  /\ exists line, p_lines p = [line] /\ l_itemId line = id /\ l_qty line = Some q.

(** Whether the type filter lets [p] through. *)
Definition typePasses (pt : option string) (p : Permission) : Prop :=
  truthy pt = true -> pt = Some (p_type p).

(** The comparator of a sort by a time-valued key. *)
Definition byKey {A : Type} (key : A -> option Z) (x y : A) : option Z :=
  date_sub (key x) (key y).

Definition key_le {A : Type} (key : A -> option Z) (x y : A) : Prop :=
  date_le (key x) (key y).

Section DateWords.
Variable Date_parse : string -> option Z.

(** The time value a permission is sorted by. *)
Definition timeOf (p : Permission) : option Z := newDate Date_parse (effDate p).

(** [d1] is not later than [d2], as dates. *)
Definition notLater (d1 d2 : string) : Prop :=
  date_le (newDate Date_parse d1) (newDate Date_parse d2).

End DateWords.

(** Decides the comparisons left in a goal about the filter callback. *)
Ltac bounds :=
  repeat match goal with
         | |- context [Z.ltb ?a ?b] => destruct (Z.ltb_spec a b)
         | |- context [Z.gtb ?a ?b] => destruct (Z.gtb_spec a b)
         end;
  simpl; try lia; try done; try (by intros (_ & _ & ?)).

(** ** JSON values and the [JSON] builtins *)
Module JSON.

#[local] Unset Elimination Schemes.
Inductive json :=
| JNull
| JBool (b : bool)
| JNum (z : Z)
| JStr (s : string)
| JArr (vs : list json)
| JObj (fields : list (string * json)).

Definition chars (s : string) : list ascii := String.list_ascii_of_string s.

(** *** JSON.stringify(value, null, gap) *)

Fixpoint uint_chars (u : Decimal.uint) : list ascii :=
  match u with
  | Decimal.Nil => []
  | Decimal.D0 u => "0"%char :: uint_chars u
  | Decimal.D1 u => "1"%char :: uint_chars u
  | Decimal.D2 u => "2"%char :: uint_chars u
  | Decimal.D3 u => "3"%char :: uint_chars u
  | Decimal.D4 u => "4"%char :: uint_chars u
  | Decimal.D5 u => "5"%char :: uint_chars u
  | Decimal.D6 u => "6"%char :: uint_chars u
  | Decimal.D7 u => "7"%char :: uint_chars u
  | Decimal.D8 u => "8"%char :: uint_chars u
  | Decimal.D9 u => "9"%char :: uint_chars u
  end.

Definition num_chars (z : Z) : list ascii :=
  match Z.to_int z with
  | Decimal.Pos u => uint_chars u
  | Decimal.Neg u => "-"%char :: uint_chars u
  end.

Definition hexdigit (n : N) : ascii :=
  nth (N.to_nat n) (chars "0123456789abcdef") "0"%char.

(** QuoteJSONString, one character. *)
Definition escape (c : ascii) : list ascii :=
  if Ascii.eqb c "034" then ["\"; "034"]%char
  else if Ascii.eqb c "\" then chars "\\"
  else if Ascii.eqb c "008" then chars "\b"
  else if Ascii.eqb c "012" then chars "\f"
  else if Ascii.eqb c "010" then chars "\n"
  else if Ascii.eqb c "013" then chars "\r"
  else if Ascii.eqb c "009" then chars "\t"
  else if (N_of_ascii c <? 32)%N then
    chars "\u00" ++ [hexdigit (N_of_ascii c / 16); hexdigit (N_of_ascii c mod 16)]
  else [c].

Definition quote (s : string) : list ascii :=
  "034"%char :: flat_map escape (chars s) ++ ["034"%char].

(** The line break and indentation between two entries; nothing when
    [gap] is [0]. *)
Definition brk (gap ind : nat) : list ascii :=
  if Nat.eqb gap 0 then [] else "010"%char :: repeat " "%char ind.

Definition colon (gap : nat) : list ascii :=
  if Nat.eqb gap 0 then [":"%char] else [":"%char; " "%char].

(** The entries of an array or object, joined by the separator. *)
Fixpoint join {A : Type} (sep : list ascii) (pr : A -> list ascii) (xs : list A)
  : list ascii :=
  match xs with
  | [] => []
  | x :: xs' =>
      pr x ++ match xs' with
              | [] => []
              | _ => sep ++ join sep pr xs'
              end
  end.

Fixpoint print (gap ind : nat) (v : json) : list ascii :=
  match v with
  | JNull => chars "null"
  | JBool true => chars "true"
  | JBool false => chars "false"
  | JNum z => num_chars z
  | JStr s => quote s
  | JArr [] => chars "[]"
  | JArr vs =>
      "["%char :: brk gap (ind + gap)
      ++ join (","%char :: brk gap (ind + gap)) (print gap (ind + gap)) vs
      ++ brk gap ind ++ ["]"%char]
  | JObj [] => chars "{}"
  | JObj fs =>
      "{"%char :: brk gap (ind + gap)
      ++ join (","%char :: brk gap (ind + gap))
           (fun kv => quote (fst kv) ++ colon gap ++ print gap (ind + gap) (snd kv))
           fs
      ++ brk gap ind ++ ["}"%char]
  end.

Definition stringify (gap : nat) (v : json) : string :=
  String.string_of_list_ascii (print gap 0 v).

(** *** JSON.parse *)

Definition is_ws (c : ascii) : bool :=
  Ascii.eqb c " " || Ascii.eqb c "009" || Ascii.eqb c "010" || Ascii.eqb c "013".

Fixpoint skip_ws (cs : list ascii) : list ascii :=
  match cs with
  | c :: r => if is_ws c then skip_ws r else cs
  | [] => []
  end.

Definition digit_of (c : ascii) : option (Decimal.uint -> Decimal.uint) :=
  if Ascii.eqb c "0" then Some Decimal.D0
  else if Ascii.eqb c "1" then Some Decimal.D1
  else if Ascii.eqb c "2" then Some Decimal.D2
  else if Ascii.eqb c "3" then Some Decimal.D3
  else if Ascii.eqb c "4" then Some Decimal.D4
  else if Ascii.eqb c "5" then Some Decimal.D5
  else if Ascii.eqb c "6" then Some Decimal.D6
  else if Ascii.eqb c "7" then Some Decimal.D7
  else if Ascii.eqb c "8" then Some Decimal.D8
  else if Ascii.eqb c "9" then Some Decimal.D9
  else None.

Fixpoint parse_uint (cs : list ascii) : Decimal.uint * list ascii :=
  match cs with
  | c :: r =>
      match digit_of c with
      | Some d => let (u, r') := parse_uint r in (d u, r')
      | None => (Decimal.Nil, cs)
      end
  | [] => (Decimal.Nil, [])
  end.

(** What may follow an integer: anything but a fraction or an exponent,
    which the integer model of numbers does not cover. *)
Definition int_end (cs : list ascii) : bool :=
  match cs with
  | c :: _ => negb (Ascii.eqb c "." || Ascii.eqb c "e" || Ascii.eqb c "E")
  | [] => true
  end.

Definition parse_number (cs : list ascii) : option (Z * list ascii) :=
  let (neg, cs') :=
    match cs with
    | c :: r => if Ascii.eqb c "-" then (true, r) else (false, cs)
    | [] => (false, cs)
    end in
  let (u, r) := parse_uint cs' in
  if Decimal.uint_beq (Decimal.unorm u) u && int_end r
  then Some (Z.of_int (if neg then Decimal.Neg u else Decimal.Pos u), r)
  else None.

Definition hexval (c : ascii) : option N :=
  let n := N_of_ascii c in
  if (48 <=? n)%N && (n <=? 57)%N then Some (n - 48)%N
  else if (97 <=? n)%N && (n <=? 102)%N then Some (n - 87)%N
  else if (65 <=? n)%N && (n <=? 70)%N then Some (n - 55)%N
  else None.

Definition hex4 (a b c d : ascii) : option N :=
  match hexval a, hexval b, hexval c, hexval d with
  | Some a, Some b, Some c, Some d => Some (((a * 16 + b) * 16 + c) * 16 + d)%N
  | _, _, _, _ => None
  end.

(** UTF-8 bytes of a code point. *)
Definition utf8 (cp : N) : list ascii :=
  if (cp <? 128)%N then [ascii_of_N cp]
  else if (cp <? 2048)%N then
    [ascii_of_N (192 + cp / 64); ascii_of_N (128 + cp mod 64)]
  else if (cp <? 65536)%N then
    [ascii_of_N (224 + cp / 4096); ascii_of_N (128 + (cp / 64) mod 64);
     ascii_of_N (128 + cp mod 64)]
  else
    [ascii_of_N (240 + cp / 262144); ascii_of_N (128 + (cp / 4096) mod 64);
     ascii_of_N (128 + (cp / 64) mod 64); ascii_of_N (128 + cp mod 64)].

Definition simple_escape (e : ascii) : option ascii :=
  if Ascii.eqb e "034" then Some "034"%char
  else if Ascii.eqb e "\" then Some "\"%char
  else if Ascii.eqb e "/" then Some "/"%char
  else if Ascii.eqb e "b" then Some "008"%char
  else if Ascii.eqb e "f" then Some "012"%char
  else if Ascii.eqb e "n" then Some "010"%char
  else if Ascii.eqb e "r" then Some "013"%char
  else if Ascii.eqb e "t" then Some "009"%char
  else None.

Definition is_high (cp : N) : bool := (55296 <=? cp)%N && (cp <? 56320)%N.
Definition is_low (cp : N) : bool := (56320 <=? cp)%N && (cp <? 57344)%N.

Definition prepend (l : list ascii) (r : option (list ascii * list ascii))
  : option (list ascii * list ascii) :=
  match r with
  | Some (s, rest) => Some (l ++ s, rest)
  | None => None
  end.

(** The characters of a string literal, after its opening quote. *)
Fixpoint parse_string (cs : list ascii) : option (list ascii * list ascii) :=
  match cs with
  | [] => None
  | c :: r =>
      if Ascii.eqb c "034" then Some ([], r)
      else if Ascii.eqb c "\" then
        match r with
        | [] => None
        | e :: r1 =>
            match simple_escape e with
            | Some x => prepend [x] (parse_string r1)
            | None =>
                if Ascii.eqb e "u" then
                  match r1 with
                  | h1 :: h2 :: h3 :: h4 :: r2 =>
                      match hex4 h1 h2 h3 h4 with
                      | Some cp =>
                          if is_high cp then
                            match r2 with
                            | b :: u :: h5 :: h6 :: h7 :: h8 :: r3 =>
                                match hex4 h5 h6 h7 h8 with
                                | Some lo =>
                                    if Ascii.eqb b "\" && Ascii.eqb u "u" && is_low lo
                                    then prepend
                                           (utf8 (65536 + (cp - 55296) * 1024
                                                  + (lo - 56320))%N)
                                           (parse_string r3)
                                    else prepend (utf8 cp) (parse_string r2)
                                | None => prepend (utf8 cp) (parse_string r2)
                                end
                            | _ => prepend (utf8 cp) (parse_string r2)
                            end
                          else prepend (utf8 cp) (parse_string r2)
                      | None => None
                      end
                  | _ => None
                  end
                else None
            end
        end
      else if (N_of_ascii c <? 32)%N then None
      else prepend [c] (parse_string r)
  end.

(** [cs] without the prefix [p], when it starts with it. *)
Fixpoint strip (p cs : list ascii) : option (list ascii) :=
  match p with
  | [] => Some cs
  | a :: p' =>
      match cs with
      | c :: r => if Ascii.eqb a c then strip p' r else None
      | [] => None
      end
  end.

Definition lit (s : string) (v : json) (cs : list ascii)
  : option (json * list ascii) :=
  match strip (chars s) cs with
  | Some r => Some (v, r)
  | None => None
  end.

Definition starts_number (c : ascii) : bool :=
  Ascii.eqb c "-" || match digit_of c with Some _ => true | None => false end.

Fixpoint parse_value (fuel : nat) (cs : list ascii) {struct fuel}
  : option (json * list ascii) :=
  match fuel with
  | O => None
  | S n =>
      match skip_ws cs with
      | [] => None
      | c :: r =>
          if starts_number c then
            match parse_number (c :: r) with
            | Some (z, r') => Some (JNum z, r')
            | None => None
            end
          else if Ascii.eqb c "{" then
            match skip_ws r with
            | [] => None
            | c' :: r' =>
                if Ascii.eqb c' "}" then Some (JObj [], r')
                else match parse_members n r with
                     | Some (fs, r'') => Some (JObj fs, r'')
                     | None => None
                     end
            end
          else if Ascii.eqb c "[" then
            match skip_ws r with
            | [] => None
            | c' :: r' =>
                if Ascii.eqb c' "]" then Some (JArr [], r')
                else match parse_elements n r with
                     | Some (vs, r'') => Some (JArr vs, r'')
                     | None => None
                     end
            end
          else if Ascii.eqb c "034" then
            match parse_string r with
            | Some (s, r') => Some (JStr (String.string_of_list_ascii s), r')
            | None => None
            end
          else if Ascii.eqb c "n" then lit "null" JNull (c :: r)
          else if Ascii.eqb c "t" then lit "true" (JBool true) (c :: r)
          else if Ascii.eqb c "f" then lit "false" (JBool false) (c :: r)
          else None
      end
  end
with parse_elements (fuel : nat) (cs : list ascii) {struct fuel}
  : option (list json * list ascii) :=
  match fuel with
  | O => None
  | S n =>
      match parse_value n cs with
      | Some (v, r) =>
          match skip_ws r with
          | [] => None
          | c :: r' =>
              if Ascii.eqb c "," then
                match parse_elements n r' with
                | Some (vs, r'') => Some (v :: vs, r'')
                | None => None
                end
              else if Ascii.eqb c "]" then Some ([v], r')
              else None
          end
      | None => None
      end
  end
with parse_members (fuel : nat) (cs : list ascii) {struct fuel}
  : option (list (string * json) * list ascii) :=
  match fuel with
  | O => None
  | S n =>
      match skip_ws cs with
      | [] => None
      | q :: r =>
          if Ascii.eqb q "034" then
            match parse_string r with
            | Some (k, r1) =>
                match skip_ws r1 with
                | [] => None
                | c :: r2 =>
                    if Ascii.eqb c ":" then
                      match parse_value n r2 with
                      | Some (v, r3) =>
                          match skip_ws r3 with
                          | [] => None
                          | c' :: r4 =>
                              if Ascii.eqb c' "," then
                                match parse_members n r4 with
                                | Some (fs, r5) =>
                                    Some ((String.string_of_list_ascii k, v) :: fs, r5)
                                | None => None
                                end
                              else if Ascii.eqb c' "}" then
                                Some ([(String.string_of_list_ascii k, v)], r4)
                              else None
                          end
                      | None => None
                      end
                    else None
                end
            | None => None
            end
          else None
      end
  end.

(** [JSON.parse(text)], as far as this development reads JSON.  [None]
    stands for a text outside that fragment: either [JSON.parse] throws a
    [SyntaxError], or the text holds a number with a fraction or an
    exponent, which [JSON.parse] reads and the integer model of numbers
    does not cover. *)
Definition parse (text : string) : option json :=
  let cs := chars text in
  match parse_value (S (length cs)) cs with
  | Some (v, r) => match skip_ws r with [] => Some v | _ => None end
  | None => None
  end.

End JSON.

Import JSON.

Arguments quote : simpl never.
Arguments brk : simpl never.
Arguments colon : simpl never.

(** What may follow a printed value inside a document. *)
Definition delimited (rest : list ascii) : bool :=
  match rest with
  | [] => true
  | c :: _ => Ascii.eqb c "," || Ascii.eqb c "]" || Ascii.eqb c "}" || is_ws c
  end.

(** The characters a value can start with. *)
Definition value_start (c : ascii) : bool :=
  starts_number c || Ascii.eqb c "{" || Ascii.eqb c "[" || Ascii.eqb c "034"
  || Ascii.eqb c "n" || Ascii.eqb c "t" || Ascii.eqb c "f".

Fixpoint wsum {A : Type} (w : A -> nat) (xs : list A) : nat :=
  match xs with
  | [] => 0
  | x :: xs' => S (w x) + wsum w xs'
  end.

(** Fuel that [parse_value] needs to read back the print of [v]. *)
Fixpoint weight (v : json) : nat :=
  match v with
  | JArr vs => S (wsum weight vs)
  | JObj fs => S (wsum (fun kv => weight (snd kv)) fs)
  | _ => 1
  end.

(** [v] is read back from its print, whatever delimiter follows it. *)
Definition reads_back (v : json) : Prop :=
  forall gap ind fuel cs rest,
    (weight v <= fuel)%nat -> delimited rest = true ->
    skip_ws cs = print gap ind v ++ rest ->
    parse_value fuel cs = Some (v, rest).

(** Induction on JSON values, with the hypothesis for every entry of an
    array or object. *)
Fixpoint json_ind (P : json -> Prop)
  (HNull : P JNull) (HBool : forall b, P (JBool b)) (HNum : forall z, P (JNum z))
  (HStr : forall s, P (JStr s))
  (HArr : forall vs, Forall P vs -> P (JArr vs))
  (HObj : forall fs, Forall (fun kv => P (snd kv)) fs -> P (JObj fs))
  (v : json) : P v :=
  match v with
  | JNull => HNull
  | JBool b => HBool b
  | JNum z => HNum z
  | JStr s => HStr s
  | JArr vs =>
      HArr vs ((fix go (vs : list json) : Forall P vs :=
                  match vs with
                  | [] => List.Forall_nil P
                  | v :: vs' =>
                      @List.Forall_cons _ P v vs'
                        (json_ind P HNull HBool HNum HStr HArr HObj v) (go vs')
                  end) vs)
  | JObj fs =>
      HObj fs ((fix go (fs : list (string * json))
                  : Forall (fun kv => P (snd kv)) fs :=
                  match fs with
                  | [] => List.Forall_nil _
                  | kv :: fs' =>
                      @List.Forall_cons _ (fun kv => P (snd kv)) kv fs'
                        (json_ind P HNull HBool HNum HStr HArr HObj (snd kv)) (go fs')
                  end) fs)
  end.

(** ** The store as a JavaScript value

    The object graph [store] holds in memory, which [JSON.stringify]
    walks.  A line without a usable [qty] has no [qty] key, and a line
    without a description, as the forms make them, no [desc] key. *)

Definition itemJS (i : Item) : json :=
  JObj [("id", JStr (it_id i)); ("name", JStr (it_name i));
        ("unit", JStr (it_unit i)); ("type", JStr (it_type i));
        ("group", JStr (it_group i))]%string.

Definition warehouseJS (w : Warehouse) : json :=
  JObj [("id", JStr (wh_id w)); ("name", JStr (wh_name w));
        ("desc", JStr (wh_desc w))]%string.

Definition lineJS (l : Line) : json :=
  JObj ([("itemId", JStr (l_itemId l)); ("unit", JStr (l_unit l))]%string
        ++ match l_qty l with
           | Some q => [("qty", JNum q)]%string
           | None => []
           end
        ++ (if String.eqb (l_desc l) "" then []
            else [("desc", JStr (l_desc l))]%string)).

Definition permissionJS (p : Permission) : json :=
  JObj [("id", JStr (p_id p)); ("posted", JBool (p_posted p));
        ("createdAt", JStr (p_createdAt p)); ("number", JStr (p_number p));
        ("store", JStr (p_store p)); ("type", JStr (p_type p));
        ("from", JStr (p_from p)); ("to", JStr (p_to p));
        ("date", JStr (p_date p)); ("subNumber", JStr (p_subNumber p));
        ("lines", JArr (map lineJS (p_lines p)));
        ("postedAt", JStr (p_postedAt p))]%string.

Definition storeJS (st : Store) : json :=
  JObj [("items", JArr (map itemJS (items st)));
        ("warehouses", JArr (map warehouseJS (warehouses st)));
        ("permissions", JArr (map permissionJS (permissions st)))]%string.

(** [obj[k]] on the fields of an object: the last binding of [k]. *)
Fixpoint lookupProp (k : string) (fields : list (string * json)) : option json :=
  match fields with
  | [] => None
  | (k', v) :: fs =>
      match lookupProp k fs with
      | Some v' => Some v'
      | None => if String.eqb k' k then Some v else None
      end
  end.

(** [v.k] for a value other than [null]; [None] is [undefined]. *)
Definition prop (k : string) (v : json) : option json :=
  match v with
  | JObj fs => lookupProp k fs
  | _ => None
  end.

(** Truthiness of a property. *)
Definition toBoolean (v : option json) : bool :=
  match v with
  | None => false
  | Some JNull => false
  | Some (JBool b) => b
  | Some (JNum z) => negb (z =? 0)
  | Some (JStr s) => negb (String.eqb s "")
  | Some (JArr _) => true
  | Some (JObj _) => true
  end.

(** Reading the typed content back from a store value. *)
Definition readStr (k : string) (v : json) : option string :=
  match prop k v with
  | Some (JStr s) => Some s
  | _ => None
  end.

Definition readBool (k : string) (v : json) : option bool :=
  match prop k v with
  | Some (JBool b) => Some b
  | _ => None
  end.

Definition readNum (k : string) (v : json) : option Z :=
  match prop k v with
  | Some (JNum z) => Some z
  | _ => None
  end.

Definition readList {A : Type} (read : json -> option A) (k : string) (v : json)
  : option (list A) :=
  match prop k v with
  | Some (JArr vs) => mapM read vs
  | _ => None
  end.

Definition readItem (v : json) : option Item :=
  id ← readStr "id" v; name ← readStr "name" v; unit ← readStr "unit" v;
  type ← readStr "type" v; group ← readStr "group" v;
  Some (mkItem id name unit type group).

Definition readWarehouse (v : json) : option Warehouse :=
  id ← readStr "id" v; name ← readStr "name" v; desc ← readStr "desc" v;
  Some (mkWarehouse id name desc).

Definition readLine (v : json) : option Line :=
  itemId ← readStr "itemId" v; unit ← readStr "unit" v;
  Some (mkLine itemId unit (readNum "qty" v) (default "" (readStr "desc" v))).

Definition readPermission (v : json) : option Permission :=
  id ← readStr "id" v; number ← readStr "number" v; type ← readStr "type" v;
  store ← readStr "store" v; from ← readStr "from" v; to ← readStr "to" v;
  date ← readStr "date" v; subNumber ← readStr "subNumber" v;
  posted ← readBool "posted" v; postedAt ← readStr "postedAt" v;
  lines ← readList readLine "lines" v; createdAt ← readStr "createdAt" v;
  Some (mkPermission id number type store from to date subNumber posted
          postedAt lines createdAt).

Definition readStore (v : json) : option Store :=
  its ← readList readItem "items" v;
  whs ← readList readWarehouse "warehouses" v;
  perms ← readList readPermission "permissions" v;
  Some (mkStore its whs perms).

(** ** Backup export and restore *)

(** What a [catch] receives: the parse error of [JSON.parse], the
    [TypeError] of a property read on [null], or an [Error] with its
    message. *)
Inductive Thrown :=
| SyntaxError
| TypeError
| Error (message : string).

Inductive Alert :=
| AlertRestored
| AlertFailed (err : Thrown).

Definition invalidBackupMessage : string := "ملف نسخة احتياطية غير صالح".

(** The application state: the [store] variable and the blob under
    [STORAGE_KEY] in [localStorage]. *)
Record App := mkApp {
  store : json;
  persisted : string
}.

(** The text handed to [downloadFile]. *)
Definition exportBackup (app : App) : string := stringify 2 (store app).

Definition saveStore (data : json) : App :=
  {| store := data; persisted := stringify 0 data |}.

Section Restore.
(** [String.prototype.localeCompare], and what [refreshAllViews] does with
    a value that does not read as a store: the value it leaves in [store]
    and what it throws, if anything. *)
Variable localeCompare : string -> string -> Z.
Variable renderOther : json -> json * option Thrown.

(** The comparator [(a,b) => a.name.localeCompare(b.name)]. *)
Definition byNameJS (a b : json) : option Z :=
  Some (localeCompare (default "" (readStr "name" a))
          (default "" (readStr "name" b))).

(** [store.items.sort(...)] in [refreshMasterData]: the array under
    [items] is sorted where it is. *)
Definition sortItems (data : json) : json :=
  match data with
  | JObj fs =>
      JObj (map (fun kv =>
                   if String.eqb (fst kv) "items"
                   then (fst kv,
                         match snd kv with
                         | JArr vs => JArr (array_sort byNameJS vs)
                         | v => v
                         end)
                   else kv) fs)
  | _ => data
  end.

(** [refreshAllViews], on the value of [store]: the value it leaves there
    and what it throws.  A value that reads as a store is rendered, and its
    items come out sorted by name. *)
Definition refreshAllViews (data : json) : json * option Thrown :=
  match readStore data with
  | Some _ => (sortItems data, None)
  | None => renderOther data
  end.

(** The [onload] handler of [importBackupFile], on the text of the file:
    the state and the alert.  [None] for a text that [parse] does not
    read.  The storage is written by the two [saveStore] that precede the
    sort. *)
Definition importBackupFile (text : string) (app : App) : option (App * Alert) :=
  match parse text with
  | None => None
  | Some JNull => Some (app, AlertFailed TypeError)
  | Some data =>
      if negb (toBoolean (prop "items" data))
         || negb (toBoolean (prop "warehouses" data))
         || negb (toBoolean (prop "permissions" data))
      then Some (app, AlertFailed (Error invalidBackupMessage))
      else
        Some ({| store := fst (refreshAllViews data);
                 persisted := stringify 0 data |},
              match snd (refreshAllViews data) with
              | None => AlertRestored
              | Some e => AlertFailed e
              end)
  end.

End Restore.

(** *** Values in memory

    A number in memory may also be [NaN] or infinite.  JSON has no text
    for these: [JSON.stringify] writes [null] in their place. *)
Inductive jsnumber :=
| Finite (z : Z)
| NotANumber
| Infinite (negative : bool).

#[local] Unset Elimination Schemes.
Inductive jsvalue :=
| VNull
| VBool (b : bool)
| VNumber (n : jsnumber)
| VString (s : string)
| VArray (vs : list jsvalue)
| VObject (fs : list (string * jsvalue)).
#[local] Set Elimination Schemes.

(** What [JSON.stringify] serializes of a value in memory. *)
Fixpoint serialize (v : jsvalue) : json :=
  match v with
  | VNull => JNull
  | VBool b => JBool b
  | VNumber (Finite z) => JNum z
  | VNumber _ => JNull
  | VString s => JStr s
  | VArray vs => JArr (map serialize vs)
  | VObject fs => JObj (map (fun kv => (fst kv, serialize (snd kv))) fs)
  end.

(** The value [JSON.parse] builds in memory. *)
Fixpoint inMemory (v : json) : jsvalue :=
  match v with
  | JNull => VNull
  | JBool b => VBool b
  | JNum z => VNumber (Finite z)
  | JStr s => VString s
  | JArr vs => VArray (map inMemory vs)
  | JObj fs => VObject (map (fun kv => (fst kv, inMemory (snd kv))) fs)
  end.

(** [exportBackup] when [store] is the value [mem]. *)
Definition exportBackupOf (mem : jsvalue) : string :=
  stringify 2 (serialize mem).

(** ** A sample store: the scenario of the specification *)
Module Demo.
Definition itemA : Item := mkItem "it_a" "مسمار" "قطعة" "مستهلكات" "مكتبي".
Definition itemB : Item := mkItem "it_b" "مفتاح ربط" "قطعة" "عدة" "عدة".
Definition mainStore : Warehouse := mkWarehouse "wh_1" "المخزن الرئيسي" "المخزن المركزي".

Definition lineA (q : Z) : Line := mkLine "it_a" "قطعة" (Some q) "".

Definition perm (id number ty date : string) (ls : list Line) : Permission :=
  {| p_id := id; p_number := number; p_type := ty;
     p_store := "المخزن الرئيسي"; p_from := ""; p_to := "";
     p_date := date; p_subNumber := ""; p_posted := true;
     p_postedAt := "2024-01-06T08:00:00.000Z"; p_lines := ls;
     p_createdAt := "2024-01-06T08:00:00.000Z" |}.

Definition P1 : Permission := perm "perm_1" "1" T_ADD "2024-01-01" [lineA 10].
Definition P2 : Permission := perm "perm_2" "2" T_DISBURSE "2024-01-05" [lineA 3].

Definition store0 : Store := mkStore [itemA; itemB] [mainStore] [P1; P2].

(** A permission without a date, created on 2024-01-03, and a store that
    holds the three permissions out of order. *)
Definition P3 : Permission :=
  {| p_id := "perm_7"; p_number := "7"; p_type := T_RETURN;
     p_store := "المخزن الرئيسي"; p_from := ""; p_to := "";
     p_date := ""; p_subNumber := ""; p_posted := true;
     p_postedAt := "2024-01-03T09:00:00.000Z"; p_lines := [lineA 2];
     p_createdAt := "2024-01-03T09:00:00.000Z" |}.

Definition store3 : Store := mkStore [itemA; itemB] [mainStore] [P2; P3; P1].

End Demo.

Module DemoUnknown.
(** A posted document of a type outside the five kinds (a stock count). *)
Definition Pcount : Permission :=
  Demo.perm "perm_3" "3" "إذن جرد" "2024-01-07" [Demo.lineA 5].
Definition store1 : Store := mkStore [Demo.itemA] [Demo.mainStore] [Pcount].

(** Three posted additions, the second with a date that is no date. *)
Definition Plate : Permission := Demo.perm "perm_4" "4" T_ADD "2024-01-05" [Demo.lineA 1].
Definition Pbad : Permission := Demo.perm "perm_5" "5" T_ADD "n/a" [Demo.lineA 1].
Definition Pearly : Permission := Demo.perm "perm_6" "6" T_ADD "2024-01-01" [Demo.lineA 1].
Definition store2 : Store :=
  mkStore [Demo.itemA] [Demo.mainStore] [Plate; Pbad; Pearly].
End DemoUnknown.

Module DemoBackup.
(** A backup file without the [permissions] container. *)
Definition truncated : string :=
  stringify 2 (JObj [("items", JArr []); ("warehouses", JArr [])]%string).
Definition app0 : App := saveStore (storeJS Demo.store0).
Definition quiet (data : json) : json * option Thrown := (data, None).

(** A store in memory with one posted addition whose quantity is
    [Infinity], as the items import makes it for an [initial_qty] of
    [Infinity]. *)
Definition overflowing : jsvalue :=
  VObject
    [("items",
      VArray [VObject [("id", VString "it_a"); ("name", VString "bolt");
                       ("unit", VString "pc"); ("type", VString "مستهلكات");
                       ("group", VString "")]]);
     ("warehouses", VArray []);
     ("permissions",
      VArray
        [VObject
           [("id", VString "perm_1"); ("posted", VBool true);
            ("createdAt", VString "2024-02-01T10:00:00.002Z");
            ("number", VString "INIT_it_a"); ("store", VString "");
            ("type", VString "إذن إضافة"); ("from", VString "");
            ("to", VString ""); ("date", VString "2024-02-01");
            ("subNumber", VString "");
            ("lines",
             VArray [VObject [("itemId", VString "it_a"); ("unit", VString "pc");
                              ("qty", VNumber (Infinite false))]]);
            ("postedAt", VString "2024-02-01T10:00:00.001Z")]])]%string.
End DemoBackup.

(** ** CSV lines *)

(** [parseCSVLine]: the loop over the characters of [line], with [res],
    [cur] and [inQuotes] as its state.  A quote inside quotes followed by a
    quote adds one quote and skips the second. *)
Fixpoint parseCSV_from (cs : list ascii) (res : list string) (cur : list ascii)
    (inQuotes : bool) : list string :=
  match cs with
  | [] => res ++ [String.string_of_list_ascii cur]
  | ch :: rest =>
      if Ascii.eqb ch "034" then
        match rest with
        | next :: rest' =>
            if inQuotes && Ascii.eqb next "034"
            then parseCSV_from rest' res (cur ++ ["034"%char]) inQuotes
            else parseCSV_from rest res cur (negb inQuotes)
        | [] => parseCSV_from rest res cur (negb inQuotes)
        end
      else if Ascii.eqb ch "," && negb inQuotes
      then parseCSV_from rest (res ++ [String.string_of_list_ascii cur]) [] inQuotes
      else parseCSV_from rest res (cur ++ [ch]) inQuotes
  end.

Definition parseCSVLine (line : string) : list string :=
  parseCSV_from (chars line) [] [] false.

(** The quoting of the CSV exports: the value between quotes, every quote
    in it doubled. *)
Definition csvEscape (cs : list ascii) : list ascii :=
  flat_map (fun c => if Ascii.eqb c "034" then ["034"; "034"]%char else [c]) cs.

Definition csvQuote (v : string) : list ascii :=
  "034"%char :: csvEscape (chars v) ++ ["034"%char].

(** [values.map(quote).join(',')]. *)
Definition csvRow (values : list string) : string :=
  String.string_of_list_ascii (join [","%char] csvQuote values).

Definition hasQuote (cs : list ascii) : bool :=
  existsb (fun c => Ascii.eqb c "034") cs.

Definition commas (cs : list ascii) : nat :=
  length (List.filter (fun c => Ascii.eqb c ",") cs).

(** ** More entity operations *)

(** [addItem], with the id that [uid('it')] returns. *)
Definition addItem (id name unit type group : string) (st : Store) : Store * Item :=
  let newItem := mkItem id name unit type group in
  ({| items := items st ++ [newItem];
      warehouses := warehouses st;
      permissions := permissions st |}, newItem).

(** The own properties of the [data] object handed to [editItem]; an absent
    property is [None]. *)
Record ItemData := mkItemData {
  d_id : option string;
  d_name : option string;
  d_unit : option string;
  d_type : option string;
  d_group : option string
}.

(** [Object.assign(it, data)]. *)
Definition assignItem (it : Item) (data : ItemData) : Item :=
  {| it_id := default (it_id it) (d_id data);
     it_name := default (it_name it) (d_name data);
     it_unit := default (it_unit it) (d_unit data);
     it_type := default (it_type it) (d_type data);
     it_group := default (it_group it) (d_group data) |}.

(** [f] applied in place to the element that [find] / [findIndex] returns:
    the first one that passes [test]. *)
Fixpoint updateFirst {A : Type} (test : A -> bool) (f : A -> A) (l : list A)
  : list A :=
  match l with
  | [] => []
  | x :: l' => if test x then f x :: l' else x :: updateFirst test f l'
  end.

Definition editItem (itemId : string) (data : ItemData) (st : Store) : Store :=
  {| items :=
       updateFirst (fun i => String.eqb (it_id i) itemId)
         (fun i => assignItem i data) (items st);
     warehouses := warehouses st;
     permissions := permissions st |}.

(** The own properties of the [updated] object handed to
    [updatePermission]. *)
Record PermissionData := mkPermissionData {
  u_id : option string;
  u_number : option string;
  u_type : option string;
  u_store : option string;
  u_from : option string;
  u_to : option string;
  u_date : option string;
  u_subNumber : option string;
  u_posted : option bool;
  u_postedAt : option string;
  u_lines : option (list Line);
  u_createdAt : option string
}.

Definition assignPermission (p : Permission) (d : PermissionData) : Permission :=
  {| p_id := default (p_id p) (u_id d);
     p_number := default (p_number p) (u_number d);
     p_type := default (p_type p) (u_type d);
     p_store := default (p_store p) (u_store d);
     p_from := default (p_from p) (u_from d);
     p_to := default (p_to p) (u_to d);
     p_date := default (p_date p) (u_date d);
     p_subNumber := default (p_subNumber p) (u_subNumber d);
     p_posted := default (p_posted p) (u_posted d);
     p_postedAt := default (p_postedAt p) (u_postedAt d);
     p_lines := default (p_lines p) (u_lines d);
     p_createdAt := default (p_createdAt p) (u_createdAt d) |}.

(** [updatePermission]: the store and the returned record, [None] for
    [null]. *)
Definition updatePermission (id : string) (updated : PermissionData) (st : Store)
  : Store * option Permission :=
  match List.find (fun p => String.eqb (p_id p) id) (permissions st) with
  | Some p =>
      ({| items := items st;
          warehouses := warehouses st;
          permissions :=
            updateFirst (fun p => String.eqb (p_id p) id)
              (fun p => assignPermission p updated) (permissions st) |},
       Some (assignPermission p updated))
  | None => (st, None)
  end.

(** Total quantity of the lines of [ps] that name item [k]. *)
Definition qtyTotal (k : string) (ps : list Permission) : Z :=
  foldr (fun p acc => qtySum k p + acc) 0 ps.

(** The lines of [p] that name item [k]. *)
Definition linesOf (k : string) (p : Permission) : list Line :=
  List.filter (fun l => String.eqb (l_itemId l) k) (p_lines p).

Definition hasId (id : string) (p : Permission) : bool := String.eqb (p_id p) id.

Definition inGroup (g k : string) (its : list Item) : bool :=
  existsb (fun it => String.eqb (it_id it) k && String.eqb (it_group it) g) its.

(** ** Loading the store *)

(** [uid(p)], on the seven characters that [Math.random] contributes. *)
Definition uid (p suffix : string) : string :=
  String.append p (String.append "_" suffix).

(** The sample data of a first run, with the random parts of their four
    ids. *)
Definition seedStore (r1 r2 r3 r4 : string) : json :=
  JObj [("items",
         JArr [JObj [("id", JStr (uid "it" r1)); ("name", JStr "مسمار");
                     ("unit", JStr "قطعة"); ("type", JStr "مستهلكات");
                     ("group", JStr "مكتبي")];
               JObj [("id", JStr (uid "it" r2)); ("name", JStr "مفتاح ربط");
                     ("unit", JStr "قطعة"); ("type", JStr "عدة");
                     ("group", JStr "عدة")]]);
        ("warehouses",
         JArr [JObj [("id", JStr (uid "wh" r3)); ("name", JStr "المخزن الرئيسي");
                     ("desc", JStr "المخزن المركزي")];
               JObj [("id", JStr (uid "wh" r4)); ("name", JStr "مورد خارجي");
                     ("desc", JStr "مورد")]]);
        ("permissions", JArr [])]%string.

(** [loadStore], on what [localStorage] holds under [STORAGE_KEY] ([None]:
    nothing): the store it returns together with what the storage holds
    afterwards, or [None] when [parse] does not read the text. *)
Definition loadStore (r1 r2 r3 r4 : string) (raw : option string) : option App :=
  if negb (truthy raw) then Some (saveStore (seedStore r1 r2 r3 r4))
  else
    match parse (opt_str raw) with
    | Some data => Some {| store := data; persisted := opt_str raw |}
    | None => None
    end.

(** ** The views and the forms *)

(** One [.line-row] of a lines container: the value of its [select] and of
    its quantity [input]. *)
Record FormRow := mkFormRow {
  sel_value : string;
  qty_value : string
}.

Definition blankRow : FormRow := mkFormRow "" "".

(** The fields of [#permForm] and the rows of [#linesContainer]. *)
Record PermForm := mkPermForm {
  permNumber : string;
  permDate : string;
  permStore : string;
  permType : string;
  permFrom : string;
  permTo : string;
  permSubNumber : string;
  linesContainer : list FormRow
}.

(** The fields of [#editPermForm] and the rows of [#editLinesContainer];
    [editId] is [dataset.editId]. *)
Record EditForm := mkEditForm {
  editId : option string;
  editPermNumber : string;
  editPermDate : string;
  editPermStore : string;
  editPermType : string;
  editLinesContainer : list FormRow
}.

(** The fields of [#addItemForm]; [editing] is [dataset.editing]. *)
Record ItemForm := mkItemForm {
  editing : option string;
  itemName : string;
  itemUnit : string;
  itemType : string;
  itemGroup : string;
  newGroupInput : string;
  itemInitial : string
}.

(** What the environment hands to one run of a handler: the random parts
    of the ids [uid] makes, and what [new Date().toISOString()] returns
    where the date, [postedAt] and [createdAt] are taken. *)
Record Env := mkEnv {
  rnd_it : string;
  rnd_perm : string;
  clock_date : string;
  clock_posted : string;
  clock_created : string
}.

Definition msgNoLines : string := "أضف بند واحد على الأقل".
Definition msgTooMany : string := "الحد الأقصى 25 بند".
Definition msgNoItem : string := "أدخل صنف لكل بند".
Definition msgBadQty : string := "الكمية يجب أن تكون أكبر من صفر".
Definition msgNotFound : string := "لم يتم العثور على الإذن للتحرير".
Definition msgUpdated : string := "تم حفظ وتحديث الإذن".
Definition msgPosted : string := "تم ترحيل الإذن".
Definition msgEditNotFound : string := "خطأ: لم يتم العثور على الإذن".
Definition msgEditNoLines : string := "أدخل بند واحد على الأقل".
Definition msgEditUpdated : string := "تم تحديث الإذن".
Definition msgItemIncomplete : string := "أكمل بيانات الصنف".
Definition msgFileEmpty : string := "الملف فارغ".
Definition msgNoColumns : string :=
  "ملف CSV يجب أن يحتوي على على الأقل الأعمدة: name, unit".
Definition msgImported : string := "تم استيراد الأصناف من CSV".

(** [x <= 0] and [x > 0] on a number that may be [NaN]. *)
Definition num_le0 (n : option Z) : bool :=
  match n with
  | Some z => z <=? 0
  | None => false
  end.

Definition num_gt0 (n : option Z) : bool :=
  match n with
  | Some z => 0 <? z
  | None => false
  end.

(** [it ? it.unit : ''] for [it = store.items.find(i => i.id === id)]. *)
Definition unitOf (id : string) (st : Store) : string :=
  match List.find (fun i => String.eqb (it_id i) id) (items st) with
  | Some it => it_unit it
  | None => ""
  end.

(** [new Date().toISOString().slice(0,10)]. *)
Definition isoDay (iso : string) : string := String.substring 0 10 iso.

(** [store.warehouses[0] ? store.warehouses[0].name : '']. *)
Definition firstWarehouse (st : Store) : string :=
  match warehouses st with
  | w :: _ => wh_name w
  | [] => ""
  end.

(** The permission that records the initial quantity of a new item. *)
Definition initPermission (env : Env) (newIt : Item) (qty : option Z) (st : Store)
  : Permission :=
  {| p_id := uid "perm" (rnd_perm env);
     p_number := String.append "INIT_" (it_id newIt);
     p_type := "إذن إضافة";
     p_store := firstWarehouse st;
     p_from := "";
     p_to := firstWarehouse st;
     p_date := isoDay (clock_date env);
     p_subNumber := "";
     p_posted := true;
     p_postedAt := clock_posted env;
     p_lines := [mkLine (it_id newIt) (it_unit newIt) qty ""];
     p_createdAt := clock_created env |}.

(** *** The rows of a lines container *)

(** The row [createLineRow] builds for [data]: the [select] shows
    [data.itemId] when an item of the store has that id and its blank option
    otherwise, the input shows [data.qty || '']. *)
Definition rowOf (st : Store) (data : Line) : FormRow :=
  {| sel_value :=
       if existsb (fun it => String.eqb (it_id it) (l_itemId data)) (items st)
       then l_itemId data else "";
     qty_value :=
       match l_qty data with
       | Some q => if q =? 0 then "" else String.string_of_list_ascii (num_chars q)
       | None => ""
       end |}.

Fixpoint buildRows (st : Store) (initialLines : list Line) (n : nat)
  : list FormRow :=
  match n with
  | O => []
  | S n' =>
      match initialLines with
      | data :: rest => rowOf st data :: buildRows st rest n'
      | [] => blankRow :: buildRows st [] n'
      end
  end.

(** [buildLinesContainer]: [max = Math.min(25, Math.max(1, length || 1))]
    rows. *)
Definition buildLinesContainer (st : Store) (initialLines : list Line)
  : list FormRow :=
  buildRows st initialLines
    (Nat.min 25 (Nat.max 1 (if (length initialLines =? 0)%nat then 1%nat
                            else length initialLines))).

(** What can happen to [#linesContainer]: the entry page is opened or the
    form is reset ([buildLinesContainer]), the add-line button is clicked,
    the remove button of row [i] is clicked, the user fills row [i]. *)
Inductive LinesEvent :=
| Rebuild (initialLines : list Line)
| AddLineClick
| RemoveClick (i : nat)
| Fill (i : nat) (r : FormRow).

Definition stepLines (st : Store) (c : list FormRow) (ev : LinesEvent)
  : list FormRow :=
  match ev with
  | Rebuild initialLines => buildLinesContainer st initialLines
  | AddLineClick => if (25 <=? length c)%nat then c else c ++ [blankRow]
  | RemoveClick i => delete i c
  | Fill i r => <[i := r]> c
  end.

Section Handlers.
(** [String.prototype.trim], [Number] on the value of an input ([None] for
    [NaN]), [String.prototype.localeCompare] and
    [String.prototype.toLowerCase]. *)
Variable trim : string -> string.
Variable Number : string -> option Z.
Variable localeCompare : string -> string -> Z.
Variable toLowerCase : string -> string.

Definition byName (a b : Item) : option Z :=
  Some (localeCompare (it_name a) (it_name b)).

(** What [refreshAllViews] does to the store: [refreshMasterData] sorts
    [store.items] itself, not a copy. *)
Definition refreshMasterData (st : Store) : Store :=
  {| items := array_sort byName (items st);
     warehouses := warehouses st;
     permissions := permissions st |}.

(** *** postPermissionFromForm *)

(** The loop over the rows: the alert of the first row that is refused, or
    the lines. *)
Fixpoint gatherLines (st : Store) (rows : list FormRow) (lines : list Line)
  : string + list Line :=
  match rows with
  | [] => inr lines
  | r :: rows' =>
      if String.eqb (sel_value r) "" then inl msgNoItem
      else if String.eqb (qty_value r) "" || num_le0 (Number (qty_value r))
      then inl msgBadQty
      else gatherLines st rows'
             (lines ++ [mkLine (sel_value r) (unitOf (sel_value r) st)
                          (Number (qty_value r)) ""])
  end.

(** The store, the rows of the container and the alert once the handler
    has returned.  Rendering is taken to return normally. *)
Definition postPermissionFromForm (env : Env) (form : PermForm) (isEdit : bool)
    (existingPermId : option string) (st : Store)
  : Store * list FormRow * string :=
  let number := trim (permNumber form) in
  let date := str_or (permDate form) (isoDay (clock_date env)) in
  let rows := linesContainer form in
  if (length rows =? 0)%nat then (st, rows, msgNoLines)
  else if (25 <? length rows)%nat then (st, rows, msgTooMany)
  else
    match gatherLines st rows [] with
    | inl msg => (st, rows, msg)
    | inr lines =>
        if isEdit && truthy existingPermId then
          match List.find (hasId (opt_str existingPermId)) (permissions st) with
          | None => (st, rows, msgNotFound)
          | Some _ =>
              let st' :=
                {| items := items st;
                   warehouses := warehouses st;
                   permissions :=
                     updateFirst (hasId (opt_str existingPermId))
                       (fun existing =>
                          {| p_id := p_id existing;
                             p_number := number;
                             p_type := permType form;
                             p_store := permStore form;
                             p_from := permFrom form;
                             p_to := permTo form;
                             p_date := date;
                             p_subNumber := permSubNumber form;
                             p_posted := true;
                             p_postedAt := clock_posted env;
                             p_lines := lines;
                             p_createdAt := p_createdAt existing |})
                       (permissions st) |} in
              (refreshMasterData st', buildLinesContainer st' [], msgUpdated)
          end
        else
          let p :=
            {| p_id := uid "perm" (rnd_perm env);
               p_number := number;
               p_type := permType form;
               p_store := permStore form;
               p_from := permFrom form;
               p_to := permTo form;
               p_date := date;
               p_subNumber := permSubNumber form;
               p_posted := true;
               p_postedAt := clock_posted env;
               p_lines := lines;
               p_createdAt := clock_created env |} in
          let st' := addPermission p st in
          (refreshMasterData st', buildLinesContainer st' [], msgPosted)
    end.

(** *** The submit handler of the edit form *)

Definition editLine (st : Store) (r : FormRow) : Line :=
  mkLine (sel_value r) (unitOf (sel_value r) st)
    (Some (num_or0 (Number (qty_value r)))) "".

Definition keptLine (l : Line) : bool :=
  negb (String.eqb (l_itemId l) "") && num_gt0 (l_qty l).

Definition hasEditId (id : option string) (p : Permission) : bool :=
  match id with
  | Some id => String.eqb (p_id p) id
  | None => false
  end.

(** The store and the alert once the handler has returned. *)
Definition submitEditForm (env : Env) (form : EditForm) (st : Store)
  : Store * string :=
  match List.find (hasEditId (editId form)) (permissions st) with
  | None => (st, msgEditNotFound)
  | Some _ =>
      let number := trim (editPermNumber form) in
      let date := str_or (editPermDate form) (isoDay (clock_date env)) in
      let lines :=
        List.filter keptLine (map (editLine st) (editLinesContainer form)) in
      if (length lines =? 0)%nat then (st, msgEditNoLines)
      else
        (refreshMasterData
           {| items := items st;
              warehouses := warehouses st;
              permissions :=
                updateFirst (hasEditId (editId form))
                  (fun perm =>
                     {| p_id := p_id perm;
                        p_number := number;
                        p_type := editPermType form;
                        p_store := editPermStore form;
                        p_from := p_from perm;
                        p_to := p_to perm;
                        p_date := date;
                        p_subNumber := p_subNumber perm;
                        p_posted := p_posted perm;
                        p_postedAt := clock_posted env;
                        p_lines := lines;
                        p_createdAt := p_createdAt perm |})
                  (permissions st) |},
         msgEditUpdated)
  end.

(** *** The submit handler of the item form *)

(** [addItem] followed, for a positive initial quantity, by the
    [addPermission] that records it. *)
Definition addItemWithInitial (env : Env) (name unit type group : string)
    (initial : option Z) (st : Store) : Store :=
  let '(st1, newIt) := addItem (uid "it" (rnd_it env)) name unit type group st in
  if num_gt0 initial
  then addPermission (initPermission env newIt initial st1) st1
  else st1.

(** The store and the alert, if any, once the handler has returned. *)
Definition submitItemForm (env : Env) (form : ItemForm) (st : Store)
  : Store * option string :=
  let name := trim (itemName form) in
  let unit := trim (itemUnit form) in
  let type := itemType form in
  let group := str_or (itemGroup form) (trim (newGroupInput form)) in
  let initial := num_or0 (Number (itemInitial form)) in
  if String.eqb name "" || String.eqb unit "" then (st, Some msgItemIncomplete)
  else if truthy (editing form) then
    (refreshMasterData
       (editItem (opt_str (editing form))
          {| d_id := None; d_name := Some name; d_unit := Some unit;
             d_type := Some type; d_group := Some group |} st), None)
  else
    (refreshMasterData
       (addItemWithInitial env name unit type group (Some initial) st), None).

(** *** importItemsCSV *)

(** [text.split(/\r?\n/)], with the line being read in [cur]. *)
Fixpoint splitLines_from (cs cur : list ascii) : list string :=
  match cs with
  | [] => [String.string_of_list_ascii cur]
  | c :: rest =>
      if Ascii.eqb c "010" then
        String.string_of_list_ascii cur :: splitLines_from rest []
      else if Ascii.eqb c "013" then
        match rest with
        | c' :: rest' =>
            if Ascii.eqb c' "010"
            then String.string_of_list_ascii cur :: splitLines_from rest' []
            else splitLines_from rest (cur ++ [c])
        | [] => splitLines_from rest (cur ++ [c])
        end
      else splitLines_from rest (cur ++ [c])
  end.

(** [line.split(',')]. *)
Fixpoint splitCommas_from (cs cur : list ascii) : list string :=
  match cs with
  | [] => [String.string_of_list_ascii cur]
  | c :: rest =>
      if Ascii.eqb c ","
      then String.string_of_list_ascii cur :: splitCommas_from rest []
      else splitCommas_from rest (cur ++ [c])
  end.

(** A header cell with its quote characters removed ([replace]), trimmed
    and in lower case. *)
Definition headerName (h : string) : string :=
  toLowerCase
    (trim (String.string_of_list_ascii
             (List.filter (fun c => negb (Ascii.eqb c "034")) (chars h)))).

(** [headers.forEach((h,i) => colIndex[h] = i)], from column [i] on. *)
Fixpoint indexColumns (i : nat) (headers : list string) (colIndex : gmap string nat)
  : gmap string nat :=
  match headers with
  | [] => colIndex
  | h :: rest => indexColumns (S i) rest (<[h := i]> colIndex)
  end.

(** [row[colIndex[h]]]; [None] is [undefined]. *)
Definition cell (colIndex : gmap string nat) (h : string) (row : list string)
  : option string :=
  match colIndex !! h with
  | Some i => row !! i
  | None => None
  end.

(** [c ? c.trim() : d]. *)
Definition cell_or (c : option string) (d : string) : string :=
  if truthy c then trim (opt_str c) else d.

(** One turn of the loop over the data lines. *)
Definition importRow (env : Env) (colIndex : gmap string nat) (line : string)
    (st : Store) : Store :=
  let row := parseCSVLine line in
  if negb (truthy (cell colIndex "name" row)) then st
  else
    let name := trim (opt_str (cell colIndex "name" row)) in
    let unit := cell_or (cell colIndex "unit" row) "" in
    let type := cell_or (cell colIndex "type" row) "مستهلكات" in
    let group := cell_or (cell colIndex "group" row) "" in
    let initial_qty :=
      if truthy (cell colIndex "initial_qty" row)
      then Number (opt_str (cell colIndex "initial_qty" row))
      else Some 0 in
    if existsb (fun it => String.eqb (it_name it) name) (items st) then st
    else addItemWithInitial env name unit type group initial_qty st.

(** The loop, from line [i] on; [envAt i] is what the environment supplies
    during turn [i]. *)
Fixpoint importRows (envAt : nat -> Env) (colIndex : gmap string nat) (i : nat)
    (lines : list string) (st : Store) : Store :=
  match lines with
  | [] => st
  | line :: rest =>
      importRows envAt colIndex (S i) rest (importRow (envAt i) colIndex line st)
  end.

(** The [onload] handler of [importItemsCSV], on the text of the file: the
    store and the alert. *)
Definition importItemsCSV (envAt : nat -> Env) (text : string) (st : Store)
  : Store * string :=
  let lines :=
    List.filter (fun l => negb (String.eqb (trim l) ""))
      (splitLines_from (chars text) []) in
  match lines with
  | [] => (st, msgFileEmpty)
  | first :: rest =>
      let headers := map headerName (splitCommas_from (chars first) []) in
      let colIndex := indexColumns 0 headers ∅ in
      if negb (bool_decide (is_Some (colIndex !! "name"%string)))
         || negb (bool_decide (is_Some (colIndex !! "unit"%string)))
      then (st, msgNoColumns)
      else
        (refreshMasterData (importRows envAt colIndex 1 rest st), msgImported)
  end.

End Handlers.

(** ** The entry rows, as the properties word them *)

Section Rows.
Variable Number : string -> option Z.

(** A row the entry form accepts: an item is chosen, the quantity is
    filled in and is not zero or less. *)
Definition rowOk (r : FormRow) : bool :=
  negb (String.eqb (sel_value r) "")
  && negb (String.eqb (qty_value r) "")
  && negb (num_le0 (Number (qty_value r))).

(** The line the entry form makes of a row. *)
Definition lineOfRow (st : Store) (r : FormRow) : Line :=
  mkLine (sel_value r) (unitOf (sel_value r) st) (Number (qty_value r)) "".

End Rows.

(** A line with an item and a quantity above zero. *)
Definition positiveLine (l : Line) : Prop :=
  l_itemId l <> ""%string /\ exists q, l_qty l = Some q /\ 0 < q.

(** The name a data line of an items file gives, if any. *)
Definition rowName (trim : string -> string) (colIndex : gmap string nat)
    (line : string) : option string :=
  if truthy (cell colIndex "name" (parseCSVLine line))
  then Some (trim (opt_str (cell colIndex "name" (parseCSVLine line))))
  else None.

Definition hasName (name : string) (its : list Item) : bool :=
  existsb (fun it => String.eqb (it_name it) name) its.

(** ** One permission applied to one balance, line by line *)

(** What the [switch] of [computeBalances] makes of the balance [b] of the
    item a line names, for a line of quantity [q]. *)
Definition applySign (ty : string) (b q : Z) : Z :=
  if String.eqb ty T_ADD || String.eqb ty T_RETURN then b + q
  else if String.eqb ty T_TRANSFER || String.eqb ty T_DEDUCT
          || String.eqb ty T_DISBURSE then b - q
  else b.

(** The lines [ls] of a permission of type [ty] applied to the balance [b]
    of item [k], one after the other in the order of the lines. *)
Definition postedOn (k ty : string) (ls : list Line) (b : Z) : Z :=
  fold_left
    (fun b l =>
       if String.eqb (l_itemId l) k then applySign ty b (num_or0 (l_qty l)) else b)
    ls b.

(** The same for the rows of the entry form: a row that chooses item [k]
    counts with [Number(qtyInput.value)]. *)
Definition postedRows (Number : string -> option Z) (k ty : string)
    (rows : list FormRow) (b : Z) : Z :=
  fold_left
    (fun b r =>
       if String.eqb (sel_value r) k
       then applySign ty b (num_or0 (Number (qty_value r))) else b)
    rows b.

Definition choosesItem (k : string) (rows : list FormRow) : bool :=
  existsb (fun r => String.eqb (sel_value r) k) rows.

(** The card row of line [l] of permission [p], field by field. *)
Definition txOf (p : Permission) (l : Line) : Tx :=
  {| tx_header := p_type p;
     tx_in := if String.eqb (p_type p) T_ADD || String.eqb (p_type p) T_RETURN
              then num_or0 (l_qty l) else 0;
     tx_out := if String.eqb (p_type p) T_ADD || String.eqb (p_type p) T_RETURN
               then 0 else num_or0 (l_qty l);
     tx_desc := l_desc l;
     tx_permNumber := p_number p;
     tx_date := if String.eqb (p_date p) "" then p_createdAt p else p_date p |}.

(** One property after [Object.assign(target, data)]: the value of the
    data when it has the property, the old one otherwise. *)
Definition assigned {A : Type} (old : A) (given : option A) (new : A) : Prop :=
  match given with
  | Some v => new = v
  | None => new = old
  end.

(** ** The stock export and the edit panel *)

(** [String(n)] for an integer [n]. *)
Definition decimal (z : Z) : string := String.string_of_list_ascii (num_chars z).

Definition stockHeaders : list string :=
  ["الصنف"; "الوحدة"; "المجموعة"; "النوع"; "الرصيد الحالي"]%string.

Section StockExport.
Variable Date_parse : string -> option Z.
Variable localeCompare : string -> string -> Z.

(** The body of the [forEach] of [exportStockToCSV]: an item the filters
    drop is skipped, any other one adds its row. *)
Definition pushStockRow (f : Filters) (balances : gmap string Z)
    (rows : list string) (it : Item) : list string :=
  if truthy (filterGroup f)
     && negb (String.eqb (it_group it) (opt_str (filterGroup f)))
  then rows
  else if truthy (filterItemId f)
          && negb (String.eqb (it_id it) (opt_str (filterItemId f)))
  then rows
  else
    rows ++ [csvRow [it_name it; it_unit it; str_or (it_group it) "";
                     it_type it; decimal (bal_or0 balances (it_id it))]].

(** The lines of the file, before they are joined with line feeds. *)
Definition stockLines (f : Filters) (st : Store) : list string :=
  let balances := computeBalances Date_parse f st in
  fold_left (pushStockRow f balances)
    (array_sort (byName localeCompare) (items st))
    [String.string_of_list_ascii (join [","%char] chars stockHeaders)].

(** The text [exportStockToCSV] hands to [downloadFile]. *)
Definition exportStockToCSV (f : Filters) (st : Store) : string :=
  String.string_of_list_ascii (join ["010"%char] chars (stockLines f st)).

End StockExport.

(** An item the stock export lists under filters [f]. *)
Definition shownIn (f : Filters) (it : Item) : bool :=
  negb (truthy (filterGroup f)
        && negb (String.eqb (it_group it) (opt_str (filterGroup f))))
  && negb (truthy (filterItemId f)
           && negb (String.eqb (it_id it) (opt_str (filterItemId f)))).

(** The rows [openEditPermPanel] puts in [#editLinesContainer]: one
    [createEditLineRow] per line of the permission. *)
Definition openEditRows (st : Store) (perm : Permission) : list FormRow :=
  map (rowOf st) (p_lines perm).

(** A line that survives opening a permission in the edit panel and saving
    it as it is shown. *)
Definition survivesEdit (st : Store) (l : Line) : bool :=
  isItemId (l_itemId l) (items st)
  && negb (String.eqb (l_itemId l) "")
  && num_gt0 (l_qty l).

(** ** The item card export *)

Definition msgNoCardItem : string := "اختر صنفاً صالحاً للتصدير".

Definition cardHeaders : list string :=
  ["البيان"; "دخول"; "خروج"; "الرصيد بعد الحركة"; "رقم الإذن"; "التاريخ"]%string.

(** The fields of a card row, as [String] prints them. *)
Definition cardFields (r : Row) : list string :=
  [tx_header (row_tx r); decimal (tx_in (row_tx r)); decimal (tx_out (row_tx r));
   decimal (row_balance r); tx_permNumber (row_tx r); tx_date (row_tx r)].

Section CardExport.
Variable Date_parse : string -> option Z.

(** [exportItemCardToCSV]: the alert, or the name of the file and its
    lines, before they are joined with line feeds. *)
Definition exportItemCardToCSV (itemId : string) (st : Store)
  : string + string * list string :=
  match List.find (fun i => String.eqb (it_id i) itemId) (items st) with
  | None => inl msgNoCardItem
  | Some it =>
      let card := getItemCard Date_parse itemId st in
      let data :=
        fold_left (fun data r => data ++ [csvRow (cardFields r)]) (rows card)
          [String.string_of_list_ascii (join [","%char] chars cardHeaders)] in
      inr (String.append (it_name it) "_card.csv",
           data ++ [String.append "الرصيد الحالي: " (decimal (balance card))])
  end.

End CardExport.

(** ** The permission search *)

Section Search.
(** [String.prototype.includes], besides [trim] and [toLowerCase]. *)
Variable trim : string -> string.
Variable toLowerCase : string -> string.
Variable includes : string -> string -> bool.

(** The test of the item criterion on one line: the item the line names is
    looked up in the store, and its name is searched. *)
Definition lineMatches (item : string) (st : Store) (ln : Line) : bool :=
  match List.find (fun i => String.eqb (it_id i) (l_itemId ln)) (items st) with
  | Some it => includes (toLowerCase (it_name it)) item
  | None => false
  end.

(** The click handler of the search button: the list handed to
    [renderPermsTable]. *)
Definition searchPermissions (numField itemField typeField : string) (st : Store)
  : list Permission :=
  let num := trim numField in
  let item := toLowerCase (trim itemField) in
  let results := permissions st in
  let results :=
    if negb (String.eqb num "")
    then List.filter (fun p => negb (String.eqb (p_number p) "")
                               && includes (p_number p) num) results
    else results in
  let results :=
    if negb (String.eqb typeField "")
    then List.filter (fun p => String.eqb (p_type p) typeField) results
    else results in
  let results :=
    if negb (String.eqb item "")
    then List.filter (fun p => existsb (lineMatches item st) (p_lines p)) results
    else results in
  results.

End Search.

(** ** Sample forms and files *)
Module DemoForms.
(** Stand-ins for the string methods and for [Number], exact on the sample
    inputs: these hold no blanks and no capitals, and their numbers are
    decimal numerals. *)
Definition trim (s : string) : string := s.
Definition toLowerCase (s : string) : string := s.
Definition localeCompare (a b : string) : Z :=
  match String.compare a b with
  | Lt => -1
  | Eq => 0
  | Gt => 1
  end.
(** [s.includes(t)]: [t] occurs in [s]. *)
Fixpoint includes_from (n : nat) (s t : string) : bool :=
  String.prefix t s
  || match n, s with
     | S n', String _ s' => includes_from n' s' t
     | _, _ => false
     end.
Definition includes (s t : string) : bool := includes_from (String.length s) s t.
Definition Number (s : string) : option Z :=
  if String.eqb s "" then Some 0
  else
    match parse_number (chars s) with
    | Some (z, []) => Some z
    | _ => None
    end.

Definition env : Env :=
  mkEnv "k3x9q2a" "p7m1z4c" "2024-02-01T10:00:00.000Z"
    "2024-02-01T10:00:00.001Z" "2024-02-01T10:00:00.002Z".
Definition envAt (i : nat) : Env := env.

(** A disbursement of 4 and 6 of the first item. *)
Definition entry : PermForm :=
  mkPermForm "12" "2024-02-01" "المخزن الرئيسي" T_DISBURSE "" "" ""
    [mkFormRow "it_a" "4"; mkFormRow "it_a" "6"].

(** The second permission in the edit form, with one usable row, one row
    without an item and one without a quantity. *)
Definition edited : EditForm :=
  mkEditForm (Some "perm_2") "2" "2024-01-05" "المخزن الرئيسي" T_DISBURSE
    [mkFormRow "it_a" "4"; mkFormRow "" "3"; mkFormRow "it_b" "0"].

Definition newItem : ItemForm :=
  mkItemForm None "nut" "pc" "مستهلكات" "" "" "5".

(** An items file with two data lines. *)
Definition file : string :=
  String.append "name,unit,initial_qty"
    (String "010" (String.append "bolt,pc,5" (String "010" "nut,pc"))).

(** A permission for both items, in a store the first item was removed
    from, and the edit form as [openEditPermPanel] fills it. *)
Definition mixed : Permission :=
  Demo.perm "perm_8" "8" T_ADD "2024-01-09"
    [Demo.lineA 4; mkLine "it_b" "قطعة" (Some 2) ""].
Definition later : Store :=
  removeItem "it_a" (mkStore [Demo.itemA; Demo.itemB] [Demo.mainStore] [mixed]).
Definition reopened : EditForm :=
  mkEditForm (Some "perm_8") "8" "2024-01-09" "المخزن الرئيسي" T_ADD
    (openEditRows later mixed).
End DemoForms.

(** ** What [computeBalances] aggregates *)

Section Aggregation.
Variable Date_parse : string -> option Z.

(** The keys of the map [computeBalances] returns: the one of
    [filterItemId], else the current items of [filterGroup], else the
    current items and every id a selected line names. *)
Definition outputs (f : Filters) (st : Store) (k : string) : bool :=
  if truthy (filterItemId f) then String.eqb (opt_str (filterItemId f)) k
  else if truthy (filterGroup f)
  then inGroup (opt_str (filterGroup f)) k (items st)
  else isItemId k (items st) || mentions k (selected Date_parse f st).

(** [p] is aggregated: it is one of the permissions whose lines
    [computeBalances] sums, and the map returned holds at each of its keys
    the signed sum of the lines of these permissions. *)
Definition aggregated (f : Filters) (st : Store) (p : Permission) : Prop :=
  In p (selected Date_parse f st)
  /\ forall k,
       computeBalances Date_parse f st !! k
       = if outputs f st k
         then Some (permSum k (selected Date_parse f st))
         else None.

(** [p], which stands between [l1] and [l2] in the store, is left out: it
    is not among the permissions summed, and the map returned is the one
    for the store without it. *)
Definition leftOut (f : Filters) (st : Store) (l1 : list Permission)
    (p : Permission) (l2 : list Permission) : Prop :=
  ~ In p (selected Date_parse f st)
  /\ computeBalances Date_parse f st
     = computeBalances Date_parse f
         (mkStore (items st) (warehouses st) (l1 ++ l2)).

End Aggregation.

(** ** The range in which the sums are exact

    The ledger above adds integers.  The program adds JavaScript numbers,
    IEEE 754 doubles: every integer up to [2^53] in magnitude is a double,
    and the sum or difference of two of them that stays within that range
    is computed exactly, so that on such quantities the order of the
    additions does not matter.  Outside it, it does: see [Doubles]. *)

(** The magnitudes of the quantities of the lines of [ps] that name [k],
    added up: a bound on every sum that [computeBalances] or [getItemCard]
    forms for [k] over [ps], in whatever order. *)
Definition lineMagnitude (k : string) (p : Permission) : Z :=
  foldr (fun l acc =>
           (if String.eqb (l_itemId l) k then Z.abs (num_or0 (l_qty l)) else 0)
           + acc) 0 (p_lines p).

Definition magnitude (k : string) (ps : list Permission) : Z :=
  foldr (fun p acc => lineMagnitude k p + acc) 0 ps.

Definition exactRange (k : string) (st : Store) : Prop :=
  magnitude k (List.filter p_posted (permissions st)) <= 2 ^ 53.

(** ** The two balances on doubles

    [computeBalances] and [getItemCard] once more, with the quantities of
    the lines as doubles and the arithmetic of the processor.  A permission
    is its header, a [Permission] whose own lines are not looked at, and
    its lines. *)
Module Doubles.
Import PrimFloat.

Record DLine := mkDLine {
  d_itemId : string;
  d_qty : float
}.

Record DPermission := mkDPermission {
  head : Permission;
  d_lines : list DLine
}.

(** [x || 0] on a number: [NaN] and the two zeros are falsy. *)
Definition num_or0 (x : float) : float :=
  if is_nan x || is_zero x then 0%float else x.

Definition postLine (ty : string) (balances : gmap string float) (line : DLine)
  : gmap string float :=
  let balances :=
    match balances !! d_itemId line with
    | Some _ => balances
    | None => <[d_itemId line := 0%float]> balances
    end in
  let qty := num_or0 (d_qty line) in
  if String.eqb ty T_ADD then alter (fun b => b + qty)%float (d_itemId line) balances
  else if String.eqb ty T_TRANSFER
  then alter (fun b => b - qty)%float (d_itemId line) balances
  else if String.eqb ty T_DEDUCT
  then alter (fun b => b - qty)%float (d_itemId line) balances
  else if String.eqb ty T_DISBURSE
  then alter (fun b => b - qty)%float (d_itemId line) balances
  else if String.eqb ty T_RETURN
  then alter (fun b => b + qty)%float (d_itemId line) balances
  else balances.

Definition postPermission (balances : gmap string float) (p : DPermission)
  : gmap string float :=
  fold_left (postLine (p_type (head p))) (d_lines p) balances.

Definition bal_or0 (balances : gmap string float) (k : string) : float :=
  match balances !! k with
  | Some b => num_or0 b
  | None => 0%float
  end.

Section Ledger.
Variable Date_parse : string -> option Z.

Definition computeBalances (f : Filters) (its : list Item) (ps : list DPermission)
  : gmap string float :=
  let balances :=
    fold_left postPermission
      (List.filter (fun p => keepPermission Date_parse f (head p))
         (List.filter (fun p => p_posted (head p)) ps))
      (fold_left (fun b it => <[it_id it := 0%float]> b) its ∅) in
  if truthy (filterItemId f) then
    {[ opt_str (filterItemId f) := bal_or0 balances (opt_str (filterItemId f)) ]}
  else if truthy (filterGroup f) then
    fold_left (fun out it => <[it_id it := bal_or0 balances (it_id it)]> out)
      (List.filter (fun it => String.eqb (it_group it) (opt_str (filterGroup f)))
         its)
      ∅
  else balances.

Definition hasItem (itemId : string) (p : DPermission) : bool :=
  existsb (fun l => String.eqb (d_itemId l) itemId) (d_lines p).

(** The [in] and [out] of the rows one permission contributes. *)
Definition pushLines (itemId : string) (txs : list (float * float))
    (p : DPermission) : list (float * float) :=
  fold_left
    (fun txs line =>
       if negb (String.eqb (d_itemId line) itemId) then txs
       else
         let qty := num_or0 (d_qty line) in
         txs ++ [if isIn (p_type (head p)) then (qty, 0%float)
                 else (0%float, qty)])
    (d_lines p) txs.

(** [getItemCard]: the balance column and the final balance. *)
Definition getItemCard (itemId : string) (ps : list DPermission)
  : list float * float :=
  let txs :=
    fold_left (pushLines itemId)
      (array_sort (fun a b => byDate Date_parse (head a) (head b))
         (List.filter (hasItem itemId)
            (List.filter (fun p => p_posted (head p)) ps)))
      [] in
  fold_left
    (fun acc t =>
       let bal := (snd acc + (fst t - snd t))%float in
       (fst acc ++ [bal], bal))
    txs ([], 0%float).

End Ledger.

(** Three posted permissions for one item, in the order of the store: an
    addition of 0.1 dated 2024-01-20, an addition of 1 dated 2024-01-10 and
    a disbursement of 1 dated 2024-01-05. *)
Definition tenth : float := 0x1.999999999999ap-4%float.
Definition fractions : list DPermission :=
  [mkDPermission (Demo.perm "perm_a" "1" T_ADD "2024-01-20" []) [mkDLine "it_a" tenth];
   mkDPermission (Demo.perm "perm_b" "2" T_ADD "2024-01-10" []) [mkDLine "it_a" 1%float];
   mkDPermission (Demo.perm "perm_c" "3" T_DISBURSE "2024-01-05" [])
     [mkDLine "it_a" 1%float]].

End Doubles.

(** * Properties *)

Example parse_epoch : IsoDate.parse "1970-01-01" = Some 0.
Proof. reflexivity. Qed.

Example parse_2024_01_01 : IsoDate.parse "2024-01-01" = Some 1704067200000.
Proof. reflexivity. Qed.

Example parse_timestamp :
  IsoDate.parse "2024-03-01T12:30:15.250Z" = Some 1709296215250.
Proof. reflexivity. Qed.

Example parse_next_day :
  IsoDate.parse "2024-02-29" = Some (1709164800000)
  /\ IsoDate.parse "2024-03-01" = Some (1709164800000 + IsoDate.msPerDay).
Proof. split; reflexivity. Qed.

Example parse_invalid :
  IsoDate.parse "2024-13-45" = None /\ IsoDate.parse "n/a" = None.
Proof. split; reflexivity. Qed.

(** ** Facts about the JavaScript operators *)

Lemma type_names_distinct :
  NoDup [T_ADD; T_TRANSFER; T_DEDUCT; T_DISBURSE; T_RETURN].
Proof. compute_done. Qed.

Lemma signOf_ADD : signOf T_ADD = 1.
Proof. reflexivity. Qed.
Lemma signOf_RETURN : signOf T_RETURN = 1.
Proof. reflexivity. Qed.
Lemma signOf_TRANSFER : signOf T_TRANSFER = -1.
Proof. reflexivity. Qed.
Lemma signOf_DEDUCT : signOf T_DEDUCT = -1.
Proof. reflexivity. Qed.
Lemma signOf_DISBURSE : signOf T_DISBURSE = -1.
Proof. reflexivity. Qed.

Lemma signOf_unknown ty : knownType ty = false -> signOf ty = 0.
Proof.
  unfold knownType, signOf. intros H.
  repeat (apply orb_false_elim in H; destruct H as [H ?]).
  by repeat match goal with E : String.eqb _ _ = false |- _ => rewrite E; clear E end.
Qed.

Lemma num_or0_Some z : num_or0 (Some z) = z.
Proof. unfold num_or0. destruct (Z.eqb_spec z 0); congruence. Qed.

Lemma num_or0_default o : num_or0 o = default 0 o.
Proof. destruct o; [apply num_or0_Some | done]. Qed.

Lemma truthy_Some s : s <> ""%string -> truthy (Some s) = true.
Proof. intros H. simpl. by destruct (String.eqb_spec s ""). Qed.

Section LedgerFacts.
Variable Date_parse : string -> option Z.

(** *** One line *)

Lemma postLine_lookup ty (m : gmap string Z) line k :
  postLine ty m line !! k =
    if decide (l_itemId line = k)
    then Some (default 0 (m !! k) + signedQty ty line)
    else m !! k.
Proof.
  assert (Hsub : forall a b : Z, a - b = a + -1 * b) by (intros; lia).
  assert (Hadd : forall a b : Z, a + b = a + 1 * b) by (intros; lia).
  assert (Hnop : forall a b : Z, a = a + 0 * b) by (intros; lia).
  unfold postLine, signedQty. cbv zeta.
  generalize (num_or0 (l_qty line)) (l_itemId line). intros q i.
  set (m' := match m !! i with Some _ => m | None => <[i:=0]> m end).
  assert (Hm' : m' !! k = if decide (i = k) then Some (default 0 (m !! k)) else m !! k).
  { subst m'. destruct (m !! i) as [v|] eqn:Hi.
    - case_decide; [subst; by rewrite Hi | done].
    - rewrite lookup_insert. case_decide; [subst; by rewrite Hi | done]. }
  destruct (String.eqb_spec ty T_ADD) as [->|]; [|
  destruct (String.eqb_spec ty T_TRANSFER) as [->|]; [|
  destruct (String.eqb_spec ty T_DEDUCT) as [->|]; [|
  destruct (String.eqb_spec ty T_DISBURSE) as [->|]; [|
  destruct (String.eqb_spec ty T_RETURN) as [->|]]]]];
    rewrite ?signOf_ADD, ?signOf_RETURN, ?signOf_TRANSFER, ?signOf_DEDUCT,
      ?signOf_DISBURSE;
    try (rewrite lookup_alter; destruct (decide (i = k)) as [<-|];
         rewrite Hm'; simpl; [f_equal; first [apply Hadd | apply Hsub] | done]).
  rewrite Hm'. unfold signOf.
  repeat match goal with
         | H : ty <> _ |- _ => apply String.eqb_neq in H; rewrite H; clear H
         end.
  simpl. case_decide; [f_equal; apply Hnop | done].
Qed.

(** *** The lines of one permission *)

Lemma postLines_value ty ls (m : gmap string Z) k :
  default 0 (fold_left (postLine ty) ls m !! k)
  = default 0 (m !! k) + lineSum k ty ls.
Proof.
  revert m. induction ls as [|l ls IH]; intros m; simpl; [lia|].
  rewrite IH, postLine_lookup.
  destruct (String.eqb_spec (l_itemId l) k); case_decide; try done; simpl; lia.
Qed.

Lemma postLines_dom ty ls (m : gmap string Z) k :
  is_Some (fold_left (postLine ty) ls m !! k)
  <-> is_Some (m !! k) \/ existsb (fun l => String.eqb (l_itemId l) k) ls = true.
Proof.
  revert m. induction ls as [|l ls IH]; intros m; simpl.
  - split; [by left | intros [?|?]; done].
  - rewrite IH, postLine_lookup.
    destruct (String.eqb_spec (l_itemId l) k); case_decide; try done; simpl.
    split; [by right | intros _; left; eauto].
Qed.

(** *** A list of permissions *)

Lemma postPermissions_value ps (m : gmap string Z) k :
  default 0 (fold_left postPermission ps m !! k)
  = default 0 (m !! k) + permSum k ps.
Proof.
  revert m. induction ps as [|p ps IH]; intros m; simpl; [lia|].
  rewrite IH. unfold postPermission. rewrite postLines_value. lia.
Qed.

Lemma postPermissions_dom ps (m : gmap string Z) k :
  is_Some (fold_left postPermission ps m !! k)
  <-> is_Some (m !! k) \/ mentions k ps = true.
Proof.
  revert m. induction ps as [|p ps IH]; intros m; simpl.
  - split; [by left | intros [?|?]; done].
  - rewrite IH. unfold postPermission. rewrite postLines_dom.
    unfold hasItem. rewrite orb_true_iff. tauto.
Qed.

(** *** The initial mapping *)

Lemma initBalances_lookup its k :
  initBalances its !! k = if isItemId k its then Some 0 else None.
Proof.
  unfold initBalances.
  assert (G : forall (m : gmap string Z),
    fold_left (fun b it => <[it_id it := 0]> b) its m !! k
    = if isItemId k its then Some 0 else m !! k).
  { induction its as [|it its IH]; intros m; simpl; [done|].
    rewrite IH. destruct (isItemId k its) eqn:E.
    - by rewrite orb_true_r.
    - rewrite orb_false_r, lookup_insert.
      destruct (String.eqb_spec (it_id it) k); case_decide; done. }
  rewrite G. by destruct (isItemId k its).
Qed.

(** *** The scan of [computeBalances] *)

Lemma scanBalances_lookup f st k :
  scanBalances Date_parse f st !! k =
    if isItemId k (items st) || mentions k (selected Date_parse f st)
    then Some (permSum k (selected Date_parse f st))
    else None.
Proof.
  unfold scanBalances.
  pose proof (postPermissions_value (selected Date_parse f st)
                (initBalances (items st)) k) as Hv.
  pose proof (postPermissions_dom (selected Date_parse f st)
                (initBalances (items st)) k) as Hd.
  rewrite initBalances_lookup in Hv, Hd.
  destruct (fold_left postPermission _ _ !! k) as [v|] eqn:E;
    destruct (isItemId k (items st)); simpl in *;
    destruct (mentions k _); simpl in *;
    try (f_equal; lia); try done.
  - destruct Hd as [Hd _]. destruct Hd as [Hd|Hd]; [eauto | by destruct Hd | done].
  - destruct Hd as [_ Hd]. destruct Hd as [? Hd]; [left; eauto | done].
  - destruct Hd as [_ Hd]. destruct Hd as [? Hd]; [left; eauto | done].
  - destruct Hd as [_ Hd]. destruct Hd as [? Hd]; [by right | done].
Qed.

End LedgerFacts.

Example scenario_balances :
  computeBalances IsoDate.parse noFilters Demo.store0
  = <["it_a" := 7]> (<["it_b" := 0]> ∅).
Proof. vm_compute. reflexivity. Qed.

Example scenario_card :
  let c := getItemCard IsoDate.parse "it_a" Demo.store0 in
  map (fun r => (tx_in (row_tx r), tx_out (row_tx r), row_balance r)) (rows c)
  = [(10, 0, 10); (0, 3, 7)]
  /\ balance c = 7.
Proof. vm_compute. split; reflexivity. Qed.

Section SignRule.
Variable Date_parse : string -> option Z.

Lemma computeBalances_unfiltered f st :
  truthy (filterItemId f) = false -> truthy (filterGroup f) = false ->
  computeBalances Date_parse f st = scanBalances Date_parse f st.
Proof. intros H1 H2. unfold computeBalances. by rewrite H1, H2. Qed.

Lemma selected_noFilters st :
  selected Date_parse noFilters st = List.filter p_posted (permissions st).
Proof.
  unfold selected. induction (List.filter p_posted (permissions st)) as [|p l IH];
    simpl; [done|]. by rewrite IH.
Qed.

(** C1. [computeBalances] applies the sign rule to every line of every
    posted permission that survives the filters: without an item or group
    filter, the entry of an item is the signed sum of the surviving lines
    that name it (present when the item is current or named by such a
    line); addition and return count [+qty], transfer, equipment deduction
    and disbursement [-qty], any other type [0], and a line of another type
    leaves every existing balance as it is.  In particular, with one posted
    addition of [Q] and one posted disbursement of [R] for an item, the item
    is mapped to [Q - R] and every other current item to [0]. *)
Theorem computeBalances_sign_rule :
  (forall f st k,
      truthy (filterItemId f) = false -> truthy (filterGroup f) = false ->
      computeBalances Date_parse f st !! k =
        if isItemId k (items st) || mentions k (selected Date_parse f st)
        then Some (permSum k (selected Date_parse f st))
        else None)
  /\ (forall line,
        signedQty T_ADD line = num_or0 (l_qty line)
        /\ signedQty T_RETURN line = num_or0 (l_qty line)
        /\ signedQty T_TRANSFER line = - num_or0 (l_qty line)
        /\ signedQty T_DEDUCT line = - num_or0 (l_qty line)
        /\ signedQty T_DISBURSE line = - num_or0 (l_qty line)
        /\ forall ty, knownType ty = false -> signedQty ty line = 0)
  /\ (forall ty (m : gmap string Z) line k v,
        knownType ty = false -> m !! k = Some v ->
        postLine ty m line !! k = Some v)
  /\ (forall its whs it pA pD ps Q R,
        In it its ->
        singleLine pA T_ADD (it_id it) Q ->
        singleLine pD T_DISBURSE (it_id it) R ->
        ps = [pA; pD] \/ ps = [pD; pA] ->
        computeBalances Date_parse noFilters (mkStore its whs ps) !! it_id it
        = Some (Q - R)
        /\ forall other, In other its -> it_id other <> it_id it ->
             computeBalances Date_parse noFilters (mkStore its whs ps)
               !! it_id other = Some 0).
Proof.
  split; [|split; [|split]].
  - intros f st k Hi Hg. rewrite computeBalances_unfiltered by done.
    apply scanBalances_lookup.
  - intros line. unfold signedQty.
    rewrite signOf_ADD, signOf_RETURN, signOf_TRANSFER, signOf_DEDUCT,
      signOf_DISBURSE.
    repeat split; try lia. intros ty Hty. rewrite signOf_unknown by done. lia.
  - intros ty m line k v Hty Hk. rewrite postLine_lookup, Hk.
    unfold signedQty. rewrite signOf_unknown by done.
    case_decide; simpl; [f_equal; lia | done].
  - intros its whs it pA pD ps Q R Hin (HpA & HtA & lA & HlA & HiA & HqA)
      (HpD & HtD & lD & HlD & HiD & HqD) Hps.
    assert (Hitem : forall i, In i its -> isItemId (it_id i) its = true).
    { intros i Hi. unfold isItemId. apply existsb_exists. exists i.
      split; [done | apply String.eqb_refl]. }
    assert (Hsel : selected Date_parse noFilters (mkStore its whs ps) = ps).
    { rewrite selected_noFilters. simpl.
      destruct Hps as [-> | ->]; simpl; by rewrite HpA, HpD. }
    assert (Hsum : forall k, permSum k ps =
              if String.eqb (it_id it) k then Q - R else 0).
    { intros k. destruct Hps as [-> | ->]; simpl;
        rewrite HlA, HlD, HtA, HtD; simpl; rewrite HiA, HiD;
        unfold signedQty; rewrite HqA, HqD, signOf_ADD, signOf_DISBURSE,
          !num_or0_Some;
        destruct (String.eqb (it_id it) k); lia. }
    split.
    + rewrite computeBalances_unfiltered, scanBalances_lookup by done.
      rewrite Hsel, Hsum, String.eqb_refl. simpl.
      by rewrite (Hitem it Hin).
    + intros other Ho Hne.
      rewrite computeBalances_unfiltered, scanBalances_lookup by done.
      rewrite Hsel, Hsum. simpl. rewrite (Hitem other Ho). simpl.
      apply not_eq_sym, String.eqb_neq in Hne. by rewrite Hne.
Qed.

End SignRule.

Lemma computeBalances_sign_rule_witness :
  computeBalances IsoDate.parse noFilters Demo.store0 !! "it_a"%string = Some (10 - 3)
  /\ computeBalances IsoDate.parse noFilters Demo.store0 !! "it_b"%string = Some 0.
Proof.
  destruct (computeBalances_sign_rule IsoDate.parse) as (_ & _ & _ & H).
  destruct (H [Demo.itemA; Demo.itemB] [Demo.mainStore] Demo.itemA
              Demo.P1 Demo.P2 [Demo.P1; Demo.P2] 10 3) as [Ha Hb].
  - simpl. by left.
  - repeat split. by exists (Demo.lineA 10).
  - repeat split. by exists (Demo.lineA 3).
  - by left.
  - split; [exact Ha|].
    apply (Hb Demo.itemB); [simpl; by right; left | discriminate].
Defined.

(** ** Facts about [array_sort] *)
Section ArraySortFacts.
Context {A : Type} (key : A -> option Z).

Lemma sorts_after_spec x y :
  sorts_after (byKey key) x y = true
  <-> exists a b, key x = Some a /\ key y = Some b /\ b < a.
Proof.
  unfold sorts_after, byKey, date_sub.
  destruct (key x) as [a|], (key y) as [b|]; simpl;
    try (split; [done | by intros (? & ? & ? & ? & ?)]).
  rewrite Z.ltb_lt. split.
  - intros H. exists a, b. repeat split; lia.
  - intros (? & ? & [= <-] & [= <-] & ?). lia.
Qed.

Lemma sort_insert_perm x l : Permutation (sort_insert (byKey key) x l) (x :: l).
Proof.
  induction l as [|y l IH]; simpl; [done|].
  destruct (sorts_after (byKey key) x y); [|done].
  rewrite IH. apply perm_swap.
Qed.

Lemma array_sort_perm l : Permutation (array_sort (byKey key) l) l.
Proof.
  induction l as [|x l IH]; simpl; [done|].
  rewrite sort_insert_perm. by constructor.
Qed.

(** Stability: the elements of any one key keep their order. *)
Lemma sort_insert_stable k x l :
  List.filter (fun a => bool_decide (key a = k)) (sort_insert (byKey key) x l)
  = List.filter (fun a => bool_decide (key a = k)) (x :: l).
Proof.
  induction l as [|y l IH]; [done|].
  simpl sort_insert. destruct (sorts_after (byKey key) x y) eqn:E; [|done].
  apply sorts_after_spec in E as (a & b & Hx & Hy & Hlt).
  simpl in *. rewrite IH.
  destruct (bool_decide_reflect (key x = k)) as [Hk|Hk];
    destruct (bool_decide_reflect (key y = k)) as [Hk'|Hk']; try done.
  rewrite Hx in Hk. rewrite Hy in Hk'. subst k. injection Hk' as ->. lia.
Qed.

Lemma array_sort_stable k l :
  List.filter (fun a => bool_decide (key a = k)) (array_sort (byKey key) l)
  = List.filter (fun a => bool_decide (key a = k)) l.
Proof.
  induction l as [|x l IH]; [done|].
  simpl array_sort. rewrite sort_insert_stable. simpl. by rewrite IH.
Qed.

Lemma sort_insert_sorted x l :
  is_Some (key x) -> Forall (fun y => is_Some (key y)) l ->
  StronglySorted (key_le key) l -> StronglySorted (key_le key) (sort_insert (byKey key) x l).
Proof.
  intros [a Ha] Hall Hs. induction Hs as [|y l Hs IH Hy]; simpl.
  - repeat constructor.
  - apply Forall_cons in Hall as [[b Hb] Hall].
    destruct (sorts_after (byKey key) x y) eqn:E.
    + apply sorts_after_spec in E as (a' & b' & Hx & Hy' & Hlt).
      constructor; [by apply IH|].
      eapply Permutation_Forall; [symmetry; apply sort_insert_perm|].
      constructor; [|done].
      unfold key_le. rewrite Hx, Hy'. simpl. lia.
    + assert (Hle : a <= b).
      { destruct (Z_lt_le_dec b a) as [Hlt|]; [|done].
        assert (sorts_after (byKey key) x y = true) as E'
          by (apply sorts_after_spec; eauto 6).
        congruence. }
      constructor; [by constructor|].
      constructor; [unfold key_le; by rewrite Ha, Hb|].
      eapply Forall_impl; [exact Hy|].
      intros z Hz. unfold key_le in *. rewrite Hb in Hz. rewrite Ha.
      destruct (key z); simpl in *; [lia | done].
Qed.

Lemma array_sort_sorted l :
  Forall (fun y => is_Some (key y)) l ->
  StronglySorted (key_le key) (array_sort (byKey key) l).
Proof.
  induction l as [|x l IH]; intros Hall; simpl; [constructor|].
  apply Forall_cons in Hall as [Hx Hall].
  apply sort_insert_sorted; [done | | by apply IH].
  eapply Permutation_Forall; [symmetry; apply array_sort_perm | done].
Qed.
End ArraySortFacts.

(** ** Facts about [getItemCard] *)

Lemma isIn_spec ty : isIn ty = true <-> ty = T_ADD \/ ty = T_RETURN.
Proof. unfold isIn. by rewrite orb_true_iff, !String.eqb_eq. Qed.

Lemma known_cardSigned ty line :
knownType ty = true -> cardSigned ty line = signedQty ty line.
Proof.
unfold knownType. rewrite !orb_true_iff, !String.eqb_eq.
unfold cardSigned, signedQty.
intros [[[[-> | ->] | ->] | ->] | ->].
- rewrite signOf_ADD. change (isIn T_ADD) with true. cbv iota. lia.
- rewrite signOf_TRANSFER. change (isIn T_TRANSFER) with false. cbv iota. lia.
- rewrite signOf_DEDUCT. change (isIn T_DEDUCT) with false. cbv iota. lia.
- rewrite signOf_DISBURSE. change (isIn T_DISBURSE) with false. cbv iota. lia.
- rewrite signOf_RETURN. change (isIn T_RETURN) with true. cbv iota. lia.
Qed.

Lemma net_lineTx p line : net (lineTx p line) = cardSigned (p_type p) line.
Proof.
unfold net, lineTx, cardSigned. cbn [tx_in tx_out].
destruct (isIn (p_type p)); lia.
Qed.

Lemma pushLines_eq id txs p : pushLines id txs p = txs ++ linesTx id p.
Proof.
unfold pushLines, linesTx. revert txs.
induction (p_lines p) as [|l ls IH]; intros txs; simpl.
- by rewrite app_nil_r.
- rewrite IH. destruct (String.eqb (l_itemId l) id); simpl; [|done].
  by rewrite <- app_assoc.
Qed.

Lemma fold_pushLines id ps txs :
fold_left (pushLines id) ps txs = txs ++ flat_map (linesTx id) ps.
Proof.
revert txs. induction ps as [|p ps IH]; intros txs; simpl.
- by rewrite app_nil_r.
- by rewrite IH, pushLines_eq, <- app_assoc.
Qed.

Lemma fold_runStep txs acc :
fold_left runStep txs acc
= (fst acc ++ running (snd acc) txs, snd acc + netSum txs).
Proof.
revert acc. induction txs as [|t txs IH]; intros [rs b]; simpl.
- rewrite app_nil_r. f_equal. lia.
- rewrite IH. simpl. unfold net. rewrite <- app_assoc. simpl. f_equal. lia.
Qed.

Lemma running_txs b txs : map row_tx (running b txs) = txs.
Proof. revert b. induction txs as [|t txs IH]; intros b; simpl; [done|]. by rewrite IH. Qed.

Lemma running_last b txs :
default b (row_balance <$> last (running b txs)) = b + netSum txs.
Proof.
revert b. induction txs as [|t txs IH]; intros b; simpl; [lia|].
rewrite last_cons. specialize (IH (b + net t)).
destruct (last (running (b + net t) txs)); simpl in *; lia.
Qed.

Lemma netSum_app l1 l2 : netSum (l1 ++ l2) = netSum l1 + netSum l2.
Proof. induction l1 as [|t l1 IH]; simpl; lia. Qed.

Lemma netSum_linesTx id p : netSum (linesTx id p) = cardLineSum id p.
Proof.
unfold linesTx, cardLineSum. induction (p_lines p) as [|l ls IH]; simpl; [done|].
destruct (String.eqb (l_itemId l) id); simpl; rewrite ?net_lineTx; lia.
Qed.

Lemma netSum_flat_map id ps : netSum (flat_map (linesTx id) ps) = cardSum id ps.
Proof.
induction ps as [|p ps IH]; simpl; [done|].
by rewrite netSum_app, netSum_linesTx, IH.
Qed.

Lemma cardSum_perm id ps ps' :
Permutation ps ps' -> cardSum id ps = cardSum id ps'.
Proof. induction 1; simpl; lia. Qed.

Lemma cardLineSum_absent id p : hasItem id p = false -> cardLineSum id p = 0.
Proof.
unfold hasItem, cardLineSum. induction (p_lines p) as [|l ls IH]; simpl; [done|].
intros [-> H]%orb_false_elim. rewrite IH by done. lia.
Qed.

Lemma lineSum_absent id p :
hasItem id p = false -> lineSum id (p_type p) (p_lines p) = 0.
Proof.
unfold hasItem. induction (p_lines p) as [|l ls IH]; simpl; [done|].
intros [-> H]%orb_false_elim. rewrite IH by done. lia.
Qed.

Lemma cardSum_hasItem id ps :
cardSum id (List.filter (hasItem id) ps) = cardSum id ps.
Proof.
induction ps as [|p ps IH]; simpl; [done|].
destruct (hasItem id p) eqn:E; simpl; rewrite IH; [done|].
rewrite cardLineSum_absent by done. lia.
Qed.

Lemma known_lineSum id p :
knownType (p_type p) = true ->
lineSum id (p_type p) (p_lines p) = cardLineSum id p.
Proof.
intros Hk. unfold cardLineSum. induction (p_lines p) as [|l ls IH]; simpl; [done|].
rewrite IH, known_cardSigned by done. done.
Qed.

Lemma permSum_cardSum id ps :
(forall p, In p ps -> hasItem id p = true -> knownType (p_type p) = true) ->
permSum id ps = cardSum id ps.
Proof.
induction ps as [|p ps IH]; intros H; simpl; [done|].
rewrite IH by (intros; apply H; [by right | done]).
destruct (hasItem id p) eqn:E.
- rewrite known_lineSum; [done|]. apply H; [by left | done].
- by rewrite lineSum_absent, cardLineSum_absent.
Qed.

Section CardFacts.
Variable Date_parse : string -> option Z.

Lemma cardTxs_eq id st :
  cardTxs Date_parse id st
  = flat_map (linesTx id) (cardPermissions Date_parse id st).
Proof. unfold cardTxs. by rewrite fold_pushLines. Qed.

Lemma getItemCard_rows id st :
  rows (getItemCard Date_parse id st) = running 0 (cardTxs Date_parse id st).
Proof. unfold getItemCard. by rewrite fold_runStep. Qed.

Lemma getItemCard_balance id st :
  balance (getItemCard Date_parse id st)
  = cardSum id (List.filter p_posted (permissions st)).
Proof.
  unfold getItemCard. rewrite fold_runStep. simpl.
  rewrite cardTxs_eq, netSum_flat_map. unfold cardPermissions.
  etrans; [|apply cardSum_hasItem].
  apply cardSum_perm.
  apply (array_sort_perm (fun p => newDate Date_parse (effDate p))).
Qed.

Lemma getItemCard_last id st :
  balance (getItemCard Date_parse id st)
  = default 0 (row_balance <$> last (rows (getItemCard Date_parse id st))).
Proof.
  rewrite getItemCard_rows, running_last.
  unfold getItemCard. rewrite fold_runStep. done.
Qed.

Lemma selected_onlyItem id st :
  selected Date_parse (onlyItem id) st = List.filter p_posted (permissions st).
Proof.
  unfold selected. induction (List.filter p_posted (permissions st)) as [|p l IH];
    simpl; [done|]. by rewrite IH.
Qed.

Lemma computeBalances_onlyItem id st :
  id <> ""%string ->
  computeBalances Date_parse (onlyItem id) st
  = {[ id := permSum id (List.filter p_posted (permissions st)) ]}.
Proof.
  intros Hid. unfold computeBalances. simpl filterItemId.
  rewrite truthy_Some by done. simpl opt_str. f_equal.
  unfold bal_or0, scanBalances. rewrite num_or0_default, postPermissions_value.
  rewrite initBalances_lookup, selected_onlyItem.
  by destruct (isItemId id (items st)).
Qed.

Lemma lineMagnitude_absent id p : hasItem id p = false -> lineMagnitude id p = 0.
Proof.
  unfold hasItem, lineMagnitude.
  induction (p_lines p) as [|l ls IH]; simpl; [done|].
  intros [-> H]%orb_false_elim. rewrite IH by done. lia.
Qed.

Lemma magnitude_hasItem id ps :
  magnitude id (List.filter (hasItem id) ps) = magnitude id ps.
Proof.
  induction ps as [|p ps IH]; simpl; [done|].
  destruct (hasItem id p) eqn:E; simpl; rewrite IH; [done|].
  rewrite lineMagnitude_absent by done. lia.
Qed.

Lemma magnitude_perm id ps ps' :
  Permutation ps ps' -> magnitude id ps = magnitude id ps'.
Proof. induction 1; simpl; lia. Qed.

Lemma magnitude_linesTx id ps :
  foldr (fun t acc => Z.abs (net t) + acc) 0 (flat_map (linesTx id) ps)
  = magnitude id ps.
Proof.
  induction ps as [|p ps IH]; simpl; [done|].
  rewrite foldr_app, IH. unfold linesTx, lineMagnitude.
  induction (p_lines p) as [|l ls IHl]; simpl; [done|].
  destruct (String.eqb (l_itemId l) id); simpl; [|done].
  rewrite IHl. unfold net, lineTx. simpl. destruct (isIn (p_type p)); lia.
Qed.

Lemma running_bounded b txs :
  Forall (fun r => Z.abs (row_balance r)
                   <= Z.abs b + foldr (fun t acc => Z.abs (net t) + acc) 0 txs)
    (running b txs).
Proof.
  revert b. induction txs as [|t txs IH]; intros b; simpl; constructor.
  - simpl. assert (0 <= foldr (fun t acc => Z.abs (net t) + acc) 0 txs).
    { clear. induction txs; simpl; lia. }
    lia.
  - eapply Forall_impl; [apply IH|]. intros r Hr. cbv beta in Hr. lia.
Qed.

Lemma card_rows_in_range id st :
  exactRange id st ->
  Forall (fun r => Z.abs (row_balance r) <= 2 ^ 53)
    (rows (getItemCard Date_parse id st)).
Proof.
  unfold exactRange. intros Hrange.
  rewrite getItemCard_rows, cardTxs_eq.
  eapply Forall_impl; [apply running_bounded|].
  intros r Hr. cbv beta in Hr. rewrite magnitude_linesTx in Hr.
  unfold cardPermissions in Hr.
  rewrite (magnitude_perm id _ _
             (array_sort_perm (fun p => newDate Date_parse (effDate p)) _)),
    magnitude_hasItem in Hr.
  lia.
Qed.

(** C2, in the range of exact sums and for the five document types.  For a
    non-empty item id, when every posted permission with a line for the
    item has one of the five document types and the quantities of these
    lines are integers whose magnitudes add up to at most [2^53] (so that
    every sum formed is exact, in whatever order), the balance of
    [getItemCard id] (the running balance of its last row, [0] without
    rows) is the value [computeBalances] with [filterItemId = id] assigns
    to [id], and no running balance of the card leaves the range. *)
Theorem card_balance_matches_computeBalances id st :
  id <> ""%string ->
  (forall p, In p (permissions st) -> p_posted p = true ->
             hasItem id p = true -> knownType (p_type p) = true) ->
  exactRange id st ->
  computeBalances Date_parse (onlyItem id) st !! id
  = Some (balance (getItemCard Date_parse id st))
  /\ balance (getItemCard Date_parse id st)
     = default 0 (row_balance <$> last (rows (getItemCard Date_parse id st)))
  /\ Forall (fun r => Z.abs (row_balance r) <= 2 ^ 53)
       (rows (getItemCard Date_parse id st)).
Proof.
  intros Hid Hknown Hrange.
  split; [|split; [apply getItemCard_last | by apply card_rows_in_range]].
  rewrite computeBalances_onlyItem by done.
  rewrite lookup_singleton_eq, getItemCard_balance. f_equal.
  apply permSum_cardSum. intros p [Hp Hposted]%filter_In Hhas. by apply Hknown.
Qed.

End CardFacts.

Lemma card_balance_matches_computeBalances_witness :
  computeBalances IsoDate.parse (onlyItem "it_a") Demo.store0 !! "it_a"%string
  = Some (balance (getItemCard IsoDate.parse "it_a" Demo.store0))
  /\ balance (getItemCard IsoDate.parse "it_a" Demo.store0)
     = default 0 (row_balance <$>
                    last (rows (getItemCard IsoDate.parse "it_a" Demo.store0)))
  /\ Forall (fun r => Z.abs (row_balance r) <= 2 ^ 53)
       (rows (getItemCard IsoDate.parse "it_a" Demo.store0)).
Proof.
  apply (card_balance_matches_computeBalances IsoDate.parse "it_a" Demo.store0).
  - discriminate.
  - intros p [<- | [<- | []]] _ _; reflexivity.
  - unfold exactRange. vm_compute. discriminate.
Defined.

(** C2, counterexample.  With one posted document of an unknown type holding
    a line of 5 for the item, the card ends at [-5] while [computeBalances]
    with [filterItemId] gives [0]. *)
Lemma card_balance_differs_on_unknown_type :
  computeBalances IsoDate.parse (onlyItem "it_a") DemoUnknown.store1 !! "it_a"%string
  = Some 0
  /\ balance (getItemCard IsoDate.parse "it_a" DemoUnknown.store1) = -5
  /\ computeBalances IsoDate.parse (onlyItem "it_a") DemoUnknown.store1 !! "it_a"%string
     <> Some (balance (getItemCard IsoDate.parse "it_a" DemoUnknown.store1)).
Proof. vm_compute. repeat split; congruence. Qed.

(** ** Chronology of the card *)

Lemma tx_date_linesTx id p :
  map tx_date (linesTx id p)
  = repeat (effDate p) (length (linesTx id p)).
Proof.
  unfold linesTx. induction (List.filter _ (p_lines p)) as [|l ls IH]; simpl; [done|].
  by rewrite IH.
Qed.

Section Chronology.
Variable Date_parse : string -> option Z.

Lemma repeat_sorted d n : notLater Date_parse d d -> StronglySorted (notLater Date_parse) (repeat d n).
Proof.
  intros Hd. induction n as [|n IH]; simpl; constructor; [done|].
  apply Forall_forall. by intros x ->%list_elem_of_In%repeat_spec.
Qed.

Lemma card_dates_sorted id ps :
  Forall (fun p => is_Some (timeOf Date_parse p)) ps ->
  StronglySorted (key_le (timeOf Date_parse)) ps ->
  StronglySorted (notLater Date_parse) (map tx_date (flat_map (linesTx id) ps)).
Proof.
  intros Hall Hs. induction Hs as [|p ps Hs IH Hp]; simpl; [constructor|].
  apply Forall_cons in Hall as [[t Ht] Hall].
  rewrite map_app, tx_date_linesTx. apply StronglySorted_app_2.
  - intros d1 d2 ->%list_elem_of_In%repeat_spec
      (tx & <- & (q & Hq & Htx)%in_flat_map)%list_elem_of_In%in_map_iff.
    assert (tx_date tx = effDate q) as ->.
    { assert (In (tx_date tx) (map tx_date (linesTx id q))) as Hin
        by (apply in_map; done).
      rewrite tx_date_linesTx in Hin. by apply repeat_spec in Hin. }
    rewrite Forall_forall in Hp. apply (Hp q). by apply list_elem_of_In.
  - apply repeat_sorted. unfold notLater. fold (timeOf Date_parse p). rewrite Ht. simpl. lia.
  - by apply IH.
Qed.

(** C7, for valid dates.  When the effective date ([date], or [createdAt] when
    [date] is empty) of every posted permission with a line for the item
    is a valid date, the rows of [getItemCard] are in non-decreasing order
    of their [date] field: they are the lines of the selected permissions
    taken in the order of a stable sort by that date, which is a
    rearrangement of the selection, ascending, and keeps permissions of
    equal date in container order. *)
Theorem card_rows_chronological id st :
  (forall p, In p (permissions st) -> p_posted p = true ->
             hasItem id p = true -> is_Some (timeOf Date_parse p)) ->
  let sel := List.filter (hasItem id) (List.filter p_posted (permissions st)) in
  let ps := cardPermissions Date_parse id st in
  StronglySorted (notLater Date_parse)
    (map (fun r => tx_date (row_tx r)) (rows (getItemCard Date_parse id st)))
  /\ map row_tx (rows (getItemCard Date_parse id st)) = flat_map (linesTx id) ps
  /\ Permutation ps sel
  /\ StronglySorted (key_le (timeOf Date_parse)) ps
  /\ forall t, List.filter (fun p => bool_decide (timeOf Date_parse p = t)) ps
               = List.filter (fun p => bool_decide (timeOf Date_parse p = t)) sel.
Proof.
  intros Hparse sel ps.
  assert (Hsel : Forall (fun p => is_Some (timeOf Date_parse p)) sel).
  { apply Forall_forall. intros p [[Hp Hposted]%filter_In Hhas]%list_elem_of_In%filter_In.
    by apply Hparse. }
  assert (Hperm : Permutation ps sel) by apply (array_sort_perm (timeOf Date_parse)).
  assert (Hsorted : StronglySorted (key_le (timeOf Date_parse)) ps)
    by (apply (array_sort_sorted (timeOf Date_parse)); done).
  assert (Hrows : map row_tx (rows (getItemCard Date_parse id st))
                  = flat_map (linesTx id) ps).
  { by rewrite getItemCard_rows, running_txs, cardTxs_eq. }
  split; [|split; [done|split; [done|split; [done|]]]].
  - rewrite <- (map_map row_tx tx_date), Hrows.
    apply card_dates_sorted; [|done].
    eapply Permutation_Forall; [symmetry; exact Hperm | done].
  - intros t. apply (array_sort_stable (timeOf Date_parse)).
Qed.

End Chronology.

Lemma card_rows_chronological_witness :
  StronglySorted (notLater IsoDate.parse)
    (map (fun r => tx_date (row_tx r))
       (rows (getItemCard IsoDate.parse "it_a" Demo.store0))).
Proof.
  apply (card_rows_chronological IsoDate.parse "it_a" Demo.store0).
  intros p [<- | [<- | []]] _ _; vm_compute; eauto.
Defined.

Example card_falls_back_to_createdAt :
  map (fun r => (tx_date (row_tx r), row_balance r))
      (rows (getItemCard IsoDate.parse "it_a" Demo.store3))
  = [("2024-01-01", 10); ("2024-01-03T09:00:00.000Z", 12); ("2024-01-05", 9)]%string.
Proof. vm_compute. reflexivity. Qed.

(** C7, counterexample.  With a posted permission whose date is not a date
    between two dated ones, the comparator is [NaN] against it, nothing
    moves, and the card lists 2024-01-05 before 2024-01-01, two valid
    dates in decreasing order. *)
Lemma card_rows_out_of_order :
  map (fun r => tx_date (row_tx r))
      (rows (getItemCard IsoDate.parse "it_a" DemoUnknown.store2))
  = ["2024-01-05"; "n/a"; "2024-01-01"]%string
  /\ date_lt (newDate IsoDate.parse "2024-01-01")
             (newDate IsoDate.parse "2024-01-05") = true
  /\ ~ StronglySorted (notLater IsoDate.parse)
         (map (fun r => tx_date (row_tx r))
              (rows (getItemCard IsoDate.parse "it_a" DemoUnknown.store2))).
Proof.
  assert (E : map (fun r => tx_date (row_tx r))
                (rows (getItemCard IsoDate.parse "it_a" DemoUnknown.store2))
              = ["2024-01-05"; "n/a"; "2024-01-01"]%string)
    by (vm_compute; reflexivity).
  split; [exact E|]. split; [reflexivity|]. rewrite E. intros H.
  apply StronglySorted_inv in H as [_ H].
  apply Forall_inv_tail, Forall_inv in H.
  vm_compute in H. by apply H.
Qed.

(** Total quantity of the lines of [p] that name item [k]. *)
(** ** Facts used by several claims *)

Lemma cardSum_app id l1 l2 : cardSum id (l1 ++ l2) = cardSum id l1 + cardSum id l2.
Proof. induction l1 as [|p l1 IH]; simpl; lia. Qed.

Lemma permSum_app id l1 l2 : permSum id (l1 ++ l2) = permSum id l1 + permSum id l2.
Proof. induction l1 as [|p l1 IH]; simpl; lia. Qed.

Lemma cardLineSum_outflow id p :
  isIn (p_type p) = false -> cardLineSum id p = - qtySum id p.
Proof.
  intros H. unfold cardLineSum, qtySum, cardSigned. rewrite H.
  induction (p_lines p) as [|l ls IH]; simpl; [done|].
  destruct (String.eqb (l_itemId l) id); lia.
Qed.

Lemma lineSum_unknown id ty ls : knownType ty = false -> lineSum id ty ls = 0.
Proof.
  intros H. unfold lineSum, signedQty. rewrite signOf_unknown by done.
  induction ls as [|l ls IH]; simpl; [done|].
  destruct (String.eqb (l_itemId l) id); lia.
Qed.

Lemma isItemId_removed id its :
  isItemId id (List.filter (fun i => negb (String.eqb (it_id i) id)) its) = false.
Proof.
  induction its as [|i its IH]; simpl; [done|].
  destruct (String.eqb (it_id i) id) eqn:E; simpl; [done|]. by rewrite E.
Qed.

Lemma isItemId_other id k its :
  k <> id ->
  isItemId k (List.filter (fun i => negb (String.eqb (it_id i) id)) its)
  = isItemId k its.
Proof.
  intros Hne. induction its as [|i its IH]; simpl; [done|].
  destruct (String.eqb_spec (it_id i) id) as [->|]; simpl.
  - apply not_eq_sym, String.eqb_neq in Hne. by rewrite Hne.
  - by rewrite IH.
Qed.

Section ScanFacts.
Variable Date_parse : string -> option Z.

Lemma scanBalances_value f st k :
  num_or0 (scanBalances Date_parse f st !! k)
  = permSum k (selected Date_parse f st).
Proof.
  unfold scanBalances.
  rewrite num_or0_default, postPermissions_value, initBalances_lookup.
  by destruct (isItemId k (items st)).
Qed.

Lemma selected_push f p st :
  selected Date_parse f (addPermission p st)
  = selected Date_parse f st
    ++ (if p_posted p && keepPermission Date_parse f p then [p] else []).
Proof.
  unfold selected, addPermission. simpl. rewrite !List.filter_app. simpl.
  destruct (p_posted p); simpl; [|done].
  by destruct (keepPermission Date_parse f p).
Qed.

(** The result of [computeBalances], read through [balances[k] || 0],
    depends on the scan only through the same reading. *)
Lemma computeBalances_value f st st' :
  items st' = items st ->
  (forall k, num_or0 (scanBalances Date_parse f st' !! k)
             = num_or0 (scanBalances Date_parse f st !! k)) ->
  forall k, num_or0 (computeBalances Date_parse f st' !! k)
            = num_or0 (computeBalances Date_parse f st !! k).
Proof.
  intros Hitems Hscan k. unfold computeBalances, bal_or0.
  destruct (truthy (filterItemId f)); [by rewrite Hscan|].
  destruct (truthy (filterGroup f)); [|apply Hscan].
  rewrite Hitems. f_equal. f_equal.
  generalize (∅ : gmap string Z).
  induction (List.filter _ (items st)) as [|it its IH]; intros m; simpl; [done|].
  by rewrite Hscan, IH.
Qed.

End ScanFacts.

Section OtherTypes.
Variable Date_parse : string -> option Z.

Lemma last_cons_default {A B} (g : A -> B) (x : A) (l : list A) (b : B) :
  default b (g <$> last (x :: l)) = default (g x) (g <$> last l).
Proof. rewrite last_cons. by destruct (last l). Qed.

Lemma running_split b txs rs1 r rs2 :
  running b txs = rs1 ++ r :: rs2 ->
  row_balance r = default b (row_balance <$> last rs1) + net (row_tx r)
  /\ In (row_tx r) txs.
Proof.
  revert b rs1. induction txs as [|t txs IH]; intros b rs1; simpl.
  - by destruct rs1.
  - destruct rs1 as [|r0 rs1]; simpl.
    + intros [= <- _]. simpl. by split; [|left].
    + intros [= <- Hrest]. destruct (IH _ _ Hrest) as [Hbal Hin].
      split; [|by right].
      by rewrite (last_cons_default row_balance).
Qed.

Lemma cardTxs_origin id st t :
  In t (cardTxs Date_parse id st) ->
  exists p line,
    In p (permissions st) /\ p_posted p = true /\ In line (p_lines p)
    /\ l_itemId line = id /\ t = lineTx p line.
Proof.
  rewrite cardTxs_eq. intros (p & Hp & Ht)%in_flat_map.
  unfold linesTx in Ht. apply in_map_iff in Ht as (line & <- & Hline).
  apply filter_In in Hline as [Hline Hid%String.eqb_eq].
  exists p, line. unfold cardPermissions in Hp.
  eapply Permutation_in in Hp;
    [|apply (array_sort_perm (fun p => newDate Date_parse (effDate p)))].
  apply filter_In in Hp as [[Hp Hposted]%filter_In _]. done.
Qed.


End OtherTypes.


Section Filters.
Variable Date_parse : string -> option Z.

(** C3.  Removing an item leaves the posted lines that name it in the
    aggregation: when some posted permission has a line for the item,
    [computeBalances] without filters still has an entry for the item id,
    now absent from the items, holding the signed sum of those lines, the
    value it had before the removal; the entries of all other ids are as
    before too. *)
Theorem removeItem_keeps_history st id :
  mentions id (List.filter p_posted (permissions st)) = true ->
  isItemId id (items (removeItem id st)) = false
  /\ computeBalances Date_parse noFilters (removeItem id st) !! id
     = Some (permSum id (List.filter p_posted (permissions st)))
  /\ computeBalances Date_parse noFilters (removeItem id st) !! id
     = computeBalances Date_parse noFilters st !! id
  /\ forall k, k <> id ->
       computeBalances Date_parse noFilters (removeItem id st) !! k
       = computeBalances Date_parse noFilters st !! k.
Proof.
  intros Hm.
  assert (Hsel : selected Date_parse noFilters (removeItem id st)
                 = List.filter p_posted (permissions st))
    by exact (selected_noFilters Date_parse (removeItem id st)).
  assert (Hsel' : selected Date_parse noFilters st
                  = List.filter p_posted (permissions st))
    by apply selected_noFilters.
  assert (Hl : forall s k, computeBalances Date_parse noFilters s !! k
               = if isItemId k (items s) || mentions k (selected Date_parse noFilters s)
                 then Some (permSum k (selected Date_parse noFilters s)) else None).
  { intros s k. rewrite computeBalances_unfiltered by done.
    apply scanBalances_lookup. }
  split; [apply isItemId_removed|].
  split; [|split].
  - by rewrite Hl, Hsel, Hm, orb_true_r.
  - by rewrite !Hl, Hsel, Hsel', Hm, !orb_true_r.
  - intros k Hk. rewrite !Hl, Hsel, Hsel'. simpl.
    by rewrite isItemId_other.
Qed.

(** C4.  With a non-empty [filterItemId], [computeBalances] returns a
    mapping with exactly one entry, keyed by [filterItemId], whatever
    [filterGroup] is: the result is the one obtained with [filterItemId]
    alone. *)
Theorem filterItemId_takes_precedence fd td pt id g st :
  id <> ""%string ->
  computeBalances Date_parse (mkFilters fd td pt (Some id) g) st
  = computeBalances Date_parse (mkFilters fd td pt (Some id) None) st
  /\ dom (computeBalances Date_parse (mkFilters fd td pt (Some id) g) st) = {[ id ]}
  /\ size (computeBalances Date_parse (mkFilters fd td pt (Some id) g) st) = 1%nat.
Proof.
  intros Hid. unfold computeBalances. simpl filterItemId.
  rewrite truthy_Some by done. simpl opt_str.
  split; [done|]. split; [apply dom_singleton_L | apply map_size_singleton].
Qed.

Lemma typePasses_false pt p :
  typePasses pt p ->
  truthy pt && negb (String.eqb (p_type p) (opt_str pt)) = false.
Proof.
  unfold typePasses. destruct (truthy pt); [|done].
  intros ->; [|done]. simpl. by rewrite String.eqb_refl.
Qed.

Lemma selected_In f st p :
  In p (selected Date_parse f st)
  <-> In p (permissions st) /\ p_posted p = true
      /\ keepPermission Date_parse f p = true.
Proof. unfold selected. rewrite !filter_In. tauto. Qed.

Lemma newDate_Some_truthy d t : newDate Date_parse d = Some t -> truthy (Some d) = true.
Proof. unfold newDate. simpl. by destruct (String.eqb d ""). Qed.

(** The filter callback on the date bounds.  A posted permission with a
    valid date that passes the type filter is among the selected ones when
    dated exactly [fromDate] or exactly [toDate], and not when dated one day
    before [fromDate] or one day after [toDate]. *)
Lemma date_bounds_select st p pt fi fg t :
  In p (permissions st) -> p_posted p = true -> typePasses pt p ->
  newDate Date_parse (p_date p) = Some t ->
  (forall d1 d2 t1 t2,
      newDate Date_parse d1 = Some t1 -> newDate Date_parse d2 = Some t2 ->
      t1 <= t2 ->
      let f := mkFilters (Some d1) (Some d2) pt fi fg in
      (t = t1 -> In p (selected Date_parse f st))
      /\ (t = t2 -> In p (selected Date_parse f st))
      /\ (t = t1 - IsoDate.msPerDay -> ~ In p (selected Date_parse f st))
      /\ (t = t2 + IsoDate.msPerDay -> ~ In p (selected Date_parse f st)))
  /\ (forall d1 t1 td,
        newDate Date_parse d1 = Some t1 -> truthy td = false ->
        let f := mkFilters (Some d1) td pt fi fg in
        (t = t1 -> In p (selected Date_parse f st))
        /\ (t = t1 - IsoDate.msPerDay -> ~ In p (selected Date_parse f st)))
  /\ (forall d2 t2 fd,
        newDate Date_parse d2 = Some t2 -> truthy fd = false ->
        let f := mkFilters fd (Some d2) pt fi fg in
        (t = t2 -> In p (selected Date_parse f st))
        /\ (t = t2 + IsoDate.msPerDay -> ~ In p (selected Date_parse f st))).
Proof.
  intros Hin Hposted Hty%typePasses_false Hdate.
  assert (Hday : 0 < IsoDate.msPerDay) by done.
  split; [|split].
  - intros d1 d2 t1 t2 H1 H2 Hle f. subst f.
    rewrite selected_In. unfold keepPermission.
    cbn [filterPermType fromDate toDate].
    change (opt_str (Some d1)) with d1. change (opt_str (Some d2)) with d2.
    rewrite Hty, Hdate, H1, H2, (newDate_Some_truthy _ _ H1),
      (newDate_Some_truthy _ _ H2).
    unfold date_lt, date_gt.
    split; [|split; [|split]]; intros ->; bounds.
  - intros d1 t1 td H1 Htd f. subst f.
    rewrite selected_In. unfold keepPermission.
    cbn [filterPermType fromDate toDate].
    change (opt_str (Some d1)) with d1.
    rewrite Hty, Hdate, H1, Htd, (newDate_Some_truthy _ _ H1).
    unfold date_lt.
    split; intros ->; bounds.
  - intros d2 t2 fd H2 Hfd f. subst f.
    rewrite selected_In. unfold keepPermission.
    cbn [filterPermType fromDate toDate].
    change (opt_str (Some d2)) with d2.
    rewrite Hty, Hdate, H2, Hfd, (newDate_Some_truthy _ _ H2).
    unfold date_gt.
    split; intros ->; bounds.
Qed.

Lemma keepPermission_invalid_from d td pt fi fg p :
  newDate Date_parse d = None ->
  keepPermission Date_parse (mkFilters (Some d) td pt fi fg) p
  = keepPermission Date_parse (mkFilters None td pt fi fg) p.
Proof.
  intros Hd. unfold keepPermission. cbn [filterPermType fromDate toDate].
  change (opt_str (Some d)) with d.
  rewrite Hd. unfold date_lt.
  destruct (newDate Date_parse (p_date p)), (truthy (Some d)); reflexivity.
Qed.

Lemma keepPermission_invalid_to d fd pt fi fg p :
  newDate Date_parse d = None ->
  keepPermission Date_parse (mkFilters fd (Some d) pt fi fg) p
  = keepPermission Date_parse (mkFilters fd None pt fi fg) p.
Proof.
  intros Hd. unfold keepPermission. cbn [filterPermType fromDate toDate].
  change (opt_str (Some d)) with d.
  rewrite Hd. unfold date_gt.
  destruct (newDate Date_parse (p_date p)), (truthy (Some d)); reflexivity.
Qed.

Lemma computeBalances_ext f f' st :
  (forall p, keepPermission Date_parse f p = keepPermission Date_parse f' p) ->
  filterItemId f = filterItemId f' -> filterGroup f = filterGroup f' ->
  computeBalances Date_parse f st = computeBalances Date_parse f' st.
Proof.
  intros Hk Hi Hg. unfold computeBalances, scanBalances, selected.
  rewrite Hi, Hg.
  by rewrite (List.filter_ext _ _ Hk).
Qed.

(** C6.  A bound that is a non-empty string with no valid date behind it
    makes its comparison false for every permission: the bound excludes
    nothing, and [computeBalances] returns what it returns with the bound
    absent.  The function is total, so nothing is raised. *)
Theorem malformed_bound_excludes_nothing d :
  d <> ""%string -> Date_parse d = None ->
  (forall p, date_lt (newDate Date_parse (p_date p)) (newDate Date_parse d) = false
             /\ date_gt (newDate Date_parse (p_date p)) (newDate Date_parse d) = false)
  /\ (forall td pt fi fg st,
        computeBalances Date_parse (mkFilters (Some d) td pt fi fg) st
        = computeBalances Date_parse (mkFilters None td pt fi fg) st)
  /\ (forall fd pt fi fg st,
        computeBalances Date_parse (mkFilters fd (Some d) pt fi fg) st
        = computeBalances Date_parse (mkFilters fd None pt fi fg) st).
Proof.
  intros Hne Hd.
  assert (Hnew : newDate Date_parse d = None).
  { unfold newDate. by destruct (String.eqb d ""). }
  split; [|split].
  - intros p. rewrite Hnew. unfold date_lt, date_gt.
    by destruct (newDate Date_parse (p_date p)).
  - intros. apply computeBalances_ext; [|done|done].
    intros p. by apply keepPermission_invalid_from.
  - intros. apply computeBalances_ext; [|done|done].
    intros p. by apply keepPermission_invalid_to.
Qed.

End Filters.

Lemma removeItem_keeps_history_witness :
  isItemId "it_a" (items (removeItem "it_a" Demo.store0)) = false
  /\ computeBalances IsoDate.parse noFilters (removeItem "it_a" Demo.store0)
       !! "it_a"%string = Some 7.
Proof.
  destruct (removeItem_keeps_history IsoDate.parse Demo.store0 "it_a")
    as (Habsent & Hsum & _).
  - reflexivity.
  - split; [exact Habsent | exact Hsum].
Defined.

Lemma filterItemId_takes_precedence_witness :
  computeBalances IsoDate.parse
    (mkFilters None None None (Some "it_a"%string) (Some "عدة"%string)) Demo.store0
  = computeBalances IsoDate.parse
      (mkFilters None None None (Some "it_a"%string) None) Demo.store0.
Proof.
  apply (filterItemId_takes_precedence IsoDate.parse None None None "it_a"
           (Some "عدة"%string) Demo.store0).
  discriminate.
Defined.

Lemma malformed_bound_excludes_nothing_witness :
  computeBalances IsoDate.parse
    (mkFilters (Some "n/a"%string) None None None None) Demo.store0
  = computeBalances IsoDate.parse (mkFilters None None None None None) Demo.store0.
Proof.
  destruct (malformed_bound_excludes_nothing IsoDate.parse "n/a") as (_ & H & _).
  - discriminate.
  - reflexivity.
  - apply H.
Defined.

Example bounds_on_the_scenario :
  computeBalances IsoDate.parse
    (mkFilters (Some "2024-01-01"%string) (Some "2024-01-05"%string) None None None)
    Demo.store0 !! "it_a"%string = Some 7
  /\ computeBalances IsoDate.parse
       (mkFilters (Some "2024-01-02"%string) (Some "2024-01-05"%string) None None None)
       Demo.store0 !! "it_a"%string = Some (-3)
  /\ computeBalances IsoDate.parse
       (mkFilters (Some "2024-01-01"%string) (Some "2024-01-04"%string) None None None)
       Demo.store0 !! "it_a"%string = Some 10.
Proof. vm_compute. repeat split. Qed.


(** ** [JSON.parse] reads back what [JSON.stringify] writes *)

Lemma delimited_cases rest :
  delimited rest = true ->
  rest = [] \/ exists c r, rest = c :: r
     /\ (c = ","%char \/ c = "]"%char \/ c = "}"%char \/ c = " "%char
         \/ c = "009"%char \/ c = "010"%char \/ c = "013"%char).
Proof.
  destruct rest as [|c r]; [by left|]. simpl. unfold is_ws.
  rewrite !orb_true_iff, !Ascii.eqb_eq. intros H. right. exists c, r.
  split; [done|]. tauto.
Qed.

Lemma delimited_no_digit c r : delimited (c :: r) = true -> digit_of c = None.
Proof.
  intros [?|(c' & r' & [= <- <-] & H)]%delimited_cases; [done|].
  by destruct H as [->|[->|[->|[->|[->|[->| ->]]]]]].
Qed.

Lemma delimited_int_end rest : delimited rest = true -> int_end rest = true.
Proof.
  intros [->|(c' & r' & -> & H)]%delimited_cases; [done|].
  by destruct H as [->|[->|[->|[->|[->|[->| ->]]]]]].
Qed.

Lemma parse_uint_chars u rest :
  delimited rest = true -> parse_uint (uint_chars u ++ rest) = (u, rest).
Proof.
  intros Hrest. induction u; simpl; rewrite ?IHu; try done.
  destruct rest as [|c r]; [done|]. simpl.
  by rewrite (delimited_no_digit c r).
Qed.

Lemma to_uint_unorm p : Decimal.unorm (Pos.to_uint p) = Pos.to_uint p.
Proof.
  rewrite <- (DecimalPos.Unsigned.to_of (Pos.to_uint p)).
  by rewrite DecimalPos.Unsigned.of_to.
Qed.

Lemma uint_beq_refl u : Decimal.uint_beq u u = true.
Proof. induction u; simpl; done. Qed.

Lemma uint_chars_head u :
  u <> Decimal.Nil ->
  exists c r, uint_chars u = c :: r /\ is_Some (digit_of c).
Proof. destruct u; intros H; try done; simpl; eauto. Qed.

Lemma parse_number_chars z rest :
  delimited rest = true -> parse_number (num_chars z ++ rest) = Some (z, rest).
Proof.
  intros Hrest. unfold parse_number, num_chars.
  assert (Hnorm : match Z.to_int z with
                  | Decimal.Pos u | Decimal.Neg u =>
                      Decimal.unorm u = u /\ u <> Decimal.Nil
                  end).
  { destruct z; simpl; [done | |]; split;
      auto using to_uint_unorm, DecimalPos.Unsigned.to_uint_nonnil. }
  pose proof (DecimalZ.of_to z) as Hz.
  destruct (Z.to_int z) as [u|u]; destruct Hnorm as [Hn Hnil].
  - destruct (uint_chars_head u Hnil) as (c & r & Hu & [d Hd]).
    rewrite Hu. simpl app. cbv beta iota.
    assert (Ascii.eqb c "-" = false) as ->.
    { destruct (Ascii.eqb_spec c "-") as [->|]; done. }
    change (c :: r ++ rest) with ((c :: r) ++ rest). rewrite <- Hu.
    rewrite parse_uint_chars, Hn, uint_beq_refl, delimited_int_end by done.
    cbn [andb]. by rewrite Hz.
  - simpl app. cbv beta iota. change (Ascii.eqb "-" "-") with true. cbv iota.
    rewrite parse_uint_chars, Hn, uint_beq_refl, delimited_int_end by done.
    cbn [andb]. by rewrite Hz.
Qed.

Lemma parse_string_escape c r :
  parse_string (escape c ++ r) = prepend [c] (parse_string r).
Proof.
  destruct c as [b0 b1 b2 b3 b4 b5 b6 b7].
  destruct b0, b1, b2, b3, b4, b5, b6, b7; reflexivity.
Qed.

Lemma parse_string_quoted l rest :
  parse_string (flat_map escape l ++ "034"%char :: rest) = Some (l, rest).
Proof.
  induction l as [|c l IH]; [done|].
  simpl flat_map. rewrite <- app_assoc, parse_string_escape, IH. done.
Qed.

Lemma skip_ws_brk gap ind cs : skip_ws (brk gap ind ++ cs) = skip_ws cs.
Proof.
  unfold brk. destruct (Nat.eqb gap 0); [done|]. simpl.
  induction ind as [|n IH]; simpl; done.
Qed.

Lemma skip_ws_id c r : is_ws c = false -> skip_ws (c :: r) = c :: r.
Proof. intros H. simpl. by rewrite H. Qed.

Lemma digit_of_Some c d :
  digit_of c = Some d ->
  c = "0"%char \/ c = "1"%char \/ c = "2"%char \/ c = "3"%char \/ c = "4"%char
  \/ c = "5"%char \/ c = "6"%char \/ c = "7"%char \/ c = "8"%char \/ c = "9"%char.
Proof.
  unfold digit_of.
  repeat match goal with
         | |- context [Ascii.eqb c ?x] =>
             destruct (Ascii.eqb_spec c x) as [->|]; [tauto|]
         end.
  done.
Qed.

Lemma num_chars_head z :
  exists c r, num_chars z = c :: r /\ starts_number c = true.
Proof.
  unfold num_chars.
  assert (Hnil : match Z.to_int z with
                 | Decimal.Pos u => u <> Decimal.Nil
                 | Decimal.Neg u => True
                 end).
  { destruct z; simpl; auto using DecimalPos.Unsigned.to_uint_nonnil. }
  destruct (Z.to_int z) as [u|u].
  - destruct (uint_chars_head u Hnil) as (c & r & -> & [d Hd]).
    exists c, r. split; [done|]. unfold starts_number. rewrite Hd. apply orb_true_r.
  - by eexists _, _.
Qed.

Lemma print_head gap ind v :
  exists c r, print gap ind v = c :: r /\ value_start c = true.
Proof.
  destruct v as [|[]|z|s|[|v vs]|[|kv fs]]; try (by eexists _, _).
  destruct (num_chars_head z) as (c & r & H & Hc).
  exists c, r. split; [done|]. unfold value_start. by rewrite Hc.
Qed.

Lemma value_start_cases c :
  value_start c = true -> is_ws c = false /\ Ascii.eqb c "]" = false.
Proof.
  unfold value_start, starts_number. rewrite !orb_true_iff, !Ascii.eqb_eq.
  intros [[[[[[[-> | H] | ->] | ->] | ->] | ->] | ->] | ->]; try done.
  destruct (digit_of c) as [d|] eqn:E; [|done].
  by destruct (digit_of_Some c d E) as [->|[->|[->|[->|[->|[->|[->|[->|[->| ->]]]]]]]]].
Qed.

Lemma skip_ws_print gap ind v rest :
  skip_ws (print gap ind v ++ rest) = print gap ind v ++ rest.
Proof.
  destruct (print_head gap ind v) as (c & r & -> & [H _]%value_start_cases).
  by apply skip_ws_id.
Qed.

Lemma delimited_close gap ind c rest :
  c = "]"%char \/ c = "}"%char -> delimited (brk gap ind ++ c :: rest) = true.
Proof. unfold brk. destruct (Nat.eqb gap 0); intros [-> | ->]; done. Qed.

Lemma skip_ws_close gap ind c rest :
  c = "]"%char \/ c = "}"%char -> skip_ws (brk gap ind ++ c :: rest) = c :: rest.
Proof. intros [-> | ->]; by rewrite skip_ws_brk. Qed.

Lemma elements_read_back vs :
  Forall reads_back vs -> vs <> [] ->
  forall gap ind ind0 fuel cs rest,
    (wsum weight vs <= fuel)%nat ->
    skip_ws cs = join (","%char :: brk gap ind) (print gap ind) vs
                 ++ brk gap ind0 ++ "]"%char :: rest ->
    parse_elements fuel cs = Some (vs, rest).
Proof.
  induction 1 as [|v vs Hv Hvs IH]; [done|]. intros _ gap ind ind0 fuel cs rest Hfuel Hcs.
  destruct fuel as [|n]; [simpl in Hfuel; lia|]. simpl in Hfuel.
  simpl parse_elements. simpl join in Hcs. rewrite <- app_assoc in Hcs.
  destruct vs as [|v' vs'].
  - simpl app in Hcs.
    pose proof (fun H => Hv gap ind n cs _ ltac:(lia) H Hcs) as ->;
      [|apply delimited_close; by left].
    by rewrite skip_ws_close by (by left).
  - pose proof (fun H => Hv gap ind n cs _ ltac:(lia) H Hcs) as ->; [|reflexivity].
    simpl app. simpl skip_ws. cbv iota.
    change (Ascii.eqb "," ",") with true. cbv iota.
    rewrite (IH ltac:(done) gap ind ind0 n _ rest); [done | simpl in *; lia |].
    rewrite <- app_assoc, skip_ws_brk. simpl join. rewrite <- app_assoc.
    apply skip_ws_print.
Qed.

Lemma join_cons {A} sep (pr : A -> list ascii) x xs :
  join sep pr (x :: xs)
  = pr x ++ match xs with [] => [] | _ :: _ => sep ++ join sep pr xs end.
Proof. reflexivity. Qed.

Lemma quote_app s rest :
  quote s ++ rest = "034"%char :: flat_map escape (chars s) ++ "034"%char :: rest.
Proof. unfold quote. simpl. by rewrite <- app_assoc. Qed.

Lemma colon_value gap ind v rest :
  exists r2, colon gap ++ print gap ind v ++ rest = ":"%char :: r2
             /\ skip_ws r2 = print gap ind v ++ rest.
Proof.
  unfold colon. destruct (Nat.eqb gap 0); eexists; (split; [reflexivity|]).
  - apply skip_ws_print.
  - simpl. apply skip_ws_print.
Qed.

Lemma members_read_back fs :
  Forall (fun kv => reads_back (snd kv)) fs -> fs <> [] ->
  forall gap ind ind0 fuel cs rest,
    (wsum (fun kv => weight (snd kv)) fs <= fuel)%nat ->
    skip_ws cs
    = join (","%char :: brk gap ind)
        (fun kv => quote (fst kv) ++ colon gap ++ print gap ind (snd kv)) fs
      ++ brk gap ind0 ++ "}"%char :: rest ->
    parse_members fuel cs = Some (fs, rest).
Proof.
  induction 1 as [|[k v] fs Hv Hfs IH]; [done|].
  intros _ gap ind ind0 fuel cs rest Hfuel Hcs.
  destruct fuel as [|n]; [simpl in Hfuel; lia|]. simpl in Hfuel.
  simpl parse_members. rewrite join_cons in Hcs. cbn [fst snd] in Hcs.
  rewrite <- !app_assoc, quote_app in Hcs. rewrite Hcs.
  change (Ascii.eqb "034" "034") with true. cbv iota.
  rewrite parse_string_quoted.
  match goal with
  | |- context [colon gap ++ print gap ind v ++ ?t] =>
      destruct (colon_value gap ind v t) as (r2 & -> & Hr2)
  end.
  simpl skip_ws. cbv iota. change (Ascii.eqb ":" ":") with true. cbv iota.
  unfold chars. rewrite String.string_of_list_ascii_of_string.
  destruct fs as [|kv' fs'].
  - cbn [app] in Hr2.
    pose proof (fun H => Hv gap ind n r2 _ ltac:(simpl; lia) H Hr2) as ->;
      [|apply delimited_close; by right].
    by rewrite skip_ws_close by (by right).
  - pose proof (fun H => Hv gap ind n r2 _ ltac:(simpl; lia) H Hr2) as ->;
      [|reflexivity].
    cbn [app]. rewrite skip_ws_id by reflexivity.
    change (Ascii.eqb "," ",") with true. cbv iota.
    rewrite (IH ltac:(done) gap ind ind0 n _ rest); [done | simpl in *; lia |].
    rewrite <- app_assoc, skip_ws_brk. rewrite join_cons. cbn [fst snd].
    rewrite <- !app_assoc, quote_app. by apply skip_ws_id.
Qed.

(** Every value is read back from its print, whatever follows it. *)
Lemma print_reads_back v : reads_back v.
Proof.
  induction v as [| b | z | s | vs IH | fs IH] using json_ind;
    intros gap ind fuel cs rest Hfuel Hrest Hcs;
    (destruct fuel as [|n]; [simpl in Hfuel; lia|]); simpl parse_value; rewrite Hcs.
  - reflexivity.
  - destruct b; reflexivity.
  - simpl print. destruct (num_chars_head z) as (c & r & Hz & Hc).
    rewrite Hz. simpl app. cbv iota. rewrite Hc.
    change (c :: r ++ rest) with ((c :: r) ++ rest). rewrite <- Hz.
    by rewrite parse_number_chars.
  - simpl print. rewrite quote_app. change (starts_number "034") with false. cbv iota.
    change (Ascii.eqb "034" "{") with false. change (Ascii.eqb "034" "[") with false.
    change (Ascii.eqb "034" "034") with true. cbv iota.
    rewrite parse_string_quoted. unfold chars.
    by rewrite String.string_of_list_ascii_of_string.
  - destruct vs as [|v vs]; [reflexivity|].
    change (print gap ind (JArr (v :: vs)))
      with ("["%char :: brk gap (ind + gap)
            ++ join (","%char :: brk gap (ind + gap)) (print gap (ind + gap)) (v :: vs)
            ++ brk gap ind ++ ["]"%char]).
    rewrite <- app_comm_cons. cbv beta iota.
    change (starts_number "[") with false. cbv iota.
    change (Ascii.eqb "[" "{") with false. change (Ascii.eqb "[" "[") with true.
    cbv iota. rewrite <- !app_assoc, skip_ws_brk.
    rewrite (elements_read_back (v :: vs) IH ltac:(done) gap (ind + gap) ind n _ rest);
      [ | simpl in Hfuel |- *; lia
        | rewrite skip_ws_brk, join_cons, <- ?app_assoc; apply skip_ws_print ].
    rewrite join_cons, <- ?app_assoc, skip_ws_print.
    destruct (print_head gap (ind + gap) v) as (c & r & -> & [_ Hc]%value_start_cases).
    cbn [app]. by rewrite Hc.
  - destruct fs as [|[k v] fs]; [reflexivity|].
    change (print gap ind (JObj ((k, v) :: fs)))
      with ("{"%char :: brk gap (ind + gap)
            ++ join (","%char :: brk gap (ind + gap))
                 (fun kv => quote (fst kv) ++ colon gap ++ print gap (ind + gap) (snd kv))
                 ((k, v) :: fs)
            ++ brk gap ind ++ ["}"%char]).
    rewrite <- app_comm_cons. cbv beta iota.
    change (starts_number "{") with false. cbv iota.
    change (Ascii.eqb "{" "{") with true. cbv iota.
    rewrite <- !app_assoc, skip_ws_brk.
    rewrite (members_read_back ((k, v) :: fs) IH ltac:(done) gap (ind + gap) ind n _ rest);
      [ | simpl in Hfuel |- *; lia
        | rewrite skip_ws_brk, join_cons; cbn [fst snd];
          rewrite <- ?app_assoc, !quote_app; by apply skip_ws_id ].
    rewrite join_cons. cbn [fst snd].
    rewrite <- ?app_assoc, quote_app, skip_ws_id by reflexivity.
    reflexivity.
Qed.

Lemma join_weight {A} (w : A -> nat) sep (pr : A -> list ascii) xs :
  Forall (fun x => (w x <= length (pr x))%nat) xs -> (1 <= length sep)%nat ->
  (wsum w xs <= S (length (join sep pr xs)))%nat.
Proof.
  intros Hall Hsep. induction Hall as [|x xs Hx Hxs IH]; [simpl; lia|].
  rewrite join_cons, length_app. cbn [wsum].
  destruct xs as [|y ys]; [simpl; lia|].
  rewrite length_app. lia.
Qed.

Lemma weight_le_length v gap ind : (weight v <= length (print gap ind v))%nat.
Proof.
  revert ind. induction v as [| b | z | s | vs IH | fs IH] using json_ind; intros ind.
  - simpl. lia.
  - destruct b; simpl; lia.
  - simpl. destruct (num_chars_head z) as (c & r & -> & _). simpl. lia.
  - simpl. unfold quote. simpl. lia.
  - destruct vs as [|v vs]; [simpl; lia|].
    change (print gap ind (JArr (v :: vs)))
      with ("["%char :: brk gap (ind + gap)
            ++ join (","%char :: brk gap (ind + gap)) (print gap (ind + gap)) (v :: vs)
            ++ brk gap ind ++ ["]"%char]).
    cbn [weight length]. rewrite !length_app.
    pose proof (join_weight weight (","%char :: brk gap (ind + gap))
                  (print gap (ind + gap)) (v :: vs)) as H.
    cbn [length] in *. 
    assert (Hall : Forall (fun x => (weight x <= length (print gap (ind + gap) x))%nat)
                     (v :: vs)).
    { eapply Forall_impl; [exact IH|]. intros x Hx. apply Hx. }
    specialize (H Hall ltac:(lia)). lia.
  - destruct fs as [|[k v] fs]; [simpl; lia|].
    change (print gap ind (JObj ((k, v) :: fs)))
      with ("{"%char :: brk gap (ind + gap)
            ++ join (","%char :: brk gap (ind + gap))
                 (fun kv => quote (fst kv) ++ colon gap ++ print gap (ind + gap) (snd kv))
                 ((k, v) :: fs)
            ++ brk gap ind ++ ["}"%char]).
    cbn [weight length]. rewrite !length_app.
    pose proof (join_weight (fun kv : string * json => weight (snd kv))
                  (","%char :: brk gap (ind + gap))
                  (fun kv => quote (fst kv) ++ colon gap ++ print gap (ind + gap) (snd kv))
                  ((k, v) :: fs)) as H.
    cbn [length] in *.
    assert (Hall : Forall (fun kv : string * json =>
                      (weight (snd kv)
                       <= length (quote (fst kv) ++ colon gap
                                  ++ print gap (ind + gap) (snd kv)))%nat)
                     ((k, v) :: fs)).
    { eapply Forall_impl; [exact IH|]. intros x Hx. cbv beta in Hx.
      rewrite !length_app. specialize (Hx (ind + gap)%nat). lia. }
    specialize (H Hall ltac:(lia)). lia.
Qed.

(** [JSON.parse] inverts [JSON.stringify], with or without indentation. *)
Lemma parse_stringify gap v : parse (stringify gap v) = Some v.
Proof.
  unfold parse, stringify, chars.
  rewrite String.list_ascii_of_string_of_list_ascii.
  rewrite (print_reads_back v gap 0%nat _ _ []); [done | | done |].
  - pose proof (weight_le_length v gap 0%nat). lia.
  - rewrite <- (app_nil_r (print gap 0%nat v)) at 1. apply skip_ws_print.
Qed.

(** ** Backup *)

Lemma mapM_read {A : Type} (write : A -> json) (read : json -> option A) xs :
  (forall x, read (write x) = Some x) -> mapM read (map write xs) = Some xs.
Proof.
  intros H. induction xs as [|x xs IH]; [done|].
  simpl. rewrite H. simpl. by rewrite IH.
Qed.

Lemma readItem_itemJS i : readItem (itemJS i) = Some i.
Proof. by destruct i. Qed.

Lemma readWarehouse_warehouseJS w : readWarehouse (warehouseJS w) = Some w.
Proof. by destruct w. Qed.

Lemma readLine_lineJS l : readLine (lineJS l) = Some l.
Proof.
  destruct l as [i u [q|] d]; unfold readLine, lineJS; simpl;
    destruct (String.eqb_spec d "") as [->|Hd]; done.
Qed.

Lemma readPermission_permissionJS p : readPermission (permissionJS p) = Some p.
Proof.
  destruct p. unfold readPermission, permissionJS, readList. simpl.
  by rewrite (mapM_read lineJS readLine _ readLine_lineJS).
Qed.

Lemma readStore_storeJS st : readStore (storeJS st) = Some st.
Proof.
  destruct st as [its whs perms]. unfold readStore, storeJS, readList. simpl.
  rewrite (mapM_read itemJS readItem _ readItem_itemJS). simpl.
  rewrite (mapM_read warehouseJS readWarehouse _ readWarehouse_warehouseJS). simpl.
  by rewrite (mapM_read permissionJS readPermission _ readPermission_permissionJS).
Qed.

Lemma storeJS_containers st :
  toBoolean (prop "items" (storeJS st)) = true
  /\ toBoolean (prop "warehouses" (storeJS st)) = true
  /\ toBoolean (prop "permissions" (storeJS st)) = true.
Proof. done. Qed.

(** ** CSV lines *)

Lemma parseCSV_open rest res cur :
  parseCSV_from ("034"%char :: rest) res cur false
  = parseCSV_from rest res cur true.
Proof. simpl. by destruct rest. Qed.

Lemma parseCSV_comma rest res cur :
  parseCSV_from (","%char :: rest) res cur false
  = parseCSV_from rest (res ++ [String.string_of_list_ascii cur]) [] false.
Proof. reflexivity. Qed.

Lemma parseCSV_quoted_run l rest res cur :
  match rest with [] => True | c :: _ => Ascii.eqb c "034" = false end ->
  parseCSV_from (csvEscape l ++ "034"%char :: rest) res cur true
  = parseCSV_from rest res (cur ++ l) false.
Proof.
  intros Hrest. revert cur. induction l as [|c l IH]; intros cur.
  - rewrite app_nil_r. simpl. destruct rest as [|n rest']; [done|].
    by rewrite Hrest.
  - simpl csvEscape. destruct (Ascii.eqb_spec c "034") as [->|Hc].
    + simpl. rewrite IH. by rewrite <- app_assoc.
    + apply Ascii.eqb_neq in Hc. simpl. rewrite Hc, andb_false_r.
      rewrite IH. by rewrite <- app_assoc.
Qed.

Lemma parseCSV_quoted v rest res :
  match rest with [] => True | c :: _ => Ascii.eqb c "034" = false end ->
  parseCSV_from (csvQuote v ++ rest) res [] false
  = parseCSV_from rest res (chars v) false.
Proof.
  intros Hrest. unfold csvQuote.
  rewrite <- app_comm_cons, <- app_assoc, parseCSV_open.
  change (["034"%char] ++ rest) with ("034"%char :: rest).
  by rewrite parseCSV_quoted_run.
Qed.

Lemma parseCSV_fields v vs res :
  parseCSV_from (join [","%char] csvQuote (v :: vs)) res [] false
  = res ++ v :: vs.
Proof.
  revert v res. induction vs as [|v' vs IH]; intros v res.
  - rewrite join_cons. rewrite parseCSV_quoted by done. simpl.
    unfold chars. by rewrite String.string_of_list_ascii_of_string.
  - rewrite join_cons, parseCSV_quoted by done.
    cbn [app]. rewrite parseCSV_comma, IH. unfold chars.
    by rewrite String.string_of_list_ascii_of_string, <- app_assoc.
Qed.

(** X1.  [parseCSVLine] reads back a row written with the quoting of the
    CSV exports: for a non-empty list of values, whatever commas and quotes
    they hold, the parsed fields are the values. *)
Theorem parseCSVLine_reads_exported_row values :
  values <> [] -> parseCSVLine (csvRow values) = values.
Proof.
  intros Hne. destruct values as [|v vs]; [done|].
  unfold parseCSVLine, csvRow, chars.
  rewrite String.list_ascii_of_string_of_list_ascii.
  apply (parseCSV_fields v vs []).
Qed.

Lemma parseCSV_plain cs res cur :
  hasQuote cs = false ->
  exists fs,
    parseCSV_from cs res cur false = res ++ fs
    /\ join [","%char] chars fs = cur ++ cs
    /\ length fs = S (commas cs).
Proof.
  revert res cur. induction cs as [|c cs IH]; intros res cur Hq.
  - exists [String.string_of_list_ascii cur]. simpl.
    unfold chars. by rewrite String.list_ascii_of_string_of_list_ascii, !app_nil_r.
  - simpl in Hq. apply orb_false_elim in Hq as [Hc Hq].
    simpl parseCSV_from. rewrite Hc, andb_true_r.
    unfold commas. simpl List.filter.
    destruct (Ascii.eqb_spec c ",") as [->|Hne].
    + destruct (IH (res ++ [String.string_of_list_ascii cur]) [] Hq)
        as (fs & -> & Hj & Hl).
      exists (String.string_of_list_ascii cur :: fs).
      rewrite <- app_assoc. split; [done|]. split.
      * rewrite join_cons. destruct fs as [|f fs]; [done|].
        rewrite Hj. unfold chars.
        by rewrite String.list_ascii_of_string_of_list_ascii.
      * simpl. by rewrite Hl.
    + destruct (IH res (cur ++ [c]) Hq) as (fs & -> & Hj & Hl).
      exists fs. split; [done|]. split; [|done].
      by rewrite Hj, <- app_assoc.
Qed.

(** X2.  On a line without quotes [parseCSVLine] splits at the commas and
    nowhere else: it returns one field more than there are commas, and the
    fields joined by commas are the line. *)
Theorem parseCSVLine_splits_at_commas line :
  hasQuote (chars line) = false ->
  length (parseCSVLine line) = S (commas (chars line))
  /\ join [","%char] chars (parseCSVLine line) = chars line.
Proof.
  intros Hq. unfold parseCSVLine.
  destruct (parseCSV_plain (chars line) [] [] Hq) as (fs & -> & Hj & Hl).
  by split.
Qed.

Lemma parseCSVLine_reads_exported_row_witness :
  parseCSVLine (csvRow ["a,b"; "x"; ""]%string) = ["a,b"; "x"; ""]%string.
Proof. apply parseCSVLine_reads_exported_row. discriminate. Defined.

Lemma parseCSVLine_splits_at_commas_witness :
  length (parseCSVLine "name,unit,,initial_qty") = 4%nat.
Proof.
  destruct (parseCSVLine_splits_at_commas "name,unit,,initial_qty") as [H _];
    [reflexivity | exact H].
Defined.

Example parseCSVLine_samples :
  parseCSVLine "" = [""%string]
  /\ parseCSVLine "a,,b" = ["a"; ""; "b"]%string
  /\ parseCSVLine (csvRow ["1"; "2"]%string) = ["1"; "2"]%string.
Proof. vm_compute. repeat split. Qed.

(** ** Entity operations and the balances *)

Lemma filter_swap {A} (f g : A -> bool) l :
  List.filter f (List.filter g l) = List.filter g (List.filter f l).
Proof.
  induction l as [|x l IH]; simpl; [done|].
  destruct (f x) eqn:Ef, (g x) eqn:Eg; simpl; rewrite ?Ef, ?Eg, IH; done.
Qed.

Lemma selected_delete Date_parse f id st :
  selected Date_parse f (deletePermission id st)
  = List.filter (fun p => negb (hasId id p)) (selected Date_parse f st).
Proof.
  unfold selected, deletePermission, hasId. simpl.
  rewrite (filter_swap p_posted), (filter_swap (keepPermission Date_parse f)).
  done.
Qed.

Lemma applySign_signed ty b q : applySign ty b q = b + signOf ty * q.
Proof.
  unfold applySign, signOf.
  destruct (String.eqb ty T_ADD || String.eqb ty T_RETURN); [lia|].
  destruct (String.eqb ty T_TRANSFER || String.eqb ty T_DEDUCT
            || String.eqb ty T_DISBURSE); lia.
Qed.

Lemma postedOn_cons k ty l ls b :
  postedOn k ty (l :: ls) b
  = postedOn k ty ls
      (if String.eqb (l_itemId l) k then applySign ty b (num_or0 (l_qty l)) else b).
Proof. reflexivity. Qed.

Lemma postedOn_absent k ty ls b :
  existsb (fun l => String.eqb (l_itemId l) k) ls = false -> postedOn k ty ls b = b.
Proof.
  unfold postedOn. revert b. induction ls as [|l ls IH]; intros b; simpl; [done|].
  intros [-> H]%orb_false_elim. by apply IH.
Qed.

Lemma postLines_lookup ty ls (m : gmap string Z) k :
  fold_left (postLine ty) ls m !! k
  = if existsb (fun l => String.eqb (l_itemId l) k) ls
    then Some (postedOn k ty ls (default 0 (m !! k)))
    else m !! k.
Proof.
  revert m. induction ls as [|l ls IH]; intros m; [done|].
  cbn [fold_left existsb]. rewrite IH, postLine_lookup, postedOn_cons.
  destruct (String.eqb_spec (l_itemId l) k) as [E|E]; case_decide; try done; simpl.
  unfold signedQty. rewrite <- applySign_signed.
  destruct (existsb _ ls) eqn:Els; [done|].
  by rewrite (postedOn_absent k ty ls _ Els).
Qed.

Lemma postPermission_lookup (m : gmap string Z) p k :
  postPermission m p !! k
  = if hasItem k p
    then Some (postedOn k (p_type p) (p_lines p) (default 0 (m !! k)))
    else m !! k.
Proof. apply postLines_lookup. Qed.

Lemma permSum_without k id ps :
  Forall (fun p => hasId id p = true -> hasItem k p = false) ps ->
  permSum k (List.filter (fun p => negb (hasId id p)) ps) = permSum k ps
  /\ mentions k (List.filter (fun p => negb (hasId id p)) ps) = mentions k ps.
Proof.
  induction 1 as [|p ps Hp _ [IH1 IH2]]; simpl; [done|].
  destruct (hasId id p); simpl.
  - rewrite IH1, IH2, (lineSum_absent k p), (Hp eq_refl) by by apply Hp.
    split; [lia | done].
  - by rewrite IH1, IH2.
Qed.

Lemma filter_hasItem_without k id ps :
  Forall (fun p => hasId id p = true -> hasItem k p = false) ps ->
  List.filter (hasItem k) (List.filter (fun p => negb (hasId id p)) ps)
  = List.filter (hasItem k) ps.
Proof.
  induction 1 as [|p ps Hp _ IH]; simpl; [done|].
  destruct (hasId id p); simpl.
  - by rewrite (Hp eq_refl).
  - by rewrite IH.
Qed.

(** X3.  Deleting a permission takes its lines out of the books.  After
    [deletePermission id] no permission with the id is left; every value
    read from [computeBalances] (no item or group filter) is the signed sum
    over the surviving posted permissions with another id, and every card
    balance the card sum over the posted permissions with another id.  An
    item that no deleted posted permission names keeps its entry in
    [computeBalances] and its whole card, row for row. *)
Theorem deletePermission_removes_contribution Date_parse f st id k :
  truthy (filterItemId f) = false -> truthy (filterGroup f) = false ->
  Forall (fun p => p_id p <> id) (permissions (deletePermission id st))
  /\ num_or0 (computeBalances Date_parse f (deletePermission id st) !! k)
     = permSum k (List.filter (fun p => negb (hasId id p)) (selected Date_parse f st))
  /\ balance (getItemCard Date_parse k (deletePermission id st))
     = cardSum k (List.filter (fun p => negb (hasId id p))
                    (List.filter p_posted (permissions st)))
  /\ (Forall (fun p => hasId id p = true -> hasItem k p = false)
        (selected Date_parse f st) ->
      computeBalances Date_parse f (deletePermission id st) !! k
      = computeBalances Date_parse f st !! k)
  /\ (Forall (fun p => hasId id p = true -> hasItem k p = false)
        (List.filter p_posted (permissions st)) ->
      getItemCard Date_parse k (deletePermission id st)
      = getItemCard Date_parse k st).
Proof.
  intros Hi Hg. split; [|split; [|split; [|split]]].
  - apply Forall_forall. intros p [_ Hp]%list_elem_of_In%filter_In.
    apply negb_true_iff, String.eqb_neq in Hp. done.
  - by rewrite computeBalances_unfiltered, scanBalances_value, selected_delete.
  - rewrite getItemCard_balance.
    change (permissions (deletePermission id st))
      with (List.filter (fun p => negb (hasId id p)) (permissions st)).
    by rewrite (filter_swap p_posted).
  - intros Hnone. rewrite !computeBalances_unfiltered, !scanBalances_lookup by done.
    rewrite selected_delete.
    destruct (permSum_without k id _ Hnone) as [-> ->]. done.
  - intros Hnone. unfold getItemCard, cardTxs, cardPermissions.
    change (permissions (deletePermission id st))
      with (List.filter (fun p => negb (hasId id p)) (permissions st)).
    by rewrite (filter_swap p_posted), (filter_hasItem_without k id _ Hnone).
Qed.

Lemma filter_all {A} (g : A -> bool) l :
  Forall (fun x => g x = true) l -> List.filter g l = l.
Proof. induction 1 as [|x l Hx _ IH]; simpl; [done|]. by rewrite Hx, IH. Qed.

(** X4.  Deleting undoes adding: when no permission of the store has the id
    of [p], deleting that id after adding [p] gives the store back; and
    deleting the same id twice is deleting it once. *)
Theorem deletePermission_undoes_addPermission p st :
  (Forall (fun q => p_id q <> p_id p) (permissions st) ->
   deletePermission (p_id p) (addPermission p st) = st)
  /\ (forall id,
        deletePermission id (deletePermission id st) = deletePermission id st).
Proof.
  split.
  - intros Hfresh. destruct st as [its whs ps]. unfold deletePermission, addPermission.
    simpl in *. f_equal. rewrite List.filter_app. simpl.
    rewrite String.eqb_refl. simpl. rewrite app_nil_r.
    apply filter_all. eapply Forall_impl; [exact Hfresh|].
    intros q Hq. by apply negb_true_iff, String.eqb_neq.
  - intros id. unfold deletePermission. simpl. f_equal.
    apply filter_all, Forall_forall.
    by intros q [_ Hq]%list_elem_of_In%filter_In.
Qed.

Lemma computeBalances_addPermission Date_parse f st p k :
  truthy (filterItemId f) = false -> truthy (filterGroup f) = false ->
  num_or0 (computeBalances Date_parse f (addPermission p st) !! k)
  = num_or0 (computeBalances Date_parse f st !! k)
    + (if p_posted p && keepPermission Date_parse f p
       then lineSum k (p_type p) (p_lines p) else 0).
Proof.
  intros Hi Hg.
  rewrite !computeBalances_unfiltered, !scanBalances_value, selected_push by done.
  rewrite permSum_app.
  destruct (p_posted p && keepPermission Date_parse f p); simpl; lia.
Qed.

Lemma running_length b txs : length (running b txs) = length txs.
Proof. revert b. induction txs as [|t txs IH]; intros b; simpl; by rewrite ?IH. Qed.

Lemma linesTx_length k p : length (linesTx k p) = length (linesOf k p).
Proof. unfold linesTx, linesOf. by rewrite length_map. Qed.

Lemma flat_map_length_perm {A B} (g : A -> list B) l l' :
  Permutation l l' -> length (flat_map g l) = length (flat_map g l').
Proof.
  induction 1; simpl; rewrite ?length_app in *; lia.
Qed.

Lemma flat_map_hasItem k ps :
  length (flat_map (linesTx k) (List.filter (hasItem k) ps))
  = length (flat_map (linesTx k) ps).
Proof.
  induction ps as [|p ps IH]; simpl; [done|].
  destruct (hasItem k p) eqn:E; simpl; rewrite !length_app, IH; [done|].
  rewrite linesTx_length. unfold linesOf, hasItem in *.
  induction (p_lines p) as [|l ls IHl]; simpl in *; [done|].
  apply orb_false_elim in E as [-> E]. by apply IHl.
Qed.

Lemma getItemCard_row_count Date_parse k st :
  length (rows (getItemCard Date_parse k st))
  = length (flat_map (linesOf k) (List.filter p_posted (permissions st))).
Proof.
  rewrite getItemCard_rows, running_length, cardTxs_eq. unfold cardPermissions.
  rewrite (flat_map_length_perm (linesTx k) _ _
             (array_sort_perm (fun p => newDate Date_parse (effDate p)) _)).
  rewrite flat_map_hasItem.
  induction (List.filter p_posted (permissions st)) as [|p ps IH]; simpl; [done|].
  by rewrite !length_app, linesTx_length, IH.
Qed.

(** X5.  Adding a permission is posting it on top of the books.  Without an
    item or group filter, [computeBalances] after [addPermission p] is what
    it was when [p] is a draft or does not pass the type and date filters;
    otherwise it is the old mapping with [p] posted on it: the entry of an
    item that [p] names is its old balance ([0] when it had none) taken
    through the lines of [p] for it, in their order, each adding or
    subtracting its quantity by the type of [p], and every other entry is
    as before.  The card of an item is unchanged when [p] is a draft or
    does not name the item, and grows by one row per line of [p] for the
    item when [p] is posted. *)
Theorem addPermission_adds_contribution Date_parse f st p k :
  truthy (filterItemId f) = false -> truthy (filterGroup f) = false ->
  let before := computeBalances Date_parse f st in
  let after := computeBalances Date_parse f (addPermission p st) in
  (p_posted p && keepPermission Date_parse f p = false -> after = before)
  /\ (p_posted p && keepPermission Date_parse f p = true ->
      after = postPermission before p
      /\ after !! k
         = if hasItem k p
           then Some (postedOn k (p_type p) (p_lines p) (default 0 (before !! k)))
           else before !! k)
  /\ (p_posted p = false \/ hasItem k p = false ->
      getItemCard Date_parse k (addPermission p st) = getItemCard Date_parse k st)
  /\ (p_posted p = true ->
      length (rows (getItemCard Date_parse k (addPermission p st)))
      = (length (rows (getItemCard Date_parse k st)) + length (linesOf k p))%nat).
Proof.
  intros Hi Hg. cbv zeta.
  rewrite !computeBalances_unfiltered by done. unfold scanBalances.
  rewrite selected_push.
  change (items (addPermission p st)) with (items st).
  split; [|split; [|split]].
  - intros ->. by rewrite app_nil_r.
  - intros ->. rewrite fold_left_app. simpl. split; [done|].
    apply postPermission_lookup.
  - intros Hno. unfold getItemCard, cardTxs, cardPermissions, addPermission.
    cbn [permissions]. rewrite !List.filter_app. cbn [List.filter].
    destruct Hno as [-> | Hno]; [by rewrite app_nil_r|].
    destruct (p_posted p); cbn [List.filter]; rewrite ?Hno; by rewrite app_nil_r.
  - intros Hposted. rewrite !getItemCard_row_count.
    unfold addPermission. cbn [permissions].
    rewrite List.filter_app. cbn [List.filter]. rewrite Hposted.
    rewrite flat_map_app, length_app. simpl. rewrite app_nil_r. done.
Qed.

Lemma updateFirst_none {A} (test : A -> bool) f l :
  Forall (fun x => test x = false) l -> updateFirst test f l = l.
Proof. induction 1 as [|x l Hx _ IH]; simpl; [done|]. by rewrite Hx, IH. Qed.

Lemma updateFirst_length {A} (test : A -> bool) f l :
  length (updateFirst test f l) = length l.
Proof. induction l as [|x l IH]; simpl; [done|]. destruct (test x); simpl; by rewrite ?IH. Qed.

Lemma updateFirst_split {A} (test : A -> bool) f l x :
  List.find test l = Some x ->
  exists l1 l2,
    l = l1 ++ x :: l2 /\ Forall (fun y => test y = false) l1
    /\ updateFirst test f l = l1 ++ f x :: l2.
Proof.
  induction l as [|y l IH]; simpl; [done|].
  destruct (test y) eqn:E.
  - intros [= ->]. by exists [], l.
  - intros (l1 & l2 & -> & Hl1 & ->)%IH. exists (y :: l1), l2.
    split; [done|]. split; [by constructor | done].
Qed.

Lemma find_none_Forall {A} (test : A -> bool) l :
  List.find test l = None <-> Forall (fun x => test x = false) l.
Proof.
  induction l as [|x l IH]; simpl; [by split; [constructor|]|].
  destruct (test x) eqn:E.
  - split; [done|]. intros [H _]%Forall_cons. congruence.
  - rewrite IH. split; [by constructor | by intros [_ H]%Forall_cons].
Qed.

Lemma updateFirst_map {A B} (test : A -> bool) f (g : A -> B) l :
  (forall x, g (f x) = g x) -> map g (updateFirst test f l) = map g l.
Proof.
  intros H. induction l as [|x l IH]; simpl; [done|].
  destruct (test x); simpl; by rewrite ?H, ?IH.
Qed.

Lemma isItemId_ids k its its' :
  map it_id its = map it_id its' -> isItemId k its = isItemId k its'.
Proof.
  revert its'. induction its as [|i its IH]; intros [|i' its']; simpl; try done.
  intros [= Hi Hrest]. by rewrite Hi, (IH its').
Qed.

Lemma initBalances_ids its its' :
  map it_id its = map it_id its' -> initBalances its = initBalances its'.
Proof.
  intros H. apply map_eq. intros k.
  by rewrite !initBalances_lookup, (isItemId_ids k its its').
Qed.

Lemma editItem_ids itemId data st :
  d_id data = None ->
  map it_id (items (editItem itemId data st)) = map it_id (items st).
Proof.
  intros Hid. unfold editItem. simpl. apply updateFirst_map.
  intros i. unfold assignItem. simpl. by rewrite Hid.
Qed.

Lemma computeBalances_editItem Date_parse f itemId data st :
  d_id data = None -> truthy (filterGroup f) = false ->
  computeBalances Date_parse f (editItem itemId data st)
  = computeBalances Date_parse f st.
Proof.
  intros Hid Hg. unfold computeBalances. rewrite Hg.
  unfold scanBalances.
  by rewrite (initBalances_ids _ _ (editItem_ids itemId data st Hid)).
Qed.

(** X6.  [editItem] changes nothing when no item has the id.  When the data
    carries no [id], the item ids stay as they are, in order, and so do the
    books: [computeBalances] without a group filter and every item card
    return what they returned before. *)
Theorem editItem_keeps_the_books Date_parse itemId data st :
  (Forall (fun i => it_id i <> itemId) (items st) -> editItem itemId data st = st)
  /\ (d_id data = None ->
      map it_id (items (editItem itemId data st)) = map it_id (items st)
      /\ (forall f, truthy (filterGroup f) = false ->
            computeBalances Date_parse f (editItem itemId data st)
            = computeBalances Date_parse f st)
      /\ (forall k, getItemCard Date_parse k (editItem itemId data st)
                    = getItemCard Date_parse k st)).
Proof.
  split.
  - intros Hnone. destruct st as [its whs ps]. unfold editItem. simpl in *. f_equal.
    apply updateFirst_none. eapply Forall_impl; [exact Hnone|].
    intros i Hi. by apply String.eqb_neq.
  - intros Hid. split; [by apply editItem_ids|]. split; [|done].
    intros f Hg. by apply computeBalances_editItem.
Qed.

Lemma assigned_default {A} (old : A) (given : option A) :
  assigned old given (default old given).
Proof. by destruct given. Qed.

(** X7.  [updatePermission] returns [null] and leaves the store alone when
    no permission has the id; otherwise it merges the data into the first
    permission with that id, in place, returns the merged record, and
    touches nothing else.  The merged record holds, property by property,
    the value of the data where the data has the property and the old
    value where it has not. *)
Theorem updatePermission_first_match id updated st :
  (Forall (fun p => p_id p <> id) (permissions st) ->
   updatePermission id updated st = (st, None))
  /\ (forall p, List.find (hasId id) (permissions st) = Some p ->
      exists l1 l2 m,
        permissions st = l1 ++ p :: l2
        /\ Forall (fun q => p_id q <> id) l1
        /\ updatePermission id updated st
           = ({| items := items st;
                 warehouses := warehouses st;
                 permissions := l1 ++ m :: l2 |},
              Some m)
        /\ assigned (p_id p) (u_id updated) (p_id m)
        /\ assigned (p_number p) (u_number updated) (p_number m)
        /\ assigned (p_type p) (u_type updated) (p_type m)
        /\ assigned (p_store p) (u_store updated) (p_store m)
        /\ assigned (p_from p) (u_from updated) (p_from m)
        /\ assigned (p_to p) (u_to updated) (p_to m)
        /\ assigned (p_date p) (u_date updated) (p_date m)
        /\ assigned (p_subNumber p) (u_subNumber updated) (p_subNumber m)
        /\ assigned (p_posted p) (u_posted updated) (p_posted m)
        /\ assigned (p_postedAt p) (u_postedAt updated) (p_postedAt m)
        /\ assigned (p_lines p) (u_lines updated) (p_lines m)
        /\ assigned (p_createdAt p) (u_createdAt updated) (p_createdAt m)).
Proof.
  unfold updatePermission. split.
  - intros Hnone.
    assert (List.find (fun p => String.eqb (p_id p) id) (permissions st) = None) as ->; [|done].
    apply find_none_Forall. eapply Forall_impl; [exact Hnone|].
    intros q Hq. by apply String.eqb_neq.
  - intros p Hp. unfold hasId in Hp. rewrite Hp.
    destruct (updateFirst_split _ (fun p => assignPermission p updated) _ _ Hp)
      as (l1 & l2 & Hps & Hl1 & ->).
    exists l1, l2, (assignPermission p updated). split; [done|]. split.
    { eapply Forall_impl; [exact Hl1|]. intros q Hq. by apply String.eqb_neq. }
    split; [done|]. unfold assignPermission. cbn.
    repeat split; apply assigned_default.
Qed.

(** ** More on the two ledger functions *)

Lemma groupOut_lookup (m : gmap string Z) g its k :
  fold_left (fun out it => <[it_id it := bal_or0 m (it_id it)]> out)
    (List.filter (fun it => String.eqb (it_group it) g) its) (∅ : gmap string Z) !! k
  = if inGroup g k its then Some (bal_or0 m k) else None.
Proof.
  assert (G : forall (out : gmap string Z),
    fold_left (fun out it => <[it_id it := bal_or0 m (it_id it)]> out)
      (List.filter (fun it => String.eqb (it_group it) g) its) out !! k
    = if inGroup g k its then Some (bal_or0 m k) else out !! k).
  { induction its as [|it its IH]; intros out; simpl; [done|].
    destruct (String.eqb (it_group it) g) eqn:Eg; simpl.
    - rewrite IH. destruct (inGroup g k its); [by rewrite orb_true_r|].
      rewrite orb_false_r, andb_true_r, lookup_insert.
      destruct (String.eqb_spec (it_id it) k) as [->|]; case_decide; done.
    - rewrite IH, andb_false_r. done. }
  rewrite G. by destruct (inGroup g k its).
Qed.

(** X8.  With [filterGroup] and no [filterItemId], [computeBalances] has an
    entry exactly for the current items of that group, each holding the
    signed sum of the surviving posted lines that name it; an id that only
    permission lines know never shows. *)
Theorem filterGroup_lists_current_items Date_parse f st g k :
  truthy (filterItemId f) = false -> filterGroup f = Some g -> g <> ""%string ->
  computeBalances Date_parse f st !! k
  = if inGroup g k (items st)
    then Some (permSum k (selected Date_parse f st))
    else None.
Proof.
  intros Hi Hg Hne. unfold computeBalances. rewrite Hi, Hg, truthy_Some by done.
  simpl opt_str. rewrite groupOut_lookup. unfold bal_or0.
  by rewrite scanBalances_value.
Qed.

Lemma lineSum_typed k ty p :
  lineSum k ty (p_lines p) = signOf ty * qtySum k p.
Proof.
  unfold lineSum, qtySum, signedQty. induction (p_lines p) as [|l ls IH]; simpl; [lia|].
  rewrite IH. destruct (String.eqb (l_itemId l) k); lia.
Qed.

Lemma selected_type Date_parse f st ty :
  filterPermType f = Some ty -> ty <> ""%string ->
  Forall (fun p => p_type p = ty) (selected Date_parse f st).
Proof.
  intros Hty Hne. apply Forall_forall.
  intros p [_ Hk]%list_elem_of_In%filter_In.
  unfold keepPermission in Hk. rewrite Hty, truthy_Some in Hk by done.
  simpl in Hk. destruct (String.eqb_spec (p_type p) ty); done.
Qed.

(** X9.  With [filterPermType], only permissions of exactly that type
    count: every balance (no item or group filter) is the sign of the type
    times the total quantity of the surviving lines that name the item. *)
Theorem filterPermType_single_sign Date_parse f st ty k :
  filterPermType f = Some ty -> ty <> ""%string ->
  truthy (filterItemId f) = false -> truthy (filterGroup f) = false ->
  num_or0 (computeBalances Date_parse f st !! k)
  = signOf ty * qtyTotal k (selected Date_parse f st).
Proof.
  intros Hty Hne Hi Hg.
  rewrite computeBalances_unfiltered, scanBalances_value by done.
  pose proof (selected_type Date_parse f st ty Hty Hne) as Hall.
  induction Hall as [|p ps Hp _ IH]; simpl; [lia|].
  rewrite IH, Hp, lineSum_typed. lia.
Qed.

Lemma lineTx_fields p l : lineTx p l = txOf p l.
Proof.
  unfold lineTx, txOf, isIn, effDate, str_or. f_equal.
  by destruct (String.eqb_spec (l_desc l) "").
Qed.

(** X10.  The card of an item has one row for every line that names the
    item in a posted permission, and none for anything else.  The rows are
    the lines for the item of the posted permissions that name it, taken
    permission by permission; the row of a line carries the type, the
    number and the date of its permission (the creation time when it has
    no date), the description of the line, and the quantity of the line on
    one side only: under [in] for an addition or a return, under [out]
    otherwise.  The balance column runs from [0] through the rows. *)
Theorem card_has_one_row_per_line Date_parse k st :
  let c := getItemCard Date_parse k st in
  (exists ps,
     Permutation ps
       (List.filter (hasItem k) (List.filter p_posted (permissions st)))
     /\ map row_tx (rows c)
        = flat_map (fun p => map (txOf p) (linesOf k p)) ps)
  /\ length (rows c)
     = length (flat_map (linesOf k) (List.filter p_posted (permissions st)))
  /\ rows c = running 0 (map row_tx (rows c)).
Proof.
  cbv zeta. split; [|split].
  - exists (cardPermissions Date_parse k st). split.
    + apply (array_sort_perm (fun p => newDate Date_parse (effDate p))).
    + rewrite getItemCard_rows, running_txs, cardTxs_eq.
      induction (cardPermissions Date_parse k st) as [|p ps IH]; simpl; [done|].
      rewrite IH. f_equal. unfold linesTx, linesOf.
      apply map_ext. intros l. apply lineTx_fields.
  - apply getItemCard_row_count.
  - by rewrite getItemCard_rows, running_txs.
Qed.

Lemma deletePermission_removes_contribution_witness :
  num_or0 (computeBalances IsoDate.parse noFilters
             (deletePermission "perm_2" Demo.store0) !! "it_a"%string)
  = 10
  /\ computeBalances IsoDate.parse noFilters
       (deletePermission "perm_2" Demo.store0) !! "it_b"%string
     = computeBalances IsoDate.parse noFilters Demo.store0 !! "it_b"%string.
Proof.
  destruct (deletePermission_removes_contribution IsoDate.parse noFilters
              Demo.store0 "perm_2" "it_a") as (_ & H & _); [reflexivity..|].
  destruct (deletePermission_removes_contribution IsoDate.parse noFilters
              Demo.store0 "perm_2" "it_b") as (_ & _ & _ & H' & _); [reflexivity..|].
  split; [exact H|]. apply H'. repeat constructor.
Defined.

Lemma deletePermission_undoes_addPermission_witness :
  deletePermission "perm_3" (addPermission DemoUnknown.Pcount Demo.store0)
  = Demo.store0.
Proof.
  destruct (deletePermission_undoes_addPermission DemoUnknown.Pcount Demo.store0)
    as [H _].
  apply H. repeat constructor; discriminate.
Defined.

Lemma addPermission_adds_contribution_witness :
  computeBalances IsoDate.parse noFilters
    (addPermission Demo.P3 Demo.store0) !! "it_a"%string
  = Some (7 + 2).
Proof.
  destruct (addPermission_adds_contribution IsoDate.parse noFilters
              Demo.store0 Demo.P3 "it_a") as (_ & H & _); [reflexivity..|].
  destruct (H eq_refl) as [_ H']. exact H'.
Defined.

Lemma editItem_keeps_the_books_witness :
  computeBalances IsoDate.parse noFilters
    (editItem "it_a" (mkItemData None (Some "برغي"%string) None None None) Demo.store0)
  = computeBalances IsoDate.parse noFilters Demo.store0.
Proof.
  destruct (editItem_keeps_the_books IsoDate.parse "it_a"
              (mkItemData None (Some "برغي"%string) None None None) Demo.store0)
    as [_ H].
  destruct H as (_ & H & _); [reflexivity|]. by apply H.
Defined.

Lemma updatePermission_first_match_witness :
  exists m,
    updatePermission "perm_2"
      (mkPermissionData None None None None None None None None (Some false)
         None None None) Demo.store0
    = (mkStore [Demo.itemA; Demo.itemB] [Demo.mainStore] [Demo.P1; m], Some m)
    /\ p_posted m = false /\ p_id m = "perm_2"%string
    /\ p_lines m = [Demo.lineA 3].
Proof.
  destruct (updatePermission_first_match "perm_2"
    (mkPermissionData None None None None None None None None (Some false)
       None None None) Demo.store0) as [_ H].
  destruct (H Demo.P2 eq_refl)
    as (l1 & l2 & m & Hps & Hl1 & Hup & Hid & _ & _ & _ & _ & _ & _ & _
        & Hposted & _ & Hlines & _).
  exists m. destruct l1 as [|q [|q' l1]]; [done| |].
  - injection Hps as <- <-. rewrite Hup. split; [reflexivity|].
    split; [exact Hposted|]. split; [exact Hid | exact Hlines].
  - apply (f_equal (@length _)) in Hps. rewrite length_app in Hps.
    simpl in Hps. lia.
Defined.

Lemma filterGroup_lists_current_items_witness :
  computeBalances IsoDate.parse
    (mkFilters None None None None (Some "مكتبي"%string)) Demo.store0 !! "it_b"%string
  = None.
Proof.
  rewrite (filterGroup_lists_current_items IsoDate.parse
             (mkFilters None None None None (Some "مكتبي"%string)) Demo.store0
             "مكتبي" "it_b"); [reflexivity | reflexivity | reflexivity | discriminate].
Defined.

Lemma filterPermType_single_sign_witness :
  num_or0 (computeBalances IsoDate.parse
             (mkFilters None None (Some T_DISBURSE) None None) Demo.store0
             !! "it_a"%string)
  = -1 * 3.
Proof.
  rewrite (filterPermType_single_sign IsoDate.parse
             (mkFilters None None (Some T_DISBURSE) None None) Demo.store0
             T_DISBURSE "it_a"); [reflexivity | reflexivity | discriminate | reflexivity..].
Defined.

(** ** Loading the store *)

Lemma stringify_nonempty gap v : String.eqb (stringify gap v) "" = false.
Proof.
  unfold stringify. destruct (print_head gap 0%nat v) as (c & r & -> & _). done.
Qed.

Lemma loadStore_saved r1 r2 r3 r4 data :
  loadStore r1 r2 r3 r4 (Some (persisted (saveStore data))) = Some (saveStore data).
Proof.
  unfold loadStore, saveStore. simpl.
  by rewrite stringify_nonempty, parse_stringify.
Qed.


(** ** The order of the items *)

Lemma sort_insert_permutation {A} (cmp : A -> A -> option Z) x l :
  Permutation (sort_insert cmp x l) (x :: l).
Proof.
  induction l as [|y l IH]; simpl; [done|].
  destruct (sorts_after cmp x y); [|done].
  rewrite IH. apply perm_swap.
Qed.

Lemma array_sort_permutation {A} (cmp : A -> A -> option Z) l :
  Permutation (array_sort cmp l) l.
Proof.
  induction l as [|x l IH]; simpl; [done|].
  rewrite sort_insert_permutation. by constructor.
Qed.

Lemma isItemId_perm k its its' :
  Permutation its its' -> isItemId k its = isItemId k its'.
Proof.
  unfold isItemId. induction 1; simpl; try congruence.
  destruct (String.eqb (it_id x) k), (String.eqb (it_id y) k); done.
Qed.

Lemma inGroup_perm g k its its' :
  Permutation its its' -> inGroup g k its = inGroup g k its'.
Proof.
  unfold inGroup. induction 1; simpl; try congruence.
  destruct (String.eqb (it_id x) k && String.eqb (it_group x) g),
           (String.eqb (it_id y) k && String.eqb (it_group y) g); done.
Qed.

Lemma hasName_perm n its its' :
  Permutation its its' -> hasName n its = hasName n its'.
Proof.
  unfold hasName. induction 1; simpl; try congruence.
  destruct (String.eqb (it_name x) n), (String.eqb (it_name y) n); done.
Qed.

Lemma computeBalances_perm Date_parse f st st' :
  Permutation (items st) (items st') -> permissions st = permissions st' ->
  computeBalances Date_parse f st = computeBalances Date_parse f st'.
Proof.
  intros Hits Hps.
  assert (Hscan : scanBalances Date_parse f st = scanBalances Date_parse f st').
  { unfold scanBalances, selected. rewrite Hps. f_equal.
    apply map_eq. intros k. by rewrite !initBalances_lookup, (isItemId_perm k _ _ Hits). }
  unfold computeBalances. rewrite Hscan.
  destruct (truthy (filterItemId f)); [done|].
  destruct (truthy (filterGroup f)); [|done].
  apply map_eq. intros k.
  by rewrite !groupOut_lookup, (inGroup_perm _ k _ _ Hits).
Qed.

Lemma getItemCard_permissions Date_parse k st st' :
  permissions st = permissions st' ->
  getItemCard Date_parse k st = getItemCard Date_parse k st'.
Proof.
  intros H. unfold getItemCard, cardTxs, cardPermissions. by rewrite H.
Qed.

Lemma computeBalances_refresh Date_parse localeCompare f st :
  computeBalances Date_parse f (refreshMasterData localeCompare st)
  = computeBalances Date_parse f st.
Proof. apply computeBalances_perm; [apply array_sort_permutation | done]. Qed.

(** X12.  [refreshAllViews] reorders [store.items] (the sort in
    [refreshMasterData] works on the array itself), and nothing else: the
    items are the same, the warehouses and permissions are untouched, and
    [computeBalances], under any filters, and every item card return what
    they returned before. *)
Theorem refreshMasterData_keeps_the_books Date_parse localeCompare st :
  Permutation (items (refreshMasterData localeCompare st)) (items st)
  /\ warehouses (refreshMasterData localeCompare st) = warehouses st
  /\ permissions (refreshMasterData localeCompare st) = permissions st
  /\ (forall f, computeBalances Date_parse f (refreshMasterData localeCompare st)
                = computeBalances Date_parse f st)
  /\ (forall k, getItemCard Date_parse k (refreshMasterData localeCompare st)
                = getItemCard Date_parse k st).
Proof.
  assert (Hp : Permutation (items (refreshMasterData localeCompare st)) (items st))
    by apply array_sort_permutation.
  split; [done|]. split; [done|]. split; [done|]. split.
  - intros f. apply computeBalances_refresh.
  - intros k. by apply getItemCard_permissions.
Qed.

(** ** The rows of the entry form *)

Lemma buildRows_length st ls n : length (buildRows st ls n) = n.
Proof.
  revert ls. induction n as [|n IH]; intros ls; simpl; [done|].
  destruct ls; simpl; by rewrite IH.
Qed.

Lemma buildLinesContainer_length st ls :
  (1 <= length (buildLinesContainer st ls) <= 25)%nat.
Proof. unfold buildLinesContainer. rewrite buildRows_length. lia. Qed.

Lemma length_delete_le {A} (l : list A) i :
  (length (delete i l) <= length l)%nat.
Proof.
  revert i. induction l as [|x l IH]; intros [|i]; simpl; try lia.
  specialize (IH i). lia.
Qed.

Lemma stepLines_capped st c ev :
  (length c <= 25)%nat -> (length (stepLines st c ev) <= 25)%nat.
Proof.
  intros Hc. destruct ev as [ls| |i|i r]; cbn [stepLines].
  - apply buildLinesContainer_length.
  - destruct (Nat.leb_spec 25 (length c)); [done|].
    rewrite length_app. simpl. lia.
  - pose proof (length_delete_le c i). lia.
  - by rewrite length_insert.
Qed.

(** X13.  The lines container never holds more than 25 rows: it is built
    with 1 to 25 rows, and no sequence of add-line clicks, removals and
    edits takes it beyond 25, since the add-line button does nothing at
    25. *)
Theorem lines_container_capped st initialLines evs :
  (1 <= length (buildLinesContainer st initialLines) <= 25)%nat
  /\ (length (fold_left (stepLines st) evs (buildLinesContainer st initialLines))
      <= 25)%nat
  /\ forall c, length c = 25%nat -> stepLines st c AddLineClick = c.
Proof.
  split; [apply buildLinesContainer_length|]. split.
  - assert (G : forall c, (length c <= 25)%nat ->
                (length (fold_left (stepLines st) evs c) <= 25)%nat).
    { induction evs as [|ev evs IH]; intros c Hc; simpl; [done|].
      by apply IH, stepLines_capped. }
    apply G, buildLinesContainer_length.
  - intros c Hc. cbn [stepLines]. by rewrite Hc.
Qed.

(** ** The entry form *)

Lemma gatherLines_ok Number st rows lines :
  forallb (rowOk Number) rows = true ->
  gatherLines Number st rows lines = inr (lines ++ map (lineOfRow Number st) rows).
Proof.
  revert lines. induction rows as [|r rows IH]; intros lines; simpl.
  - by rewrite app_nil_r.
  - unfold rowOk at 1. intros [[[Hs Hq]%andb_prop Hn]%andb_prop Hall]%andb_prop.
    apply negb_true_iff in Hs, Hq, Hn. rewrite Hs, Hq, Hn. simpl.
    rewrite IH by done. by rewrite <- app_assoc.
Qed.

Lemma gatherLines_bad Number st rows lines :
  forallb (rowOk Number) rows = false ->
  exists msg, gatherLines Number st rows lines = inl msg
              /\ (msg = msgNoItem \/ msg = msgBadQty).
Proof.
  revert lines. induction rows as [|r rows IH]; intros lines; simpl; [done|].
  unfold rowOk at 1.
  destruct (String.eqb (sel_value r) ""); simpl; [by eexists; eauto|].
  destruct (String.eqb (qty_value r) ""); simpl; [by eexists; eauto|].
  destruct (num_le0 (Number (qty_value r))); simpl; [by eexists; eauto|].
  apply IH.
Qed.

Lemma lineOfRow_valid Number st rows :
  forallb (rowOk Number) rows = true ->
  Forall (fun l => l_itemId l <> ""%string /\ num_le0 (l_qty l) = false)
    (map (lineOfRow Number st) rows).
Proof.
  induction rows as [|r rows IH]; simpl; [constructor|].
  unfold rowOk at 1. intros [[[Hs Hq]%andb_prop Hn]%andb_prop Hall]%andb_prop.
  constructor; [|by apply IH]. simpl. split.
  - by apply String.eqb_neq, negb_true_iff.
  - by apply negb_true_iff.
Qed.

Lemma buildLinesContainer_blank st : buildLinesContainer st [] = [blankRow].
Proof. reflexivity. Qed.

Lemma postForm_accepted trim Number localeCompare env form st :
  (1 <=? length (linesContainer form))%nat
  && (length (linesContainer form) <=? 25)%nat
  && forallb (rowOk Number) (linesContainer form) = true ->
  postPermissionFromForm trim Number localeCompare env form false None st
  = (refreshMasterData localeCompare
       (addPermission
          {| p_id := uid "perm" (rnd_perm env);
             p_number := trim (permNumber form);
             p_type := permType form;
             p_store := permStore form;
             p_from := permFrom form;
             p_to := permTo form;
             p_date := str_or (permDate form) (isoDay (clock_date env));
             p_subNumber := permSubNumber form;
             p_posted := true;
             p_postedAt := clock_posted env;
             p_lines := map (lineOfRow Number st) (linesContainer form);
             p_createdAt := clock_created env |} st),
     [blankRow], msgPosted).
Proof.
  intros [[H1 H25]%andb_prop Hall]%andb_prop.
  apply Nat.leb_le in H1, H25. unfold postPermissionFromForm.
  destruct (Nat.eqb_spec (length (linesContainer form)) 0); [lia|].
  destruct (Nat.ltb_spec 25 (length (linesContainer form))); [lia|].
  rewrite (gatherLines_ok _ _ _ _ Hall). done.
Qed.

Lemma postForm_refused trim Number localeCompare env form isEdit existingPermId st :
  (1 <=? length (linesContainer form))%nat
  && (length (linesContainer form) <=? 25)%nat
  && forallb (rowOk Number) (linesContainer form) = false ->
  exists msg,
    postPermissionFromForm trim Number localeCompare env form isEdit
      existingPermId st
    = (st, linesContainer form, msg)
    /\ (msg = msgNoLines \/ msg = msgTooMany \/ msg = msgNoItem \/ msg = msgBadQty).
Proof.
  intros H. unfold postPermissionFromForm.
  destruct (Nat.eqb_spec (length (linesContainer form)) 0); [by eexists; eauto|].
  destruct (Nat.ltb_spec 25 (length (linesContainer form))); [by eexists; eauto 6|].
  destruct (Nat.leb_spec 1 (length (linesContainer form))); [|lia].
  destruct (Nat.leb_spec (length (linesContainer form)) 25); [|lia].
  simpl in H.
  destruct (gatherLines_bad Number st _ [] H) as (msg & -> & Hmsg).
  exists msg. split; [done|]. destruct Hmsg; auto.
Qed.

(** X14.  Posting from the entry form is all or nothing.  With 1 to 25
    rows, each with an item chosen and a quantity that is filled in and not
    zero or less, one posted permission is appended, with one line per row
    in row order, and the container is reset to a single blank row; in
    every other case the store and the rows are left exactly as they were
    and one of the four refusals is shown. *)
Theorem postPermissionFromForm_all_or_nothing
    trim Number localeCompare env form st :
  let rows := linesContainer form in
  let r := postPermissionFromForm trim Number localeCompare env form false None st in
  if (1 <=? length rows)%nat && (length rows <=? 25)%nat
     && forallb (rowOk Number) rows
  then exists p,
         r = (refreshMasterData localeCompare (addPermission p st),
              [blankRow], msgPosted)
         /\ p_posted p = true
         /\ p_id p = uid "perm" (rnd_perm env)
         /\ p_type p = permType form
         /\ p_lines p = map (lineOfRow Number st) rows
         /\ (1 <= length (p_lines p) <= 25)%nat
         /\ Forall (fun l => l_itemId l <> ""%string /\ num_le0 (l_qty l) = false)
              (p_lines p)
  else exists msg,
         r = (st, rows, msg)
         /\ (msg = msgNoLines \/ msg = msgTooMany \/ msg = msgNoItem
             \/ msg = msgBadQty).
Proof.
  cbv zeta.
  destruct ((1 <=? length (linesContainer form))%nat
            && (length (linesContainer form) <=? 25)%nat
            && forallb (rowOk Number) (linesContainer form)) eqn:Hacc.
  - eexists. split; [by apply postForm_accepted|]. simpl.
    apply andb_prop in Hacc as [[H1 H25]%andb_prop Hall].
    apply Nat.leb_le in H1, H25.
    split; [done|]. split; [done|]. split; [done|]. split; [done|].
    split; [rewrite length_map; lia|]. by apply lineOfRow_valid.
  - by apply postForm_refused.
Qed.

Lemma postedOn_rows Number st k ty rows b :
  postedOn k ty (map (lineOfRow Number st) rows) b = postedRows Number k ty rows b.
Proof.
  unfold postedOn, postedRows. revert b.
  induction rows as [|r rows IH]; intros b; simpl; [done|]. by rewrite IH.
Qed.

Lemma hasItem_rows Number st k rows p :
  p_lines p = map (lineOfRow Number st) rows -> hasItem k p = choosesItem k rows.
Proof.
  intros Hl. unfold hasItem, choosesItem. rewrite Hl. clear Hl.
  induction rows as [|r rows IH]; simpl; [done|]. by rewrite IH.
Qed.

Lemma keepPermission_noFilters Date_parse p :
  keepPermission Date_parse noFilters p = true.
Proof. reflexivity. Qed.

(** X15.  A permission posted from the entry form moves the unfiltered
    balances row by row: the entry of an item that some row chooses is its
    old balance ([0] when it had none) taken through the rows that choose
    it, in their order, each adding its quantity for an addition or a
    return and subtracting it for a transfer, an equipment deduction or a
    disbursement; the entry of an item that no row chooses is as before. *)
Theorem posting_moves_balances Date_parse trim Number localeCompare env form st k :
  (1 <=? length (linesContainer form))%nat
  && (length (linesContainer form) <=? 25)%nat
  && forallb (rowOk Number) (linesContainer form) = true ->
  let before := computeBalances Date_parse noFilters st in
  computeBalances Date_parse noFilters
    (postPermissionFromForm trim Number localeCompare env form false None st).1.1
  !! k
  = if choosesItem k (linesContainer form)
    then Some (postedRows Number k (permType form) (linesContainer form)
                 (default 0 (before !! k)))
    else before !! k.
Proof.
  intros Hacc. cbv zeta. rewrite postForm_accepted by done. cbn [fst].
  rewrite computeBalances_refresh.
  rewrite !computeBalances_unfiltered by done. unfold scanBalances.
  rewrite selected_push. cbn [p_posted]. rewrite keepPermission_noFilters.
  cbn [andb]. change (items (addPermission _ st)) with (items st).
  rewrite fold_left_app. cbn [fold_left].
  rewrite postPermission_lookup. cbn [p_type p_lines].
  rewrite (hasItem_rows Number st k (linesContainer form)) by done.
  by rewrite postedOn_rows.
Qed.

(** X16.  In edit mode the entry form rewrites the first permission with
    the given id in place: it keeps its id, its creation time and its place
    in the list, takes the header of the form, is posted, and holds one
    line per row; when no permission has the id the store is left as it
    was. *)
Theorem postPermissionFromForm_edit_in_place
    trim Number localeCompare env form id st :
  id <> ""%string ->
  (1 <=? length (linesContainer form))%nat
  && (length (linesContainer form) <=? 25)%nat
  && forallb (rowOk Number) (linesContainer form) = true ->
  let r := postPermissionFromForm trim Number localeCompare env form true
             (Some id) st in
  (Forall (fun p => p_id p <> id) (permissions st) ->
   r = (st, linesContainer form, msgNotFound))
  /\ (forall existing,
        List.find (hasId id) (permissions st) = Some existing ->
        exists l1 l2 p,
          permissions st = l1 ++ existing :: l2
          /\ Forall (fun q => p_id q <> id) l1
          /\ permissions r.1.1 = l1 ++ p :: l2
          /\ p_id p = p_id existing
          /\ p_createdAt p = p_createdAt existing
          /\ p_posted p = true
          /\ p_type p = permType form
          /\ p_lines p = map (lineOfRow Number st) (linesContainer form)
          /\ r.2 = msgUpdated).
Proof.
  intros Hid [[H1 H25]%andb_prop Hall]%andb_prop.
  apply Nat.leb_le in H1, H25. cbv zeta. unfold postPermissionFromForm.
  destruct (Nat.eqb_spec (length (linesContainer form)) 0); [lia|].
  destruct (Nat.ltb_spec 25 (length (linesContainer form))); [lia|].
  rewrite (gatherLines_ok _ _ _ _ Hall), truthy_Some by done.
  change (opt_str (Some id)) with id.
  change ([] ++ map (lineOfRow Number st) (linesContainer form))
    with (map (lineOfRow Number st) (linesContainer form)).
  cbn [andb]. split.
  - intros Hnone.
    assert (List.find (hasId id) (permissions st) = None) as ->; [|done].
    apply find_none_Forall. eapply Forall_impl; [exact Hnone|].
    intros q Hq. by apply String.eqb_neq.
  - intros existing Hfind. rewrite Hfind.
    destruct (updateFirst_split (hasId id)
                (fun existing0 =>
                   {| p_id := p_id existing0;
                      p_number := trim (permNumber form);
                      p_type := permType form;
                      p_store := permStore form;
                      p_from := permFrom form;
                      p_to := permTo form;
                      p_date := str_or (permDate form) (isoDay (clock_date env));
                      p_subNumber := permSubNumber form;
                      p_posted := true;
                      p_postedAt := clock_posted env;
                      p_lines := map (lineOfRow Number st) (linesContainer form);
                      p_createdAt := p_createdAt existing0 |})
                _ _ Hfind) as (l1 & l2 & Hps & Hl1 & Hupd).
    eexists l1, l2, _. split; [done|]. split.
    { eapply Forall_impl; [exact Hl1|]. intros q Hq. by apply String.eqb_neq. }
    split; [simpl; exact Hupd|]. done.
Qed.

(** ** The edit form *)

Lemma keptLine_positive l : keptLine l = true <-> positiveLine l.
Proof.
  unfold keptLine, positiveLine, num_gt0.
  rewrite andb_true_iff, negb_true_iff, String.eqb_neq.
  destruct (l_qty l) as [q|].
  - rewrite Z.ltb_lt. split; [intros [? ?]; eauto|].
    intros [? (q' & [= ->] & ?)]. done.
  - split; [by intros [_ ?]|]. by intros [_ (q & ? & _)].
Qed.

(** X17.  The edit form keeps only the rows with an item and a quantity
    above zero, and saves nothing when none is left.  Otherwise it rewrites
    the first permission with the id in place; number, date, store, type,
    lines and posting time come from the form, while the id, the from, to
    and sub-number fields, the creation time and the posted flag stay as
    they were.  The number of lines is not bounded. *)
Theorem submitEditForm_keeps_positive_lines
    trim Number localeCompare env form st perm :
  List.find (hasEditId (editId form)) (permissions st) = Some perm ->
  let lines :=
    List.filter keptLine (map (editLine Number st) (editLinesContainer form)) in
  let r := submitEditForm trim Number localeCompare env form st in
  Forall positiveLine lines
  /\ (lines = [] -> r = (st, msgEditNoLines))
  /\ (lines <> [] ->
      exists l1 l2 p,
        permissions st = l1 ++ perm :: l2
        /\ Forall (fun q => hasEditId (editId form) q = false) l1
        /\ permissions r.1 = l1 ++ p :: l2
        /\ p_lines p = lines
        /\ p_id p = p_id perm /\ p_posted p = p_posted perm
        /\ p_from p = p_from perm /\ p_to p = p_to perm
        /\ p_subNumber p = p_subNumber perm
        /\ p_createdAt p = p_createdAt perm
        /\ r.2 = msgEditUpdated).
Proof.
  intros Hfind. cbv zeta. unfold submitEditForm. rewrite Hfind.
  split; [|split].
  - apply Forall_forall. intros l [_ Hl]%list_elem_of_In%filter_In.
    by apply keptLine_positive.
  - by intros ->.
  - intros Hne.
    destruct (List.filter keptLine (map (editLine Number st) (editLinesContainer form)))
      as [|l ls] eqn:Hlines; [done|]. cbn [length Nat.eqb].
    destruct (updateFirst_split (hasEditId (editId form))
                (fun perm0 =>
                   {| p_id := p_id perm0;
                      p_number := trim (editPermNumber form);
                      p_type := editPermType form;
                      p_store := editPermStore form;
                      p_from := p_from perm0;
                      p_to := p_to perm0;
                      p_date := str_or (editPermDate form) (isoDay (clock_date env));
                      p_subNumber := p_subNumber perm0;
                      p_posted := p_posted perm0;
                      p_postedAt := clock_posted env;
                      p_lines := l :: ls;
                      p_createdAt := p_createdAt perm0 |})
                _ _ Hfind) as (l1 & l2 & Hps & Hl1 & Hupd).
    eexists l1, l2, _. split; [done|]. split; [done|].
    split; [simpl; exact Hupd|]. done.
Qed.

(** ** The item form and the items file *)

Lemma addItemWithInitial_items env name unit type group q st :
  items (addItemWithInitial env name unit type group q st)
  = items st ++ [mkItem (uid "it" (rnd_it env)) name unit type group].
Proof. unfold addItemWithInitial. simpl. by destruct (num_gt0 q). Qed.

Lemma addItemWithInitial_warehouses env name unit type group q st :
  warehouses (addItemWithInitial env name unit type group q st) = warehouses st.
Proof. unfold addItemWithInitial. simpl. by destruct (num_gt0 q). Qed.

Lemma addItemWithInitial_permissions env name unit type group q st :
  exists added,
    permissions (addItemWithInitial env name unit type group q st)
    = permissions st ++ added
    /\ Forall (fun p => exists z, 0 < z
                 /\ singleLine p T_ADD (uid "it" (rnd_it env)) z) added
    /\ length added = if num_gt0 q then 1%nat else 0%nat.
Proof.
  unfold addItemWithInitial. simpl. destruct q as [z|]; simpl.
  - destruct (Z.ltb_spec 0 z); simpl.
    + eexists [_]. split; [done|]. split; [|done].
      constructor; [|constructor]. exists z. split; [done|].
      split; [done|]. split; [done|]. by eexists.
    + exists []. by rewrite app_nil_r.
  - exists []. by rewrite app_nil_r.
Qed.

Lemma computeBalances_addItemWithInitial Date_parse env name unit type group q st k :
  num_or0 (computeBalances Date_parse noFilters
             (addItemWithInitial env name unit type group q st) !! k)
  = num_or0 (computeBalances Date_parse noFilters st !! k)
    + (if String.eqb (uid "it" (rnd_it env)) k && num_gt0 q then num_or0 q else 0).
Proof.
  unfold addItemWithInitial. cbn [addItem]. cbv zeta.
  assert (Hitems : forall st' : Store,
            permissions st' = permissions st ->
            num_or0 (computeBalances Date_parse noFilters st' !! k)
            = num_or0 (computeBalances Date_parse noFilters st !! k)).
  { intros st' Hps. rewrite !computeBalances_unfiltered, !scanBalances_value by done.
    unfold selected. by rewrite Hps. }
  destruct (num_gt0 q) eqn:Hq.
  - rewrite computeBalances_addPermission by done.
    rewrite Hitems by done. cbn [initPermission p_posted p_type p_lines it_id it_unit].
    rewrite keepPermission_noFilters. cbn [andb lineSum foldr l_itemId].
    unfold signedQty. cbn [l_qty].
    change (signOf "إذن إضافة") with 1.
    rewrite andb_true_r. destruct (String.eqb (uid "it" (rnd_it env)) k); lia.
  - rewrite Hitems by done. rewrite andb_false_r. lia.
Qed.

(** X18.  The item form, for a new item with name and unit filled in, adds
    one item and records its initial quantity: the unfiltered balance of
    the new id goes up by the initial quantity when that is above zero, and
    no other balance moves.  In edit mode it changes no permission and no
    balance of [computeBalances] without a group filter.  With the name or
    the unit blank it changes nothing. *)
Theorem submitItemForm_records_initial
    Date_parse trim Number localeCompare env form st :
  let r := submitItemForm trim Number localeCompare env form st in
  let initial := num_or0 (Number (itemInitial form)) in
  (trim (itemName form) = ""%string \/ trim (itemUnit form) = ""%string ->
   r = (st, Some msgItemIncomplete))
  /\ (trim (itemName form) <> ""%string -> trim (itemUnit form) <> ""%string ->
      (truthy (editing form) = false ->
       (forall k,
          num_or0 (computeBalances Date_parse noFilters r.1 !! k)
          = num_or0 (computeBalances Date_parse noFilters st !! k)
            + (if String.eqb (uid "it" (rnd_it env)) k && (0 <? initial)
               then initial else 0))
       /\ Permutation (items r.1)
            (items st
             ++ [mkItem (uid "it" (rnd_it env)) (trim (itemName form))
                   (trim (itemUnit form)) (itemType form)
                   (str_or (itemGroup form) (trim (newGroupInput form)))]))
      /\ (truthy (editing form) = true ->
          permissions r.1 = permissions st
          /\ forall f, truthy (filterGroup f) = false ->
               computeBalances Date_parse f r.1 = computeBalances Date_parse f st)).
Proof.
  cbv zeta. unfold submitItemForm. split.
  - intros [-> | ->]; [done|]. by rewrite orb_true_r.
  - intros Hn%String.eqb_neq Hu%String.eqb_neq. rewrite Hn, Hu. cbn [orb].
    split.
    + intros ->. cbn [fst]. split.
      * intros k. rewrite computeBalances_refresh, computeBalances_addItemWithInitial.
        cbn [num_gt0]. by rewrite (num_or0_Some (num_or0 _)).
      * etrans; [apply array_sort_permutation|].
        by rewrite addItemWithInitial_items.
    + intros ->. cbn [fst]. split; [done|].
      intros f Hg. rewrite computeBalances_refresh.
      by apply computeBalances_editItem.
Qed.

Lemma hasName_app n l1 l2 : hasName n (l1 ++ l2) = hasName n l1 || hasName n l2.
Proof. unfold hasName. apply existsb_app. Qed.

Lemma hasName_false n its : hasName n its = false <-> ~ In n (map it_name its).
Proof.
  unfold hasName. induction its as [|it its IH]; simpl; [tauto|].
  rewrite orb_false_iff, IH, String.eqb_neq. tauto.
Qed.

Lemma importRow_shape trim Number env colIndex line st :
  warehouses (importRow trim Number env colIndex line st) = warehouses st
  /\ exists new added,
       items (importRow trim Number env colIndex line st) = items st ++ new
       /\ permissions (importRow trim Number env colIndex line st)
          = permissions st ++ added
       /\ (new = []
           \/ exists it, new = [it] /\ hasName (it_name it) (items st) = false
                         /\ rowName trim colIndex line = Some (it_name it))
       /\ Forall (fun p => exists it z, In it new /\ 0 < z
                    /\ singleLine p T_ADD (it_id it) z) added.
Proof.
  unfold importRow, rowName.
  destruct (truthy (cell colIndex "name" (parseCSVLine line))); simpl.
  2:{ split; [done|]. exists [], []. rewrite !app_nil_r. by eauto. }
  fold (hasName (trim (opt_str (cell colIndex "name" (parseCSVLine line)))) (items st)).
  destruct (hasName _ (items st)) eqn:Hex.
  { split; [done|]. exists [], []. rewrite !app_nil_r. by eauto. }
  split; [apply addItemWithInitial_warehouses|].
  match goal with
  | |- context [addItemWithInitial ?e ?n ?u ?t ?g ?q st] =>
      destruct (addItemWithInitial_permissions e n u t g q st)
        as (added & Hadd & Hall & _);
      exists [mkItem (uid "it" (rnd_it e)) n u t g], added
  end.
  split; [apply addItemWithInitial_items|]. split; [done|]. split.
  - right. eexists. split; [done|]. by split.
  - eapply Forall_impl; [exact Hall|]. intros p (z & Hz & Hp).
    eexists _, z. split; [by left|]. by split.
Qed.

Lemma importRows_shape trim Number envAt colIndex i lines st :
  warehouses (importRows trim Number envAt colIndex i lines st) = warehouses st
  /\ exists new added,
       items (importRows trim Number envAt colIndex i lines st) = items st ++ new
       /\ permissions (importRows trim Number envAt colIndex i lines st)
          = permissions st ++ added
       /\ NoDup (map it_name new)
       /\ Forall (fun it => hasName (it_name it) (items st) = false) new
       /\ Forall (fun p => exists it z, In it new /\ 0 < z
                    /\ singleLine p T_ADD (it_id it) z) added.
Proof.
  revert i st. induction lines as [|line lines IH]; intros i st; simpl.
  { split; [done|]. exists [], []. rewrite !app_nil_r.
    split; [done|]. split; [done|]. split; [constructor|]. by split. }
  destruct (importRow_shape trim Number (envAt i) colIndex line st)
    as (Hw1 & n1 & a1 & Hi1 & Hp1 & Hn1 & Ha1).
  destruct (IH (S i) (importRow trim Number (envAt i) colIndex line st))
    as (Hw2 & n2 & a2 & Hi2 & Hp2 & Hnd2 & Hn2 & Ha2).
  split; [by rewrite Hw2|]. exists (n1 ++ n2), (a1 ++ a2).
  rewrite Hi2, Hp2, Hi1, Hp1, !app_assoc.
  split; [done|]. split; [done|].
  assert (Hn2' : Forall (fun it => hasName (it_name it) (items st) = false
                                   /\ hasName (it_name it) n1 = false) n2).
  { eapply Forall_impl; [exact Hn2|]. intros it. rewrite Hi1, hasName_app.
    by intros [? ?]%orb_false_elim. }
  split; [|split].
  - rewrite map_app. apply NoDup_app. split; [|split; [|done]].
    + destruct Hn1 as [-> | (it & -> & _)]; [constructor|].
      apply NoDup_singleton.
    + intros n Hin1 Hin2. apply list_elem_of_In, in_map_iff in Hin2 as (it & <- & Hit).
      apply list_elem_of_In in Hit. rewrite Forall_forall in Hn2'.
      destruct (Hn2' it Hit) as [_ Hno]. apply hasName_false in Hno.
      by apply Hno, list_elem_of_In.
  - apply Forall_app. split.
    + destruct Hn1 as [-> | (it & -> & Hit & _)]; [constructor|].
      by constructor.
    + eapply Forall_impl; [exact Hn2'|]. by intros it [? _].
  - apply Forall_app. split.
    + eapply Forall_impl; [exact Ha1|]. intros p (it & z & Hin & Hz).
      exists it, z. split; [|done]. apply in_or_app. by left.
    + eapply Forall_impl; [exact Ha2|]. intros p (it & z & Hin & Hz).
      exists it, z. split; [|done]. apply in_or_app. by right.
Qed.

(** X19.  Importing an items file only ever adds: the items afterwards are
    the items before plus new ones whose names are pairwise different and
    were not in the store, the warehouses stay, and the permissions are the
    old ones followed by posted addition permissions, each with a single
    line of positive quantity for one of the new items.  So item names that
    were unique stay unique.  When the file is refused the store is left as
    it was. *)
Theorem importItemsCSV_only_adds_new_names
    trim Number localeCompare toLowerCase envAt text st :
  let r := importItemsCSV trim Number localeCompare toLowerCase envAt text st in
  (r.2 = msgImported \/ r = (st, msgFileEmpty) \/ r = (st, msgNoColumns))
  /\ warehouses r.1 = warehouses st
  /\ exists new added,
       Permutation (items r.1) (items st ++ new)
       /\ permissions r.1 = permissions st ++ added
       /\ NoDup (map it_name new)
       /\ Forall (fun it => hasName (it_name it) (items st) = false) new
       /\ Forall (fun p => exists it z, In it new /\ 0 < z
                    /\ singleLine p T_ADD (it_id it) z) added
       /\ (NoDup (map it_name (items st)) -> NoDup (map it_name (items r.1))).
Proof.
  cbv zeta. unfold importItemsCSV.
  assert (Hsame : warehouses st = warehouses st
    /\ exists new added,
         Permutation (items st) (items st ++ new)
         /\ permissions st = permissions st ++ added
         /\ NoDup (map it_name new)
         /\ Forall (fun it => hasName (it_name it) (items st) = false) new
         /\ Forall (fun p => exists it z, In it new /\ 0 < z
                      /\ singleLine p T_ADD (it_id it) z) added
         /\ (NoDup (map it_name (items st)) -> NoDup (map it_name (items st)))).
  { split; [done|]. exists [], []. rewrite !app_nil_r.
    split; [done|]. split; [done|]. split; [constructor|]. by repeat split. }
  destruct (List.filter _ _) as [|first rest]; [by split; [right; left|]|].
  match goal with
  | |- context [if ?b then _ else _] => destruct b
  end; [by split; [right; right|]|].
  cbn [fst snd]. split; [by left|].
  match goal with
  | |- context [importRows trim Number envAt ?ci 1 rest st] =>
      destruct (importRows_shape trim Number envAt ci 1 rest st)
        as (Hw & new & added & Hi & Hp & Hnd & Hn & Ha)
  end.
  split; [done|]. exists new, added.
  assert (Hperm : Permutation
            (items (refreshMasterData localeCompare
                      (importRows trim Number envAt
                         (indexColumns 0
                            (map (headerName trim toLowerCase)
                               (splitCommas_from (chars first) [])) ∅) 1 rest st)))
            (items st ++ new)).
  { etrans; [apply array_sort_permutation|]. by rewrite Hi. }
  split; [done|]. split; [done|]. split; [done|]. split; [done|]. split; [done|].
  intros Hst. rewrite (Permutation_map it_name Hperm), map_app.
  apply NoDup_app. split; [done|]. split; [|done].
  intros n Hin1 Hin2. apply list_elem_of_In, in_map_iff in Hin2 as (it & <- & Hit).
  apply list_elem_of_In in Hit. rewrite Forall_forall in Hn.
  specialize (Hn it Hit). apply hasName_false in Hn. by apply Hn, list_elem_of_In.
Qed.

Lemma importRow_known trim Number env colIndex line st :
  (forall n, rowName trim colIndex line = Some n -> hasName n (items st) = true) ->
  importRow trim Number env colIndex line st = st.
Proof.
  unfold rowName, importRow. intros H.
  destruct (truthy (cell colIndex "name" (parseCSVLine line))); simpl; [|done].
  fold (hasName (trim (opt_str (cell colIndex "name" (parseCSVLine line)))) (items st)).
  by rewrite (H _ eq_refl).
Qed.

Lemma importRows_known trim Number envAt colIndex i lines st :
  Forall (fun line => forall n, rowName trim colIndex line = Some n ->
                                hasName n (items st) = true) lines ->
  importRows trim Number envAt colIndex i lines st = st.
Proof.
  intros H. revert i. induction H as [|line lines Hl _ IH]; intros i; simpl; [done|].
  rewrite importRow_known by done. apply IH.
Qed.

Lemma importRow_names trim Number env colIndex line st n :
  rowName trim colIndex line = Some n ->
  hasName n (items (importRow trim Number env colIndex line st)) = true.
Proof.
  unfold rowName, importRow.
  destruct (truthy (cell colIndex "name" (parseCSVLine line))); simpl; [|done].
  intros [= <-].
  fold (hasName (trim (opt_str (cell colIndex "name" (parseCSVLine line)))) (items st)).
  destruct (hasName _ (items st)) eqn:Hex; [done|].
  rewrite addItemWithInitial_items, hasName_app. simpl.
  by rewrite String.eqb_refl, orb_true_r.
Qed.

Lemma importRows_names trim Number envAt colIndex i lines st :
  Forall (fun line => forall n, rowName trim colIndex line = Some n ->
            hasName n (items (importRows trim Number envAt colIndex i lines st))
            = true) lines
  /\ forall n, hasName n (items st) = true ->
       hasName n (items (importRows trim Number envAt colIndex i lines st)) = true.
Proof.
  assert (Hmono : forall lines i st n, hasName n (items st) = true ->
            hasName n (items (importRows trim Number envAt colIndex i lines st))
            = true).
  { clear. intros lines i st n Hn.
    destruct (importRows_shape trim Number envAt colIndex i lines st)
      as (_ & new & added & -> & _).
    by rewrite hasName_app, Hn. }
  split; [|by apply Hmono].
  revert i st. induction lines as [|line lines IH]; intros i st; simpl;
    constructor; [|apply IH].
  intros n Hn. apply Hmono. by apply importRow_names.
Qed.

(** X20.  Importing the same items file a second time adds nothing: every
    name of the file is in the store after the first import, so the second
    one leaves items, warehouses and permissions as they are, whatever ids
    and times the environment would supply. *)
Theorem importItemsCSV_twice_adds_nothing
    trim Number localeCompare toLowerCase envAt envAt' text st :
  let r := importItemsCSV trim Number localeCompare toLowerCase envAt text st in
  r.2 = msgImported ->
  importItemsCSV trim Number localeCompare toLowerCase envAt' text r.1
  = (refreshMasterData localeCompare r.1, msgImported).
Proof.
  cbv zeta. unfold importItemsCSV.
  destruct (List.filter _ _) as [|first rest]; [done|].
  match goal with
  | |- context [if ?b then _ else _] => destruct b
  end; [done|].
  intros _. cbn [fst]. f_equal. f_equal.
  apply importRows_known.
  match goal with
  | |- context [importRows trim Number envAt ?ci 1 rest st] =>
      destruct (importRows_names trim Number envAt ci 1 rest st) as [Hnames _]
  end.
  eapply Forall_impl; [exact Hnames|].
  intros line Hline n Hn. unfold refreshMasterData. cbn [items].
  rewrite (hasName_perm n _ _ (array_sort_permutation _ _)). by apply Hline.
Qed.

(** ** The stock export *)

Lemma stockLines_eq Date_parse localeCompare f st :
  stockLines Date_parse localeCompare f st
  = String.string_of_list_ascii (join [","%char] chars stockHeaders)
    :: map (fun it =>
              csvRow [it_name it; it_unit it; str_or (it_group it) "";
                      it_type it;
                      decimal (bal_or0 (computeBalances Date_parse f st) (it_id it))])
         (List.filter (shownIn f) (array_sort (byName localeCompare) (items st))).
Proof.
  unfold stockLines. cbv zeta.
  generalize (computeBalances Date_parse f st) as balances.
  generalize (array_sort (byName localeCompare) (items st)) as its.
  generalize (String.string_of_list_ascii (join [","%char] chars stockHeaders)) as h.
  intros h its balances.
  change [h] with ([h] ++ map (fun it =>
              csvRow [it_name it; it_unit it; str_or (it_group it) "";
                      it_type it; decimal (bal_or0 balances (it_id it))])
            (List.filter (shownIn f) [])).
  change (h :: ?l) with ([h] ++ l).
  assert (G : forall acc,
    fold_left (pushStockRow f balances) its acc
    = acc ++ map (fun it =>
              csvRow [it_name it; it_unit it; str_or (it_group it) "";
                      it_type it; decimal (bal_or0 balances (it_id it))])
            (List.filter (shownIn f) its)).
  { induction its as [|it its IH]; intros acc; simpl; [by rewrite app_nil_r|].
    rewrite IH. unfold pushStockRow, shownIn.
    destruct (truthy (filterGroup f)
              && negb (String.eqb (it_group it) (opt_str (filterGroup f)))); [done|].
    destruct (truthy (filterItemId f)
              && negb (String.eqb (it_id it) (opt_str (filterItemId f)))); [done|].
    simpl. by rewrite <- app_assoc. }
  rewrite G. simpl. done.
Qed.

Lemma isItemId_In it its : In it its -> isItemId (it_id it) its = true.
Proof.
  unfold isItemId. intros H. apply existsb_exists. exists it.
  split; [done | apply String.eqb_refl].
Qed.

Lemma shown_balance Date_parse f st it :
  In it (items st) -> shownIn f it = true ->
  bal_or0 (computeBalances Date_parse f st) (it_id it)
  = permSum (it_id it) (selected Date_parse f st).
Proof.
  intros Hin [Hg Hi]%andb_prop. apply negb_true_iff in Hg, Hi.
  unfold bal_or0, computeBalances.
  destruct (truthy (filterItemId f)) eqn:Ei.
  - simpl in Hi. apply negb_false_iff, String.eqb_eq in Hi. rewrite <- Hi.
    rewrite lookup_singleton. case_decide; [|done]. unfold bal_or0.
    by rewrite num_or0_Some, scanBalances_value.
  - destruct (truthy (filterGroup f)) eqn:Eg.
    + simpl in Hg. apply negb_false_iff in Hg.
      rewrite groupOut_lookup.
      assert (inGroup (opt_str (filterGroup f)) (it_id it) (items st) = true) as ->.
      { unfold inGroup. apply existsb_exists. exists it. split; [done|].
        by rewrite String.eqb_refl, Hg. }
      unfold bal_or0. by rewrite num_or0_Some, scanBalances_value.
    + apply scanBalances_value.
Qed.

(** X21.  The stock export agrees with the ledger under every combination
    of filters.  After the header line it holds one line per item that
    passes the group and item filters, in the order of the name sort, and
    each line reads back through [parseCSVLine] as the item's name, unit,
    group and type followed by the signed sum of the surviving posted lines
    that name the item, in decimal. *)
Theorem stock_export_shows_ledger_balances Date_parse localeCompare f st :
  map parseCSVLine (tail (stockLines Date_parse localeCompare f st))
  = map (fun it =>
           [it_name it; it_unit it; it_group it; it_type it;
            decimal (permSum (it_id it) (selected Date_parse f st))])
      (List.filter (shownIn f) (array_sort (byName localeCompare) (items st))).
Proof.
  rewrite stockLines_eq. cbn [tail]. rewrite map_map.
  apply map_ext_in. intros it [Hin Hshown]%filter_In.
  assert (Hst : In it (items st)).
  { eapply Permutation_in; [apply array_sort_permutation | exact Hin]. }
  rewrite (shown_balance _ _ _ _ Hst Hshown).
  assert (str_or (it_group it) "" = it_group it) as ->.
  { unfold str_or. by destruct (String.eqb_spec (it_group it) "") as [->|]. }
  unfold parseCSVLine, csvRow, chars.
  rewrite String.list_ascii_of_string_of_list_ascii.
  apply (parseCSV_fields _ _ []).
Qed.

(** ** Opening a permission in the edit panel and saving it *)

Lemma rowOf_sel st l :
  sel_value (rowOf st l)
  = if isItemId (l_itemId l) (items st) then l_itemId l else ""%string.
Proof. reflexivity. Qed.

Lemma rowOf_qty Number st l :
  (forall q, l_qty l = Some q -> Number (decimal q) = Some q) ->
  Number ""%string = Some 0 ->
  num_or0 (Number (qty_value (rowOf st l))) = num_or0 (l_qty l).
Proof.
  intros Hl Hblank. unfold rowOf. cbn [qty_value].
  destruct (l_qty l) as [q|]; [|by rewrite Hblank].
  destruct (Z.eqb_spec q 0) as [->|Hq0]; [by rewrite Hblank|].
  fold (decimal q). by rewrite (Hl q eq_refl).
Qed.

Lemma num_gt0_or0 x : num_gt0 (Some (num_or0 x)) = num_gt0 x.
Proof. destruct x as [q|]; [by rewrite num_or0_Some | done]. Qed.

Lemma reopened_lines Number st ls :
  Forall (fun l => forall q, l_qty l = Some q -> Number (decimal q) = Some q) ls ->
  Number ""%string = Some 0 ->
  List.filter keptLine (map (editLine Number st) (map (rowOf st) ls))
  = map (fun l => mkLine (l_itemId l) (unitOf (l_itemId l) st)
                    (Some (num_or0 (l_qty l))) "")
      (List.filter (survivesEdit st) ls).
Proof.
  intros Hnum Hblank. induction Hnum as [|l ls Hl _ IH]; [done|].
  cbn [map List.filter]. rewrite IH. clear IH.
  unfold keptLine, editLine, survivesEdit. cbn [l_itemId l_qty].
  rewrite (rowOf_qty Number st l Hl Hblank), num_gt0_or0, rowOf_sel.
  destruct (isItemId (l_itemId l) (items st)) eqn:Eid; cbn [andb negb]; [|done].
  destruct (String.eqb (l_itemId l) ""); cbn [andb negb]; [done|].
  by destruct (num_gt0 (l_qty l)).
Qed.

(** X22.  Opening a permission in the edit panel and saving it as shown
    does not keep all of its lines: a line stays exactly when its item is
    still in the store and its quantity is above zero.  The lines of an item
    that was removed are dropped (or, when no line stays, nothing is saved),
    and the lines that stay take the item's current unit. *)
Theorem reopened_permission_loses_removed_items
    trim Number localeCompare env form st perm :
  List.find (hasEditId (editId form)) (permissions st) = Some perm ->
  editLinesContainer form = openEditRows st perm ->
  Forall (fun l => forall q, l_qty l = Some q -> Number (decimal q) = Some q)
    (p_lines perm) ->
  Number ""%string = Some 0 ->
  let kept := List.filter (survivesEdit st) (p_lines perm) in
  let r := submitEditForm trim Number localeCompare env form st in
  (kept = [] -> r = (st, msgEditNoLines))
  /\ (kept <> [] ->
      exists l1 l2 p,
        permissions st = l1 ++ perm :: l2
        /\ permissions r.1 = l1 ++ p :: l2
        /\ p_id p = p_id perm
        /\ p_lines p
           = map (fun l => mkLine (l_itemId l) (unitOf (l_itemId l) st)
                             (Some (num_or0 (l_qty l))) "") kept).
Proof.
  intros Hfind Hrows Hnum Hblank. cbv zeta. unfold submitEditForm.
  rewrite Hfind, Hrows. unfold openEditRows.
  rewrite (reopened_lines Number st _ Hnum Hblank). split.
  - by intros ->.
  - intros Hne.
    destruct (List.filter (survivesEdit st) (p_lines perm)) as [|l ls] eqn:Hk; [done|].
    cbn [map length Nat.eqb].
    match goal with
    | |- context [updateFirst ?t ?g (permissions st)] =>
        destruct (updateFirst_split t g _ _ Hfind) as (l1 & l2 & Hps & _ & Hupd)
    end.
    eexists l1, l2, _. split; [done|]. split; [simpl; exact Hupd|]. done.
Qed.

(** ** The item card export *)

Lemma fold_push {A B} (g : A -> B) l acc :
  fold_left (fun data r => data ++ [g r]) l acc = acc ++ map g l.
Proof.
  revert acc. induction l as [|x l IH]; intros acc; simpl; [by rewrite app_nil_r|].
  by rewrite IH, <- app_assoc.
Qed.

Lemma parseCSVLine_cardFields r : parseCSVLine (csvRow (cardFields r)) = cardFields r.
Proof.
  unfold parseCSVLine, csvRow, chars.
  rewrite String.list_ascii_of_string_of_list_ascii.
  apply (parseCSV_fields _ _ []).
Qed.

(** X23.  The item card can only be exported for an id that is an item of
    the store: for any other id, an alert is all there is, even when the
    card has rows.  Otherwise the file is named after the first item with
    the id and holds the header, one line per card row, which reads back
    through [parseCSVLine] as the fields of the row, and a last line with
    the balance, the card sum of the posted permissions. *)
Theorem card_export_needs_current_item Date_parse itemId st :
  (isItemId itemId (items st) = false ->
   exportItemCardToCSV Date_parse itemId st = inl msgNoCardItem)
  /\ (isItemId itemId (items st) = true ->
      exists it lines,
        List.find (fun i => String.eqb (it_id i) itemId) (items st) = Some it
        /\ exportItemCardToCSV Date_parse itemId st
           = inr (String.append (it_name it) "_card.csv",
                  String.string_of_list_ascii (join [","%char] chars cardHeaders)
                  :: lines
                  ++ [String.append "الرصيد الحالي: "
                        (decimal (cardSum itemId
                                    (List.filter p_posted (permissions st))))])
        /\ map parseCSVLine lines
           = map cardFields (rows (getItemCard Date_parse itemId st))).
Proof.
  unfold exportItemCardToCSV, isItemId. split.
  - intros Hno.
    destruct (List.find _ (items st)) as [it|] eqn:Hf; [|done].
    apply find_some in Hf as [Hin Heq].
    assert (existsb (fun it => String.eqb (it_id it) itemId) (items st) = true)
      by (apply existsb_exists; eauto).
    congruence.
  - intros (it0 & Hin & Hid)%existsb_exists.
    destruct (List.find _ (items st)) as [it|] eqn:Hf.
    2:{ apply (find_none _ _ Hf) in Hin. congruence. }
    exists it, (map (fun r => csvRow (cardFields r))
                  (rows (getItemCard Date_parse itemId st))).
    split; [done|]. split.
    + cbv zeta. by rewrite fold_push, getItemCard_balance.
    + rewrite map_map. apply map_ext. intros r. apply parseCSVLine_cardFields.
Qed.

(** ** The permission search *)

Lemma filter_sublist {A} (g : A -> bool) l : sublist (List.filter g l) l.
Proof.
  induction l as [|x l IH]; simpl; [constructor|].
  destruct (g x); by constructor.
Qed.

Lemma filter_Forall {A} (g : A -> bool) l :
  Forall (fun x => g x = true) (List.filter g l).
Proof. apply Forall_forall. by intros x [_ Hx]%list_elem_of_In%filter_In. Qed.

Lemma Forall_filter_keep {A} (P : A -> Prop) (g : A -> bool) l :
  Forall P l -> Forall P (List.filter g l).
Proof.
  rewrite !Forall_forall. intros H x [Hx _]%list_elem_of_In%filter_In.
  by apply H, list_elem_of_In.
Qed.

(** X24.  The permission search only narrows the list of the store: its
    results are permissions of the store in store order, and all of them
    when the three fields are blank.  With a type given every result has
    exactly that type.  With an item text given every result has a line
    whose item is still in the store, so a permission whose lines only name
    removed items is never found by item. *)
Theorem search_goes_by_current_items
    trim toLowerCase includes numField itemField typeField st :
  let results :=
    searchPermissions trim toLowerCase includes numField itemField typeField st in
  sublist results (permissions st)
  /\ (trim numField = ""%string -> typeField = ""%string ->
      toLowerCase (trim itemField) = ""%string -> results = permissions st)
  /\ (typeField <> ""%string -> Forall (fun p => p_type p = typeField) results)
  /\ (toLowerCase (trim itemField) <> ""%string ->
      Forall (fun p => exists ln, In ln (p_lines p)
                                  /\ isItemId (l_itemId ln) (items st) = true)
        results).
Proof.
  cbv zeta. unfold searchPermissions. split; [|split; [|split]].
  - destruct (negb (String.eqb (toLowerCase (trim itemField)) ""));
      [etrans; [apply filter_sublist|]|];
      (destruct (negb (String.eqb typeField ""));
       [etrans; [apply filter_sublist|]|]);
      (destruct (negb (String.eqb (trim numField) ""));
       [apply filter_sublist | done]).
  - by intros -> -> ->.
  - intros Hty%String.eqb_neq. rewrite Hty. cbn [negb].
    destruct (negb (String.eqb (toLowerCase (trim itemField)) ""));
      [apply Forall_filter_keep|];
      (eapply Forall_impl; [apply filter_Forall|]);
      intros p Hp; by apply String.eqb_eq.
  - intros Hit%String.eqb_neq. rewrite Hit. cbn [negb].
    eapply Forall_impl; [apply filter_Forall|].
    intros p (ln & Hin & Hln)%existsb_exists. exists ln. split; [done|].
    unfold lineMatches in Hln.
    destruct (List.find _ (items st)) as [it|] eqn:Hf; [|done].
    apply find_some in Hf as [Hit' Hid]. unfold isItemId.
    apply existsb_exists. by exists it.
Qed.


Lemma lines_container_capped_witness :
  stepLines Demo.store0 (replicate 25 blankRow) AddLineClick
  = replicate 25 blankRow.
Proof.
  destruct (lines_container_capped Demo.store0 [] []) as (_ & _ & H).
  apply H. reflexivity.
Defined.

Lemma posting_moves_balances_witness :
  computeBalances IsoDate.parse noFilters
    (postPermissionFromForm DemoForms.trim DemoForms.Number
       DemoForms.localeCompare DemoForms.env DemoForms.entry false None
       Demo.store0).1.1 !! "it_a"%string
  = Some (postedRows DemoForms.Number "it_a" (permType DemoForms.entry)
            (linesContainer DemoForms.entry) 7).
Proof.
  exact (posting_moves_balances IsoDate.parse DemoForms.trim DemoForms.Number
           DemoForms.localeCompare DemoForms.env DemoForms.entry Demo.store0
           "it_a" eq_refl).
Defined.

Lemma postPermissionFromForm_edit_in_place_witness :
  exists l1 l2 p,
    permissions Demo.store0 = l1 ++ Demo.P2 :: l2
    /\ permissions
         (postPermissionFromForm DemoForms.trim DemoForms.Number
            DemoForms.localeCompare DemoForms.env DemoForms.entry true
            (Some "perm_2"%string) Demo.store0).1.1
       = l1 ++ p :: l2
    /\ p_id p = "perm_2"%string
    /\ p_createdAt p = "2024-01-06T08:00:00.000Z"%string
    /\ length (p_lines p) = 2%nat.
Proof.
  destruct (postPermissionFromForm_edit_in_place DemoForms.trim DemoForms.Number
              DemoForms.localeCompare DemoForms.env DemoForms.entry "perm_2"
              Demo.store0) as [_ H]; [discriminate | reflexivity |].
  destruct (H Demo.P2 eq_refl)
    as (l1 & l2 & p & H1 & _ & H2 & H3 & H4 & _ & _ & H5 & _).
  exists l1, l2, p. rewrite H3, H4, H5. by repeat split.
Defined.

Lemma submitEditForm_keeps_positive_lines_witness :
  Forall positiveLine
    (List.filter keptLine
       (map (editLine DemoForms.Number Demo.store0)
          (editLinesContainer DemoForms.edited)))
  /\ length
       (List.filter keptLine
          (map (editLine DemoForms.Number Demo.store0)
             (editLinesContainer DemoForms.edited))) = 1%nat.
Proof.
  destruct (submitEditForm_keeps_positive_lines DemoForms.trim DemoForms.Number
              DemoForms.localeCompare DemoForms.env DemoForms.edited Demo.store0
              Demo.P2 eq_refl) as (H & _).
  split; [exact H | reflexivity].
Defined.

Lemma submitItemForm_records_initial_witness :
  num_or0
    (computeBalances IsoDate.parse noFilters
       (submitItemForm DemoForms.trim DemoForms.Number DemoForms.localeCompare
          DemoForms.env DemoForms.newItem Demo.store0).1
     !! "it_k3x9q2a"%string)
  = 0 + 5.
Proof.
  destruct (submitItemForm_records_initial IsoDate.parse DemoForms.trim
              DemoForms.Number DemoForms.localeCompare DemoForms.env
              DemoForms.newItem Demo.store0) as [_ H].
  destruct H as [H _]; [discriminate | discriminate |].
  destruct (H eq_refl) as [Hk _]. exact (Hk "it_k3x9q2a"%string).
Defined.

Lemma importItemsCSV_only_adds_new_names_witness :
  NoDup (map it_name
           (items (importItemsCSV DemoForms.trim DemoForms.Number
                     DemoForms.localeCompare DemoForms.toLowerCase
                     DemoForms.envAt DemoForms.file Demo.store0).1)).
Proof.
  destruct (importItemsCSV_only_adds_new_names DemoForms.trim DemoForms.Number
              DemoForms.localeCompare DemoForms.toLowerCase DemoForms.envAt
              DemoForms.file Demo.store0)
    as (_ & _ & new & added & _ & _ & _ & _ & _ & H).
  apply H. compute_done.
Defined.

Lemma importItemsCSV_twice_adds_nothing_witness :
  importItemsCSV DemoForms.trim DemoForms.Number DemoForms.localeCompare
    DemoForms.toLowerCase DemoForms.envAt DemoForms.file
    (importItemsCSV DemoForms.trim DemoForms.Number DemoForms.localeCompare
       DemoForms.toLowerCase DemoForms.envAt DemoForms.file Demo.store0).1
  = (refreshMasterData DemoForms.localeCompare
       (importItemsCSV DemoForms.trim DemoForms.Number DemoForms.localeCompare
          DemoForms.toLowerCase DemoForms.envAt DemoForms.file Demo.store0).1,
     msgImported).
Proof.
  apply (importItemsCSV_twice_adds_nothing DemoForms.trim DemoForms.Number
           DemoForms.localeCompare DemoForms.toLowerCase DemoForms.envAt
           DemoForms.envAt DemoForms.file Demo.store0).
  reflexivity.
Defined.

Lemma reopened_permission_loses_removed_items_witness :
  exists l1 l2 p,
    permissions DemoForms.later = l1 ++ DemoForms.mixed :: l2
    /\ permissions
         (submitEditForm DemoForms.trim DemoForms.Number DemoForms.localeCompare
            DemoForms.env DemoForms.reopened DemoForms.later).1
       = l1 ++ p :: l2
    /\ p_id p = "perm_8"%string
    /\ p_lines p = [mkLine "it_b" "قطعة" (Some 2) ""].
Proof.
  destruct (reopened_permission_loses_removed_items DemoForms.trim
              DemoForms.Number DemoForms.localeCompare DemoForms.env
              DemoForms.reopened DemoForms.later DemoForms.mixed)
    as [_ H]; [reflexivity | reflexivity | | reflexivity |].
  { repeat constructor; intros q [= <-]; reflexivity. }
  apply H. discriminate.
Defined.

(** The sample file gives two new items, the first with its initial
    quantity on the books; the entry form refuses a row without an item. *)
Example sample_runs :
  map it_name
    (items (importItemsCSV DemoForms.trim DemoForms.Number DemoForms.localeCompare
              DemoForms.toLowerCase DemoForms.envAt DemoForms.file
              (mkStore [] [] [])).1)
  = ["bolt"; "nut"]%string
  /\ length
       (permissions
          (importItemsCSV DemoForms.trim DemoForms.Number DemoForms.localeCompare
             DemoForms.toLowerCase DemoForms.envAt DemoForms.file
             (mkStore [] [] [])).1) = 1%nat
  /\ postPermissionFromForm DemoForms.trim DemoForms.Number DemoForms.localeCompare
       DemoForms.env
       (mkPermForm "1" "" "" T_ADD "" "" "" [mkFormRow "" "3"]) false None
       Demo.store0
     = (Demo.store0, [mkFormRow "" "3"], msgNoItem).
Proof. by vm_compute. Qed.

Lemma card_export_needs_current_item_witness :
  exportItemCardToCSV IsoDate.parse "it_a" (removeItem "it_a" Demo.store0)
  = inl msgNoCardItem
  /\ balance (getItemCard IsoDate.parse "it_a" (removeItem "it_a" Demo.store0)) = 7.
Proof.
  destruct (card_export_needs_current_item IsoDate.parse "it_a"
              (removeItem "it_a" Demo.store0)) as [H _].
  split; [by apply H | reflexivity].
Defined.

Lemma search_goes_by_current_items_witness :
  searchPermissions DemoForms.trim DemoForms.toLowerCase DemoForms.includes
    "" "" "" Demo.store0
  = [Demo.P1; Demo.P2]
  /\ searchPermissions DemoForms.trim DemoForms.toLowerCase DemoForms.includes
       "" "مسمار" "" (removeItem "it_a" Demo.store0)
     = [].
Proof.
  destruct (search_goes_by_current_items DemoForms.trim DemoForms.toLowerCase
              DemoForms.includes "" "" "" Demo.store0) as (_ & H & _).
  split; [by apply H | reflexivity].
Defined.

(** ** The date bounds and the aggregation *)

Section DateBounds.
Variable Date_parse : string -> option Z.

Lemma computeBalances_lookup f st k :
  computeBalances Date_parse f st !! k
  = if outputs Date_parse f st k
    then Some (permSum k (selected Date_parse f st))
    else None.
Proof.
  unfold computeBalances, outputs.
  destruct (truthy (filterItemId f)).
  - rewrite lookup_singleton. unfold bal_or0. rewrite scanBalances_value.
    destruct (String.eqb_spec (opt_str (filterItemId f)) k) as [->|Hne];
      case_decide; done.
  - destruct (truthy (filterGroup f)).
    + rewrite groupOut_lookup. unfold bal_or0. by rewrite scanBalances_value.
    + apply scanBalances_lookup.
Qed.

Lemma selected_without f its whs l1 p l2 :
  ~ In p (selected Date_parse f (mkStore its whs (l1 ++ p :: l2))) ->
  p_posted p = true ->
  selected Date_parse f (mkStore its whs (l1 ++ p :: l2))
  = selected Date_parse f (mkStore its whs (l1 ++ l2)).
Proof.
  intros Hout Hposted.
  assert (Hk : keepPermission Date_parse f p = false).
  { destruct (keepPermission Date_parse f p) eqn:E; [|done].
    exfalso. apply Hout. apply selected_In. simpl.
    split; [apply in_elt | done]. }
  unfold selected. cbn [permissions]. rewrite !List.filter_app.
  cbn [List.filter]. rewrite Hposted. cbn [List.filter]. by rewrite Hk.
Qed.

Lemma leftOut_intro f st l1 p l2 :
  permissions st = l1 ++ p :: l2 -> p_posted p = true ->
  ~ In p (selected Date_parse f st) ->
  leftOut Date_parse f st l1 p l2.
Proof.
  intros Hps Hposted Hout. split; [done|].
  destruct st as [its whs ps]. simpl in *. subst ps.
  unfold computeBalances, scanBalances.
  by rewrite (selected_without f its whs l1 p l2 Hout Hposted).
Qed.

(** C5.  The date bounds are inclusive.  Take a posted permission with a
    valid date that passes the type filter.  Between two valid bounds
    [fromDate <= toDate] it is aggregated when dated exactly [fromDate] or
    exactly [toDate]: it is one of the permissions summed, and
    [computeBalances] holds at each key the signed sum over them.  Dated
    one day before [fromDate] or one day after [toDate] it is left out:
    [computeBalances] returns what it returns for the store without it.
    The same holds for either bound given alone. *)
Theorem date_bounds_inclusive st l1 p l2 pt fi fg t :
  permissions st = l1 ++ p :: l2 -> p_posted p = true -> typePasses pt p ->
  newDate Date_parse (p_date p) = Some t ->
  (forall d1 d2 t1 t2,
      newDate Date_parse d1 = Some t1 -> newDate Date_parse d2 = Some t2 ->
      t1 <= t2 ->
      let f := mkFilters (Some d1) (Some d2) pt fi fg in
      (t = t1 -> aggregated Date_parse f st p)
      /\ (t = t2 -> aggregated Date_parse f st p)
      /\ (t = t1 - IsoDate.msPerDay -> leftOut Date_parse f st l1 p l2)
      /\ (t = t2 + IsoDate.msPerDay -> leftOut Date_parse f st l1 p l2))
  /\ (forall d1 t1 td,
        newDate Date_parse d1 = Some t1 -> truthy td = false ->
        let f := mkFilters (Some d1) td pt fi fg in
        (t = t1 -> aggregated Date_parse f st p)
        /\ (t = t1 - IsoDate.msPerDay -> leftOut Date_parse f st l1 p l2))
  /\ (forall d2 t2 fd,
        newDate Date_parse d2 = Some t2 -> truthy fd = false ->
        let f := mkFilters fd (Some d2) pt fi fg in
        (t = t2 -> aggregated Date_parse f st p)
        /\ (t = t2 + IsoDate.msPerDay -> leftOut Date_parse f st l1 p l2)).
Proof.
  intros Hps Hposted Hty Hdate.
  assert (Hin : In p (permissions st)) by (rewrite Hps; apply in_elt).
  destruct (date_bounds_select Date_parse st p pt fi fg t Hin Hposted Hty Hdate)
    as (Hboth & Hfrom & Hto).
  assert (Hagg : forall f, In p (selected Date_parse f st) ->
                           aggregated Date_parse f st p).
  { intros f Hsel. split; [done|]. intros k. apply computeBalances_lookup. }
  split; [|split].
  - intros d1 d2 t1 t2 H1 H2 Hle. cbv zeta.
    destruct (Hboth d1 d2 t1 t2 H1 H2 Hle) as (Ha & Hb & Hc & Hd).
    split; [|split; [|split]]; intros Ht.
    + by apply Hagg, Ha.
    + by apply Hagg, Hb.
    + by apply leftOut_intro; [| |apply Hc].
    + by apply leftOut_intro; [| |apply Hd].
  - intros d1 t1 td H1 Htd. cbv zeta.
    destruct (Hfrom d1 t1 td H1 Htd) as (Ha & Hc).
    split; intros Ht.
    + by apply Hagg, Ha.
    + by apply leftOut_intro; [| |apply Hc].
  - intros d2 t2 fd H2 Hfd. cbv zeta.
    destruct (Hto d2 t2 fd H2 Hfd) as (Hb & Hd).
    split; intros Ht.
    + by apply Hagg, Hb.
    + by apply leftOut_intro; [| |apply Hd].
Qed.

End DateBounds.

Lemma date_bounds_inclusive_witness :
  let f := mkFilters (Some "2024-01-01"%string) (Some "2024-01-04"%string)
             None None None in
  computeBalances IsoDate.parse f Demo.store0 !! "it_a"%string = Some 10
  /\ computeBalances IsoDate.parse f Demo.store0
     = computeBalances IsoDate.parse f
         (mkStore [Demo.itemA; Demo.itemB] [Demo.mainStore] [Demo.P1]).
Proof.
  cbv zeta. split.
  - destruct (date_bounds_inclusive IsoDate.parse Demo.store0 [] Demo.P1 [Demo.P2]
                None None None 1704067200000) as (H & _ & _);
      [reflexivity | reflexivity | intros [=] | reflexivity |].
    destruct (H "2024-01-01" "2024-01-04" 1704067200000 1704326400000)%string
      as (Hfrom & _); [reflexivity | reflexivity | lia |].
    destruct (Hfrom eq_refl) as [_ Hsum].
    exact (Hsum "it_a"%string).
  - destruct (date_bounds_inclusive IsoDate.parse Demo.store0 [Demo.P1] Demo.P2 []
                None None None 1704412800000) as (H & _ & _);
      [reflexivity | reflexivity | intros [=] | reflexivity |].
    destruct (H "2024-01-01" "2024-01-04" 1704067200000 1704326400000)%string
      as (_ & _ & _ & Hafter); [reflexivity | reflexivity | lia |].
    destruct (Hafter eq_refl) as [_ Heq]. exact Heq.
Defined.

(** ** The two balances on doubles *)

Section DoublesFacts.
Import PrimFloat.

(** C2, outside the range of exact sums.  With fractional quantities the
    two functions can disagree although every type is one of the five: for
    an addition of 0.1 dated 2024-01-20, an addition of 1 dated 2024-01-10
    and a disbursement of 1 dated 2024-01-05, held in this order,
    [computeBalances] adds in the order of the store,
    [((0 + 0.1) + 1) - 1 = 0.10000000000000009], and [getItemCard] in the
    order of the dates, [((0 + (0 - 1)) + (1 - 0)) + (0.1 - 0) = 0.1]. *)
Lemma card_balance_differs_on_fractions :
  Doubles.computeBalances IsoDate.parse (onlyItem "it_a") [Demo.itemA]
    Doubles.fractions !! "it_a"%string
  = Some 0x1.99999999999ap-4%float
  /\ snd (Doubles.getItemCard IsoDate.parse "it_a" Doubles.fractions)
     = 0x1.999999999999ap-4%float
  /\ PrimFloat.eqb 0x1.99999999999ap-4 0x1.999999999999ap-4 = false.
Proof. vm_compute. by repeat split. Qed.

(** On the integers of the scenario the doubles give what the integers
    give: 7 from both functions, through the rows 10 and 7. *)
Example doubles_agree_on_the_scenario :
  let ps :=
    [Doubles.mkDPermission Demo.P1 [Doubles.mkDLine "it_a" 10%float];
     Doubles.mkDPermission Demo.P2 [Doubles.mkDLine "it_a" 3%float]] in
  Doubles.computeBalances IsoDate.parse (onlyItem "it_a") [Demo.itemA] ps
    !! "it_a"%string = Some 7%float
  /\ Doubles.getItemCard IsoDate.parse "it_a" ps = ([10%float; 7%float], 7%float).
Proof. vm_compute. by split. Qed.

End DoublesFacts.

(** ** Backup *)

Lemma sort_insert_map {A B : Type} (g : A -> B) (cmpA : A -> A -> option Z)
    (cmpB : B -> B -> option Z) x l :
  (forall a b, cmpB (g a) (g b) = cmpA a b) ->
  sort_insert cmpB (g x) (map g l) = map g (sort_insert cmpA x l).
Proof.
  intros Hcmp. induction l as [|y l IH]; simpl; [done|].
  unfold sorts_after. rewrite Hcmp.
  destruct (cmpA x y) as [v|]; [|done].
  destruct (0 <? v); [|done]. simpl. f_equal. apply IH.
Qed.

Lemma array_sort_map {A B : Type} (g : A -> B) (cmpA : A -> A -> option Z)
    (cmpB : B -> B -> option Z) l :
  (forall a b, cmpB (g a) (g b) = cmpA a b) ->
  array_sort cmpB (map g l) = map g (array_sort cmpA l).
Proof.
  intros Hcmp. induction l as [|x l IH]; simpl; [done|].
  rewrite IH. by apply sort_insert_map.
Qed.

Lemma sortItems_storeJS localeCompare st :
  sortItems localeCompare (storeJS st)
  = storeJS (refreshMasterData localeCompare st).
Proof.
  unfold sortItems, storeJS, refreshMasterData. cbn [map fst snd String.eqb].
  change (String.eqb "items" "items") with true.
  change (String.eqb "warehouses" "items") with false.
  change (String.eqb "permissions" "items") with false.
  cbv iota. cbn [items warehouses permissions].
  rewrite (array_sort_map itemJS (byName localeCompare) (byNameJS localeCompare));
    [done|].
  by intros [] [].
Qed.

Lemma refreshAllViews_storeJS localeCompare renderOther st :
  refreshAllViews localeCompare renderOther (storeJS st)
  = (storeJS (refreshMasterData localeCompare st), None).
Proof.
  unfold refreshAllViews. by rewrite readStore_storeJS, sortItems_storeJS.
Qed.

Lemma serialize_inMemory v : serialize (inMemory v) = v.
Proof.
  induction v as [| b | z | s | vs IH | fs IH] using json_ind; simpl; try done.
  - f_equal. induction IH as [|v vs Hv _ IHvs]; simpl; [done|].
    by rewrite Hv, IHvs.
  - f_equal. induction IH as [|[k v] fs Hv _ IHfs]; simpl; [done|].
    simpl in Hv. by rewrite Hv, IHfs.
Qed.

Lemma exportBackup_inMemory app :
  exportBackup app = exportBackupOf (inMemory (store app)).
Proof. unfold exportBackup, exportBackupOf. by rewrite serialize_inMemory. Qed.



(** A store whose items are not in the order of their names comes back
    with the items sorted. *)
Example backup_round_trip_demo :
  importBackupFile DemoForms.localeCompare DemoBackup.quiet
    (exportBackup
       (saveStore (storeJS (mkStore [Demo.itemB; Demo.itemA] [Demo.mainStore]
                              [Demo.P1; Demo.P2]))))
    (saveStore (JObj []))
  = Some ({| store := storeJS Demo.store0;
             persisted :=
               stringify 0
                 (storeJS (mkStore [Demo.itemB; Demo.itemA] [Demo.mainStore]
                             [Demo.P1; Demo.P2])) |}, AlertRestored).
Proof. vm_compute. reflexivity. Qed.




Example restore_of_array :
  importBackupFile DemoForms.localeCompare DemoBackup.quiet "[1, 2, 3]"
    DemoBackup.app0
  = Some (DemoBackup.app0, AlertFailed (Error invalidBackupMessage)).
Proof. vm_compute. reflexivity. Qed.

(** A payload whose containers are there but are no arrays passes the
    validation: the state is replaced before the rendering fails. *)
Example restore_of_misshapen_store :
  importBackupFile DemoForms.localeCompare
    (fun data => (data, Some TypeError))
    (stringify 2 (JObj [("items", JNum 1); ("warehouses", JNum 1);
                        ("permissions", JNum 1)]%string)) DemoBackup.app0
  = Some (saveStore (JObj [("items", JNum 1); ("warehouses", JNum 1);
                           ("permissions", JNum 1)]%string),
          AlertFailed TypeError).
Proof. vm_compute. reflexivity. Qed.
